(** * Grocery Store Management System: browser-side modules

  A shallow embedding of the two client modules of the repository,
  [static/manage-products.js] (class [ProductManager]) and the dashboard
  script (class [GroceryStore]), together with the statements the
  specification makes about them.

  Modelling conventions.
  - A JavaScript string is the list of its UTF-16 code units.
  - The numbers the product form parses are modelled exactly: integers as
    [Z], decimals as [Q]; [NaN] and the infinities are separate
    constructors.  The arithmetic of the order composer (subtotal and
    total) is binary64, taken from [SpecFloat] of the Standard Library.
  - DOM state the handlers read or write is a record field; text the user
    can edit is kept as a string, and is parsed where the code parses it.
  - An [await]ed network call is an input of the model: the handler takes
    the outcome of the call as a parameter, and every request it issues is
    appended to an event log together with the notifications it shows. *)

From Stdlib Require Import ZArith NArith QArith Qround Qabs Qreduction Lqa.
From Stdlib Require Import Bool List String Ascii Lia.
From Stdlib Require Import DecimalN DecimalPos.
From Stdlib Require Import Floats.SpecFloat.
From stdpp Require Import base list.

Import ListNotations.

(** ** The JavaScript platform functions the modules call *)

Module JS.

Definition jsstring := list N.

(** An ASCII literal as a JavaScript string. *)
Definition lit (s : string) : jsstring :=
  List.map N_of_ascii (list_ascii_of_string s).

(** The double quote, for building text that contains it. *)
Definition dquote : jsstring := [34%N].

(** A markup literal, written with ['] where the markup has the double
    quote. *)
Definition html (s : string) : jsstring :=
  List.map (fun a => if Ascii.eqb a "'"%char then 34%N else N_of_ascii a)
           (list_ascii_of_string s).

Definition eqb (s t : jsstring) : bool :=
  bool_decide (s = t).

(** Truthiness of a string: only the empty string is falsy. *)
Definition truthy (s : jsstring) : bool :=
  match s with [] => false | _ :: _ => true end.

Definition in_range (lo hi c : N) : bool := ((lo <=? c) && (c <=? hi))%N.

(** [\d] *)
Definition is_digit (c : N) : bool := in_range 48 57 c.

(** [a-zA-Z] *)
Definition is_alpha (c : N) : bool := in_range 97 122 c || in_range 65 90 c.

(** [\s], which is also the set [String.prototype.trim] strips:
    TAB, LF, VT, FF, CR, SPACE, NBSP, U+1680, U+2000..U+200A, U+2028,
    U+2029, U+202F, U+205F, U+3000, U+FEFF. *)
Definition is_space (c : N) : bool :=
  in_range 9 13 c || (c =? 32)%N || (c =? 160)%N || (c =? 5760)%N
  || in_range 8192 8202 c || (c =? 8232)%N || (c =? 8233)%N
  || (c =? 8239)%N || (c =? 8287)%N || (c =? 12288)%N || (c =? 65279)%N.

Fixpoint drop_while (p : N -> bool) (s : jsstring) : jsstring :=
  match s with
  | [] => []
  | c :: r => if p c then drop_while p r else s
  end.

Fixpoint take_while (p : N -> bool) (s : jsstring) : jsstring :=
  match s with
  | [] => []
  | c :: r => if p c then c :: take_while p r else []
  end.

Fixpoint starts_with (prefix s : jsstring) : bool :=
  match prefix, s with
  | [], _ => true
  | _ :: _, [] => false
  | a :: p, b :: r => (a =? b)%N && starts_with p r
  end.

(** [hay.includes(needle)] *)
Fixpoint includes (needle hay : jsstring) : bool :=
  starts_with needle hay
  || match hay with
     | [] => false
     | _ :: hay' => includes needle hay'
     end.

(** [s.trim()] *)
Definition trim (s : jsstring) : jsstring :=
  rev (drop_while is_space (rev (drop_while is_space s))).

(** [s.slice(0, -1)] *)
Definition slice_0_m1 (s : jsstring) : jsstring := removelast s.

(** *** Numbers *)

Inductive number :=
| NaN
| Fin (q : Q)
| Inf (negative : bool).

(** [!n] is true for [NaN] and for zero. *)
Definition number_truthy (n : number) : bool :=
  match n with
  | NaN => false
  | Fin q => negb (Qeq_bool q 0)
  | Inf _ => true
  end.

(** [n <= 0]; false on [NaN]. *)
Definition number_le_0 (n : number) : bool :=
  match n with
  | NaN => false
  | Fin q => Qle_bool q 0
  | Inf negative => negative
  end.

(** [n || 0] for a value known to be finite afterwards. *)
Definition or_0 (n : number) : Q :=
  match n with
  | Fin q => q
  | _ => 0
  end.

(** Value of one digit in a radix up to 16 (callers filter first). *)
Definition digit_value (c : N) : N :=
  if is_digit c then c - 48
  else if in_range 97 102 c then c - 87
  else c - 55.

Definition is_radix_digit (radix : N) (c : N) : bool :=
  if (radix =? 16)%N
  then is_digit c || in_range 97 102 c || in_range 65 70 c
  else is_digit c.

(** One more digit read in the given radix. *)
Definition digit_step (radix acc d : N) : N := (acc * radix + digit_value d)%N.

Definition digits_value (radix : N) (ds : jsstring) : N :=
  fold_left (digit_step radix) ds 0%N.

(** A leading [+] or [-]: whether the sign is negative, and the rest. *)
Definition split_sign (s : jsstring) : bool * jsstring :=
  match s with
  | c :: r => if (c =? 45)%N then (true, r)
              else if (c =? 43)%N then (false, r)
              else (false, s)
  | [] => (false, s)
  end.

(** A leading [0x] or [0X] selects radix 16. *)
Definition split_radix (s : jsstring) : N * jsstring :=
  match s with
  | z :: x :: r =>
      if (z =? 48)%N && ((x =? 120)%N || (x =? 88)%N) then (16%N, r) else (10%N, s)
  | _ => (10%N, s)
  end.

(** [parseInt(s)] with no radix argument; [None] is [NaN]. *)
Definition parseInt (s : jsstring) : option Z :=
  let '(negative, s1) := split_sign (drop_while is_space s) in
  let '(radix, s2) := split_radix s1 in
  match take_while (is_radix_digit radix) s2 with
  | [] => None
  | ds =>
      let v := Z.of_N (digits_value radix ds) in
      Some (if negative then - v else v)%Z
  end.

(** The exponent part of a decimal literal, 0 when there is none. *)
Definition exponent_part (s : jsstring) : Z :=
  match s with
  | e :: r =>
      if (e =? 101)%N || (e =? 69)%N then
        let '(negative, r1) := split_sign r in
        match take_while is_digit r1 with
        | [] => 0%Z
        | ds => let v := Z.of_N (digits_value 10 ds) in
                if negative then (- v)%Z else v
        end
      else 0%Z
  | [] => 0%Z
  end.

(** [parseFloat(s)]: the longest prefix that is a decimal literal. *)
Definition parseFloat (s : jsstring) : number :=
  let '(negative, s1) := split_sign (drop_while is_space s) in
  if starts_with (lit "Infinity") s1 then Inf negative else
  let ip := take_while is_digit s1 in
  let r1 := drop_while is_digit s1 in
  let '(fp, r2) :=
    match r1 with
    | c :: r => if (c =? 46)%N
                then (take_while is_digit r, drop_while is_digit r)
                else ([], r1)
    | [] => ([], r1)
    end in
  match ip ++ fp with
  | [] => NaN
  | ds =>
      let m := Z.of_N (digits_value 10 ds) in
      let e := (exponent_part r2 - Z.of_nat (length fp))%Z in
      let v := (inject_Z m * Qpower (10 # 1) e)%Q in
      Fin (if negative then - v else v)%Q
  end.

(** *** Regular expressions

    The three patterns of the product form are anchored at both ends and
    carry no flags, so [regex.test(s)] is a match of the whole string. *)

Inductive regex :=
| Void
| Eps
| Class (p : N -> bool)
| Alt (r1 r2 : regex)
| Cat (r1 r2 : regex)
| Star (r : regex).

(** [r?], [r+] and [r{0,2}] *)
Definition Opt (r : regex) : regex := Alt Eps r.
Definition Plus (r : regex) : regex := Cat r (Star r).
Definition Upto2 (r : regex) : regex := Cat (Opt r) (Opt r).

Fixpoint nullable (r : regex) : bool :=
  match r with
  | Void => false
  | Eps => true
  | Class _ => false
  | Alt r1 r2 => nullable r1 || nullable r2
  | Cat r1 r2 => nullable r1 && nullable r2
  | Star _ => true
  end.

Fixpoint deriv (c : N) (r : regex) : regex :=
  match r with
  | Void => Void
  | Eps => Void
  | Class p => if p c then Eps else Void
  | Alt r1 r2 => Alt (deriv c r1) (deriv c r2)
  | Cat r1 r2 =>
      if nullable r1
      then Alt (Cat (deriv c r1) r2) (deriv c r2)
      else Cat (deriv c r1) r2
  | Star r1 => Cat (deriv c r1) (Star r1)
  end.

(** [/^r$/.test(s)] *)
Fixpoint test (r : regex) (s : jsstring) : bool :=
  match s with
  | [] => nullable r
  | c :: s' => test (deriv c r) s'
  end.

(** *** Text of numbers *)

Fixpoint uint_text (u : Decimal.uint) : jsstring :=
  match u with
  | Decimal.Nil => []
  | Decimal.D0 u => 48%N :: uint_text u
  | Decimal.D1 u => 49%N :: uint_text u
  | Decimal.D2 u => 50%N :: uint_text u
  | Decimal.D3 u => 51%N :: uint_text u
  | Decimal.D4 u => 52%N :: uint_text u
  | Decimal.D5 u => 53%N :: uint_text u
  | Decimal.D6 u => 54%N :: uint_text u
  | Decimal.D7 u => 55%N :: uint_text u
  | Decimal.D8 u => 56%N :: uint_text u
  | Decimal.D9 u => 57%N :: uint_text u
  end.

(** [String(n)] for a natural number. *)
Definition N_text (n : N) : jsstring := uint_text (N.to_uint n).

(** [String(z)] for an integer. *)
Definition Z_text (z : Z) : jsstring :=
  if (z <? 0)%Z then 45%N :: N_text (Z.abs_N z) else N_text (Z.abs_N z).

(** [String(q)] for a decimal: the integer part, then fraction digits
    until the expansion ends (at most 20 of them). *)
Fixpoint fraction_text (fuel : nat) (num den : Z) : jsstring :=
  match fuel with
  | O => []
  | S fuel' =>
      if (num =? 0)%Z then []
      else (48 + Z.to_N (10 * num / den))%N
           :: fraction_text fuel' ((10 * num) mod den)%Z den
  end.

Definition number_text (q : Q) : jsstring :=
  let n := Z.abs (Qnum q) in
  let d := Z.pos (Qden q) in
  let frac := fraction_text 20 (n mod d)%Z d in
  (if (Qnum q <? 0)%Z then [45%N] else [])
  ++ N_text (Z.to_N (n / d))
  ++ match frac with [] => [] | _ => 46%N :: frac end.

(** Rounding to the nearest integer, ties away from zero (the default
    rounding of [Intl.NumberFormat]). *)
Definition round_half_expand (q : Q) : Z :=
  if Qle_bool 0 q then Qfloor (q + (1 # 2)) else (- Qfloor (- q + (1 # 2)))%Z.

(** Grouping of the [en-IN] locale: the last three digits, then pairs. *)
Fixpoint group_pairs (r : jsstring) : jsstring :=
  match r with
  | a :: ((b :: ((_ :: _) as t)) as u) => a :: b :: 44%N :: group_pairs t
  | _ => r
  end.

Definition group_en_IN (ds : jsstring) : jsstring :=
  rev match rev ds with
      | a :: b :: c :: ((_ :: _) as t) => a :: b :: c :: 44%N :: group_pairs t
      | r => r
      end.

Definition two_digits (n : N) : jsstring :=
  [(48 + n / 10)%N; (48 + n mod 10)%N].

(** [escapeHtml]: the text is assigned to [textContent] of a fresh
    element and read back as [innerHTML], which serialises a text node by
    replacing [&], [<], [>] and U+00A0. Quotes are left as they are. *)
Definition escape_unit (c : N) : jsstring :=
  if (c =? 38)%N then lit "&amp;"
  else if (c =? 60)%N then lit "&lt;"
  else if (c =? 62)%N then lit "&gt;"
  else if (c =? 160)%N then lit "&nbsp;"
  else [c].

Definition escapeHtml (text : jsstring) : jsstring :=
  flat_map escape_unit text.

(** [formatCurrency]: [Intl.NumberFormat("en-IN", { style: "currency",
    currency: "INR", minimumFractionDigits: 2 })]; exactly two fraction
    digits, the rupee sign U+20B9 after the minus sign. *)
Definition formatCurrency (amount : Q) : jsstring :=
  let h := Z.abs_N (round_half_expand (amount * (100 # 1))) in
  (if Qle_bool 0 amount then [] else [45%N])
  ++ 8377%N :: group_en_IN (N_text (h / 100))
  ++ 46%N :: two_digits (h mod 100).

End JS.

(** ** Binary64 numbers

    The values of JavaScript's [Number] type, with the operations of
    IEEE 754 as [SpecFloat] defines them for 53 bits of precision. *)

Module Double.

Definition prec : Z := 53%Z.
Definition emax : Z := 1024%Z.

Definition t := spec_float.

Definition zero : t := S754_zero false.

(** [x * y] and [x + y] *)
Definition mul : t -> t -> t := SFmul prec emax.
Definition add : t -> t -> t := SFadd prec emax.

(** The number nearest to a rational, ties to the even mantissa: the
    value a decimal literal denotes.  The division of [SpecFloat] is run
    on the numerator and the denominator as integers, so that the exact
    quotient is rounded once. *)
Definition of_Q (q : Q) : t :=
  let r := Qred q in
  match Qnum r with
  | Z0 => zero
  | Zpos n => SFdiv prec emax (S754_finite false n 0%Z) (S754_finite false (Qden r) 0%Z)
  | Zneg n => SFdiv prec emax (S754_finite true n 0%Z) (S754_finite false (Qden r) 0%Z)
  end.

Definition of_Z (z : Z) : t := of_Q (inject_Z z).

Definition of_number (n : JS.number) : t :=
  match n with
  | JS.NaN => S754_nan
  | JS.Fin q => of_Q q
  | JS.Inf negative => S754_infinity negative
  end.

(** Truthiness: [NaN], [0] and [-0] are falsy. *)
Definition truthy (x : t) : bool :=
  match x with
  | S754_zero _ | S754_nan => false
  | _ => true
  end.

(** [x || 0] *)
Definition or_zero (x : t) : t := if truthy x then x else zero.

Definition eqb (x y : t) : bool :=
  match x, y with
  | S754_zero s, S754_zero s' => Bool.eqb s s'
  | S754_infinity s, S754_infinity s' => Bool.eqb s s'
  | S754_nan, S754_nan => true
  | S754_finite s m e, S754_finite s' m' e' =>
      Bool.eqb s s' && Pos.eqb m m' && Z.eqb e e'
  | _, _ => false
  end.

(** The absolute value of a finite number, as a rational. *)
Definition magnitude (x : t) : Q :=
  match x with
  | S754_finite _ m e => (inject_Z (Z.pos m) * Qpower (2 # 1) e)%Q
  | _ => 0%Q
  end.

(** The [n] with [10^(n-1) <= v < 10^n], for [0 < v]. *)
Fixpoint order_below (fuel : nat) (v : Q) (n : Z) : Z :=
  match fuel with
  | O => n
  | S fuel' => if Qle_bool 1 v then n
              else order_below fuel' (v * (10 # 1))%Q (n - 1)%Z
  end.

Definition order (v : Q) : Z :=
  if Qle_bool 1 v
  then Z.of_nat (Decimal.nb_digits (N.to_uint (Z.to_N (Qfloor v))))
  else order_below 400 (v * (10 # 1))%Q 0%Z.

(** The two decimals of [k] significant digits around [v], the nearer
    one first. *)
Definition around (v : Q) (n k : Z) : Q * Q :=
  let u := Qpower (10 # 1) (n - k)%Z in
  let s := Qfloor (v / u)%Q in
  let lo := (inject_Z s * u)%Q in
  let hi := (inject_Z (s + 1)%Z * u)%Q in
  if Qle_bool (v - lo)%Q (hi - v)%Q then (lo, hi) else (hi, lo).

Fixpoint shortest_from (fuel : nat) (x : t) (v : Q) (n k : Z) : Q :=
  match fuel with
  | O => v
  | S fuel' =>
      let '(a, b) := around v n k in
      if eqb (of_Q a) x then a
      else if eqb (of_Q b) x then b
      else shortest_from fuel' x v n (k + 1)%Z
  end.

(** The decimal a finite number is written as: the one with the fewest
    significant digits (at most 17) that denotes the number, as
    [Number::toString] has it; number formatting starts from these
    digits. *)
Definition decimal (x : t) : Q :=
  match x with
  | S754_finite s m e =>
      let v := Qred (magnitude x) in
      let d := shortest_from 17 (S754_finite false m e) v (order v) 1%Z in
      Qred (if s then (- d)%Q else d)
  | _ => 0%Q
  end.

End Double.

(** ** Data shared by the two modules *)

(** A product as the REST backend serves it. *)
Module Product.
Record t := mk {
  id : Z;
  name : JS.jsstring;
  unit : JS.jsstring;
  price : Q;
  stock : Z
}.
End Product.

Inductive ToastType := success | error | info.

Inductive Method := GET | POST | PUT | DELETE.

(** One line of a submitted order. *)
Record OrderItem := {
product_name : JS.jsstring;
quantity : Z
}.

(** JSON bodies the client sends. *)
Inductive Body :=
| NoBody
| ProductData (name : JS.jsstring) (unit : option JS.jsstring)
            (price : JS.number) (stock : Z)
| OrderData (customer_name : JS.jsstring) (items : list OrderItem).

(** What a handler does to the outside: the toast it shows, or the request
  it sends with [fetch]. *)
Inductive Event :=
| Toast (message : JS.jsstring) (type : ToastType)
| Request (method : Method) (url : JS.jsstring) (body : Body).

Definition is_request (e : Event) : bool :=
match e with Request _ _ _ => true | Toast _ _ => false end.

(** How an awaited call ends: a 2xx status with a JSON body, another
  status with the [error] message of the payload when it has one, or a
  rejected promise (no connection, or a body that is not JSON). *)
Inductive Response (A : Type) :=
| Ok (payload : A)
| HttpError (error : option JS.jsstring)
| TransportFailure (message : JS.jsstring).

Arguments Ok {A} payload.
Arguments HttpError {A} error.
Arguments TransportFailure {A} message.

(** [err.message] of the error a fetch wrapper throws: the server message
  when it is truthy, else the fallback of the wrapper. *)
Definition error_message {A} (fallback : JS.jsstring) (r : Response A) : JS.jsstring :=
match r with
| Ok _ => []
| HttpError (Some e) => if JS.truthy e then e else fallback
| HttpError None => fallback
| TransportFailure m => m
end.

(** ** The product catalogue page: class [ProductManager] *)

Module ProductManager.

Inductive Field := name_field | uoms_field | price_field | stock_field.

(** The action cell of a table row: the edit and delete buttons, or the
    spinner [showRowLoading] puts in their place. *)
Inductive Actions := Buttons | Spinner.

Record TableRow := {
  data_product_id : Z;
  row_product : Product.t;
  row_actions : Actions
}.

(** The body of the product table. *)
Inductive TableBody :=
| LoadingRow
| EmptyStateRow
| ProductRows (rows : list TableRow).

(** The page: the values of the form controls, the inline field errors,
    the table, the two modals and the save button. *)
Record Dom := {
  name_val : JS.jsstring;
  uoms_val : option JS.jsstring;
  price_val : JS.jsstring;
  stock_val : JS.jsstring;
  field_errors : list (Field * JS.jsstring);
  tbody : TableBody;
  productModal_shown : bool;
  confirmModal_shown : bool;
  confirmModal_text : JS.jsstring;
  saveProduct_disabled : bool
}.

Record state := {
  products : list Product.t;
  currentProduct : option Product.t;
  isEditMode : bool;
  productToDelete : option Z;
  dom : Dom;
  log : list Event
}.

Definition set_dom (d : Dom) (st : state) : state :=
  {| products := products st; currentProduct := currentProduct st;
     isEditMode := isEditMode st; productToDelete := productToDelete st;
     dom := d; log := log st |}.

Definition set_products (ps : list Product.t) (st : state) : state :=
  {| products := ps; currentProduct := currentProduct st;
     isEditMode := isEditMode st; productToDelete := productToDelete st;
     dom := dom st; log := log st |}.

Definition set_productToDelete (o : option Z) (st : state) : state :=
  {| products := products st; currentProduct := currentProduct st;
     isEditMode := isEditMode st; productToDelete := o;
     dom := dom st; log := log st |}.

Definition set_editing (mode : bool) (p : option Product.t) (st : state) : state :=
  {| products := products st; currentProduct := p;
     isEditMode := mode; productToDelete := productToDelete st;
     dom := dom st; log := log st |}.

Definition emit (e : Event) (st : state) : state :=
  {| products := products st; currentProduct := currentProduct st;
     isEditMode := isEditMode st; productToDelete := productToDelete st;
     dom := dom st; log := log st ++ [e] |}.

Definition set_tbody (b : TableBody) (d : Dom) : Dom :=
  {| name_val := name_val d; uoms_val := uoms_val d; price_val := price_val d;
     stock_val := stock_val d; field_errors := field_errors d; tbody := b;
     productModal_shown := productModal_shown d;
     confirmModal_shown := confirmModal_shown d;
     confirmModal_text := confirmModal_text d;
     saveProduct_disabled := saveProduct_disabled d |}.

Definition set_field_errors (es : list (Field * JS.jsstring)) (d : Dom) : Dom :=
  {| name_val := name_val d; uoms_val := uoms_val d; price_val := price_val d;
     stock_val := stock_val d; field_errors := es; tbody := tbody d;
     productModal_shown := productModal_shown d;
     confirmModal_shown := confirmModal_shown d;
     confirmModal_text := confirmModal_text d;
     saveProduct_disabled := saveProduct_disabled d |}.

Definition set_productModal (shown : bool) (d : Dom) : Dom :=
  {| name_val := name_val d; uoms_val := uoms_val d; price_val := price_val d;
     stock_val := stock_val d; field_errors := field_errors d; tbody := tbody d;
     productModal_shown := shown;
     confirmModal_shown := confirmModal_shown d;
     confirmModal_text := confirmModal_text d;
     saveProduct_disabled := saveProduct_disabled d |}.

Definition set_confirmModal (shown : bool) (text : JS.jsstring) (d : Dom) : Dom :=
  {| name_val := name_val d; uoms_val := uoms_val d; price_val := price_val d;
     stock_val := stock_val d; field_errors := field_errors d; tbody := tbody d;
     productModal_shown := productModal_shown d;
     confirmModal_shown := shown;
     confirmModal_text := text;
     saveProduct_disabled := saveProduct_disabled d |}.

Definition set_saveProduct_disabled (b : bool) (d : Dom) : Dom :=
  {| name_val := name_val d; uoms_val := uoms_val d; price_val := price_val d;
     stock_val := stock_val d; field_errors := field_errors d; tbody := tbody d;
     productModal_shown := productModal_shown d;
     confirmModal_shown := confirmModal_shown d;
     confirmModal_text := confirmModal_text d;
     saveProduct_disabled := b |}.

Definition set_form (n : JS.jsstring) (u : option JS.jsstring)
    (p s : JS.jsstring) (d : Dom) : Dom :=
  {| name_val := n; uoms_val := u; price_val := p;
     stock_val := s; field_errors := field_errors d; tbody := tbody d;
     productModal_shown := productModal_shown d;
     confirmModal_shown := confirmModal_shown d;
     confirmModal_text := confirmModal_text d;
     saveProduct_disabled := saveProduct_disabled d |}.

Definition showToast (message : JS.jsstring) (type : ToastType) (st : state) : state :=
  emit (Toast message type) st.

(** *** Table *)

Definition render_row (p : Product.t) : TableRow :=
  {| data_product_id := Product.id p; row_product := p; row_actions := Buttons |}.

(** [showTableLoading(show)]: only [show = true] does anything. *)
Definition showTableLoading (show : bool) (st : state) : state :=
  if show then set_dom (set_tbody LoadingRow (dom st)) st else st.

(** [displayProducts()]: the method has no parameter and renders
    [this.products]. *)
Definition displayProducts (st : state) : state :=
  match products st with
  | [] => set_dom (set_tbody EmptyStateRow (dom st)) st
  | ps => set_dom (set_tbody (ProductRows (List.map render_row ps)) (dom st)) st
  end.

(** The markup [displayProducts] builds for one product and hands to
    [tbody.html]; [ProductRows] above is the table it becomes. *)
Definition row_markup (product : Product.t) : JS.jsstring :=
  let stockClass :=
    if (Product.stock product <=? 10)%Z then JS.lit "text-danger"
    else if (Product.stock product <=? 20)%Z then JS.lit "text-warning"
    else JS.lit "text-success" in
  let stockIcon :=
    if (Product.stock product <=? 10)%Z then JS.lit "fas fa-exclamation-triangle"
    else if (Product.stock product <=? 20)%Z then JS.lit "fas fa-exclamation-circle"
    else JS.lit "fas fa-check-circle" in
  JS.html "
                <tr data-product-id='"
    ++ JS.Z_text (Product.id product)
    ++ JS.html "'>
                    <td>
                        <strong>"
    ++ JS.escapeHtml (Product.name product)
    ++ JS.html "</strong>
                    </td>
                    <td>
                        <span class='label label-default'>"
    ++ Product.unit product
    ++ JS.html "</span>
                    </td>
                    <td>
                        <strong>"
    ++ JS.formatCurrency (Product.price product)
    ++ JS.html "</strong>
                    </td>
                    <td class='"
    ++ stockClass
    ++ JS.html "'>
                        <i class='"
    ++ stockIcon
    ++ JS.html "'></i>
                        "
    ++ JS.Z_text (Product.stock product)
    ++ JS.html " units
                    </td>
                    <td>
                        <div class='btn-group' role='group'>
                            <button class='btn btn-sm btn-info' onclick='productManager.editProduct("
    ++ JS.Z_text (Product.id product)
    ++ JS.html ")' 
                                    title='Edit Product'>
                                <i class='fas fa-edit'></i>
                            </button>
                            <button class='btn btn-sm btn-danger' onclick='productManager.confirmDeleteProduct("
    ++ JS.Z_text (Product.id product)
    ++ JS.html ")' 
                                    title='Delete Product'>
                                <i class='fas fa-trash'></i>
                            </button>
                        </div>
                    </td>
                </tr>
            ".

Definition products_markup (ps : list Product.t) : JS.jsstring :=
  fold_left (fun html product => html ++ row_markup product) ps [].

Definition manage_products_url : JS.jsstring := JS.lit "/api/manage-products".

Definition product_url (productId : Z) : JS.jsstring :=
  manage_products_url ++ JS.lit "/" ++ JS.Z_text productId.

(** [fetchProducts()] up to its [await]. *)
Definition fetchProducts_request (st : state) : state :=
  emit (Request GET manage_products_url NoBody) (showTableLoading true st).

(** [fetchProducts()] from the [await] on.  The [catch] branch calls
    [this.displayProducts([])]; the argument is dropped by the callee. *)
Definition fetchProducts_resume (r : Response (list Product.t)) (st : state) : state :=
  let st :=
    match r with
    | Ok ps => displayProducts (set_products ps st)
    | _ => displayProducts (showToast (JS.lit "Failed to load products") error st)
    end in
  showTableLoading false st.

Definition fetchProducts (r : Response (list Product.t)) (st : state) : state :=
  fetchProducts_resume r (fetchProducts_request st).

(** *** The product form *)

(** [/^[a-zA-Z0-9\s\-\_]+$/] and [/^[a-zA-Z0-9\s\-\_]*$/] *)
Definition name_unit (c : N) : bool :=
  JS.is_alpha c || JS.is_digit c || JS.is_space c || (c =? 45)%N || (c =? 95)%N.

Definition name_regex : JS.regex := JS.Plus (JS.Class name_unit).
Definition name_input_regex : JS.regex := JS.Star (JS.Class name_unit).

(** [/^\d*\.?\d{0,2}$/] *)
Definition price_input_regex : JS.regex :=
  JS.Cat (JS.Star (JS.Class JS.is_digit))
         (JS.Cat (JS.Opt (JS.Class (N.eqb 46)))
                 (JS.Upto2 (JS.Class JS.is_digit))).

(** [/^\d*$/] *)
Definition stock_input_regex : JS.regex := JS.Star (JS.Class JS.is_digit).

Definition showFieldError (f : Field) (message : JS.jsstring) (st : state) : state :=
  set_dom (set_field_errors (field_errors (dom st) ++ [(f, message)]) (dom st)) st.

Definition option_truthy (o : option JS.jsstring) : bool :=
  match o with Some s => JS.truthy s | None => false end.

Definition isNaN (o : option Z) : bool :=
  match o with None => true | Some _ => false end.

Definition lt_0 (o : option Z) : bool :=
  match o with None => false | Some z => (z <? 0)%Z end.

(** [validateForm()]: the flag and the page with the inline errors. *)
Definition validateForm (st : state) : bool * state :=
  let isValid := true in
  let st := set_dom (set_field_errors [] (dom st)) st in
  let name := JS.trim (name_val (dom st)) in
  let '(isValid, st) :=
    if negb (JS.truthy name) || (length name <? 2)%nat then
      (false, showFieldError name_field
                (JS.lit "Product name must be at least 2 characters long") st)
    else if negb (JS.test name_regex name) then
      (false, showFieldError name_field
                (JS.lit "Product name contains invalid characters") st)
    else (isValid, st) in
  let unit := uoms_val (dom st) in
  let '(isValid, st) :=
    if negb (option_truthy unit) then
      (false, showFieldError uoms_field (JS.lit "Please select a unit") st)
    else (isValid, st) in
  let price := JS.parseFloat (price_val (dom st)) in
  let '(isValid, st) :=
    if negb (JS.number_truthy price) || JS.number_le_0 price then
      (false, showFieldError price_field (JS.lit "Price must be greater than 0") st)
    else (isValid, st) in
  let stock := JS.parseInt (stock_val (dom st)) in
  let '(isValid, st) :=
    if isNaN stock || lt_0 stock then
      (false, showFieldError stock_field (JS.lit "Stock must be 0 or greater") st)
    else (isValid, st) in
  (isValid, st).

(** [getFormData()]; [parseInt(...) || 0] for the stock. *)
Definition getFormData (st : state) : Body :=
  ProductData (JS.trim (name_val (dom st)))
              (uoms_val (dom st))
              (JS.parseFloat (price_val (dom st)))
              (match JS.parseInt (stock_val (dom st)) with
               | Some z => z
               | None => 0%Z
               end).

(** [resetForm()] *)
Definition resetForm (st : state) : state :=
  set_dom (set_field_errors [] (set_form [] None [] [] (dom st))) st.

(** [onModalHidden()] *)
Definition onModalHidden (st : state) : state :=
  set_editing false None (resetForm st).

(** [showLoading(show)]: the save button. *)
Definition showLoading (show : bool) (st : state) : state :=
  set_dom (set_saveProduct_disabled show (dom st)) st.

(** [handleSaveProduct()].  [save] is the outcome of the POST or PUT,
    [refetch] the outcome of the list request that follows a success. *)
Definition handleSaveProduct (save : Response unit)
    (refetch : Response (list Product.t)) (st : state) : state :=
  let '(valid, st) := validateForm st in
  if negb valid then st else
  let productData := getFormData st in
  let st := showLoading true st in
  let st :=
    if isEditMode st then
      match currentProduct st with
      | Some p =>
          let st := emit (Request PUT (product_url (Product.id p)) productData) st in
          match save with
          | Ok _ =>
              let st := showToast (JS.lit "Product updated successfully!") success st in
              let st := set_dom (set_productModal false (dom st)) st in
              fetchProducts refetch st
          | _ => showToast (error_message (JS.lit "Failed to update product") save) error st
          end
      | None =>
          showToast (JS.lit "Cannot read properties of null (reading 'id')") error st
      end
    else
      let st := emit (Request POST manage_products_url productData) st in
      match save with
      | Ok _ =>
          let st := showToast (JS.lit "Product added successfully!") success st in
          let st := set_dom (set_productModal false (dom st)) st in
          fetchProducts refetch st
      | _ => showToast (error_message (JS.lit "Failed to add product") save) error st
      end in
  showLoading false st.

(** *** Live input sanitisers: the new value of the field *)

Definition validatePriceInput (value : JS.jsstring) : JS.jsstring :=
  if negb (JS.test price_input_regex value) then JS.slice_0_m1 value else value.

(** [value.replace(/[^\d]/g, "")] *)
Definition validateStockInput (value : JS.jsstring) : JS.jsstring :=
  if negb (JS.test stock_input_regex value)
  then List.filter JS.is_digit value
  else value.

Definition validateNameInput (value : JS.jsstring) : JS.jsstring :=
  if negb (JS.test name_input_regex value) then JS.slice_0_m1 value else value.

(** *** Edit and delete *)

(** [this.products.find((p) => p.id === productId)] *)
Definition find_product (productId : Z) (st : state) : option Product.t :=
  List.find (fun p => (Product.id p =? productId)%Z) (products st).

Definition editProduct (productId : Z) (st : state) : state :=
  match find_product productId st with
  | None => showToast (JS.lit "Product not found") error st
  | Some product =>
      let st := set_editing true (Some product) st in
      set_dom (set_productModal true (dom st)) st
  end.

Definition confirmDeleteProduct (productId : Z) (st : state) : state :=
  match find_product productId st with
  | None => showToast (JS.lit "Product not found") error st
  | Some product =>
      let st := set_productToDelete (Some productId) st in
      set_dom (set_confirmModal true
                 (JS.lit "Are you sure you want to delete " ++ JS.dquote
                  ++ Product.name product ++ JS.dquote ++ JS.lit "?")
                 (dom st)) st
  end.

(** [showRowLoading(productId, show)]: only [show = true] does anything. *)
Definition showRowLoading (productId : Z) (show : bool) (st : state) : state :=
  if show then
    match tbody (dom st) with
    | ProductRows rows =>
        let rows' :=
          List.map (fun r =>
                      if (data_product_id r =? productId)%Z
                      then {| data_product_id := data_product_id r;
                              row_product := row_product r;
                              row_actions := Spinner |}
                      else r) rows in
        set_dom (set_tbody (ProductRows rows') (dom st)) st
    | _ => st
    end
  else st.

(** [deleteProductById(productId)] up to its first [await]. *)
Definition deleteProductById_request (productId : Z) (st : state) : state :=
  emit (Request DELETE (product_url productId) NoBody)
       (showRowLoading productId true st).

(** [deleteProductById(productId)] from the first [await] on. *)
Definition deleteProductById_resume (productId : Z) (deleted : Response unit)
    (refetch : Response (list Product.t)) (st : state) : state :=
  match deleted with
  | Ok _ =>
      let st := showToast (JS.lit "Product deleted successfully!") success st in
      fetchProducts refetch st
  | _ =>
      let st := showToast (error_message (JS.lit "Failed to delete product") deleted)
                          error st in
      showRowLoading productId false st
  end.

Definition deleteProductById (productId : Z) (deleted : Response unit)
    (refetch : Response (list Product.t)) (st : state) : state :=
  deleteProductById_resume productId deleted refetch
    (deleteProductById_request productId st).

(** Truthiness of [this.productToDelete]: [undefined], [null] and 0 are
    falsy. *)
Definition id_truthy (o : option Z) : bool :=
  match o with
  | Some z => negb (z =? 0)%Z
  | None => false
  end.

(** [handleConfirmDelete()]: the delete call is started and not awaited,
    so the modal is hidden and the field cleared before it resumes. *)
Definition handleConfirmDelete (deleted : Response unit)
    (refetch : Response (list Product.t)) (st : state) : state :=
  if id_truthy (productToDelete st) then
    match productToDelete st with
    | Some productId =>
        let st := deleteProductById_request productId st in
        let st := set_dom (set_confirmModal false (confirmModal_text (dom st)) (dom st)) st in
        let st := set_productToDelete None st in
        deleteProductById_resume productId deleted refetch st
    | None => st
    end
  else st.

(** The page after the constructor has run: [fetchProducts] is started
    and waits for its response. *)
Definition constructed : state :=
  fetchProducts_request
    {| products := []; currentProduct := None; isEditMode := false;
       productToDelete := None;
       dom := {| name_val := []; uoms_val := None; price_val := [];
                 stock_val := []; field_errors := []; tbody := EmptyStateRow;
                 productModal_shown := false; confirmModal_shown := false;
                 confirmModal_text := []; saveProduct_disabled := false |};
       log := [] |}.

End ProductManager.

(** ** The dashboard page: class [GroceryStore] (the order composer) *)

Module GroceryStore.

(** *** The page *)

(** An [<option>] of a product select, with its [data-] attributes as
    the numbers they were written from. *)
Record ProductOption := {
  value : JS.jsstring;
  data_price : Q;
  data_stock : Z;
  data_unit : JS.jsstring;
  disabled : bool
}.

(** A [.product-row]: the select (its product options after the
    [-- Select Product --] placeholder, and which of them is selected;
    [None] when the placeholder or nothing is), the quantity input and
    the subtotal text. *)
Record Row := {
  data_index : nat;
  options : list ProductOption;
  selected : option nat;
  quantity_val : JS.jsstring;
  quantity_max : option Z;
  quantity_disabled : bool;
  subtotal_text : JS.jsstring
}.

Record state := {
  allProducts : list Product.t;
  orderTotal : Double.t;
  rows : list Row;
  customer_name_val : JS.jsstring;
  loadingModal_shown : bool;
  log : list Event
}.

Definition set_allProducts (ps : list Product.t) (st : state) : state :=
  {| allProducts := ps; orderTotal := orderTotal st; rows := rows st;
     customer_name_val := customer_name_val st;
     loadingModal_shown := loadingModal_shown st; log := log st |}.

Definition set_orderTotal (t : Double.t) (st : state) : state :=
  {| allProducts := allProducts st; orderTotal := t; rows := rows st;
     customer_name_val := customer_name_val st;
     loadingModal_shown := loadingModal_shown st; log := log st |}.

Definition set_rows (rs : list Row) (st : state) : state :=
  {| allProducts := allProducts st; orderTotal := orderTotal st; rows := rs;
     customer_name_val := customer_name_val st;
     loadingModal_shown := loadingModal_shown st; log := log st |}.

Definition set_customer_name (n : JS.jsstring) (st : state) : state :=
  {| allProducts := allProducts st; orderTotal := orderTotal st; rows := rows st;
     customer_name_val := n;
     loadingModal_shown := loadingModal_shown st; log := log st |}.

Definition showLoadingModal (show : bool) (st : state) : state :=
  {| allProducts := allProducts st; orderTotal := orderTotal st; rows := rows st;
     customer_name_val := customer_name_val st;
     loadingModal_shown := show; log := log st |}.

Definition emit (e : Event) (st : state) : state :=
  {| allProducts := allProducts st; orderTotal := orderTotal st; rows := rows st;
     customer_name_val := customer_name_val st;
     loadingModal_shown := loadingModal_shown st; log := log st ++ [e] |}.

Definition showToast (message : JS.jsstring) (type : ToastType) (st : state) : state :=
  emit (Toast message type) st.

Definition set_selected (s : option nat) (r : Row) : Row :=
  {| data_index := data_index r; options := options r; selected := s;
     quantity_val := quantity_val r; quantity_max := quantity_max r;
     quantity_disabled := quantity_disabled r; subtotal_text := subtotal_text r |}.

Definition set_options (os : list ProductOption) (r : Row) : Row :=
  {| data_index := data_index r; options := os; selected := selected r;
     quantity_val := quantity_val r; quantity_max := quantity_max r;
     quantity_disabled := quantity_disabled r; subtotal_text := subtotal_text r |}.

Definition set_quantity_val (v : JS.jsstring) (r : Row) : Row :=
  {| data_index := data_index r; options := options r; selected := selected r;
     quantity_val := v; quantity_max := quantity_max r;
     quantity_disabled := quantity_disabled r; subtotal_text := subtotal_text r |}.

Definition set_quantity_max (m : option Z) (r : Row) : Row :=
  {| data_index := data_index r; options := options r; selected := selected r;
     quantity_val := quantity_val r; quantity_max := m;
     quantity_disabled := quantity_disabled r; subtotal_text := subtotal_text r |}.

Definition set_quantity_disabled (b : bool) (r : Row) : Row :=
  {| data_index := data_index r; options := options r; selected := selected r;
     quantity_val := quantity_val r; quantity_max := quantity_max r;
     quantity_disabled := b; subtotal_text := subtotal_text r |}.

Definition set_subtotal_text (t : JS.jsstring) (r : Row) : Row :=
  {| data_index := data_index r; options := options r; selected := selected r;
     quantity_val := quantity_val r; quantity_max := quantity_max r;
     quantity_disabled := quantity_disabled r; subtotal_text := t |}.

(** [$select.find("option:selected")] *)
Definition selectedOption (r : Row) : option ProductOption :=
  match selected r with
  | Some i => options r !! i
  | None => None
  end.

(** [selectedOption.val()]: the [value] attribute; empty for the
    placeholder and for no option. *)
Definition selectedOption_val (r : Row) : JS.jsstring :=
  match selectedOption r with
  | Some o => value o
  | None => []
  end.

(** [$select.val()]: jQuery reads a select through its selected option
    and skips a disabled one, giving [null], here the empty string. *)
Definition select_val (r : Row) : JS.jsstring :=
  match selectedOption r with
  | Some o => if disabled o then [] else value o
  | None => []
  end.

(** *** Totals *)

(** What [replace(/[₹,]/g, "")] keeps: all but the rupee sign and the
    comma. *)
Definition kept (c : N) : bool := negb ((c =? 8377)%N || (c =? 44)%N).

(** [parseFloat(subtotalText.replace(/[₹,]/g, "")) || 0] *)
Definition read_subtotal (text : JS.jsstring) : Double.t :=
  Double.or_zero (Double.of_number (JS.parseFloat (List.filter kept text))).

Definition updateOrderTotal (st : state) : state :=
  let total :=
    fold_left (fun total r => Double.add total (read_subtotal (subtotal_text r)))
              (rows st) Double.zero in
  set_orderTotal total st.

(** [parseFloat(selectedOption.data("price")) || 0]: the attribute holds
    the decimal the price was written as. *)
Definition row_price (r : Row) : Double.t :=
  match selectedOption r with
  | Some o => Double.or_zero (Double.of_Q (data_price o))
  | None => Double.zero
  end.

(** [parseInt($quantityInput.val()) || 0] *)
Definition row_quantity (r : Row) : Double.t :=
  match JS.parseInt (quantity_val r) with
  | Some q => Double.or_zero (Double.of_Z q)
  | None => Double.zero
  end.

(** [formatCurrency(amount)] on a number: a finite one is formatted from
    its decimal digits, rounded to two fraction digits; the sign of a
    negative zero is shown. *)
Definition formatCurrency (amount : Double.t) : JS.jsstring :=
  match amount with
  | S754_nan => 8377%N :: JS.lit "NaN"
  | S754_infinity negative => (if negative then [45%N] else []) ++ [8377%N; 8734%N]
  | S754_zero negative => (if negative then [45%N] else []) ++ JS.formatCurrency 0
  | S754_finite _ _ _ => JS.formatCurrency (Double.decimal amount)
  end.

(** The subtotal [calculateRowSubtotal] renders into the row. *)
Definition render_subtotal (r : Row) : Row :=
  let subtotal := Double.mul (row_price r) (row_quantity r) in
  set_subtotal_text (formatCurrency subtotal) r.

(** [calculateRowSubtotal($row)], for the row at position [i]. *)
Definition calculateRowSubtotal (i : nat) (st : state) : state :=
  updateOrderTotal (set_rows (alter render_subtotal i (rows st)) st).

(** *** Rows *)

(** [generateProductOptions()]: the markup of the options. *)
Definition option_markup (product : Product.t) : JS.jsstring :=
  let stockInfo :=
    if (0 <? Product.stock product)%Z
    then JS.lit "(Stock: " ++ JS.Z_text (Product.stock product) ++ JS.lit ")"
    else JS.lit "(Out of Stock)" in
  let disabled :=
    if (Product.stock product <=? 0)%Z then JS.lit "disabled" else [] in
  let price := formatCurrency (Double.of_Q (Product.price product)) in
  JS.html "
                <option value='"
    ++ Product.name product
    ++ JS.html "' 
                        data-price='"
    ++ JS.number_text (Product.price product)
    ++ JS.html "' 
                        data-stock='"
    ++ JS.Z_text (Product.stock product)
    ++ JS.html "' 
                        data-unit='"
    ++ Product.unit product
    ++ JS.html "'
                        "
    ++ disabled
    ++ JS.html ">
                    "
    ++ JS.escapeHtml (Product.name product)
    ++ JS.html " - "
    ++ price
    ++ JS.html "/"
    ++ Product.unit product
    ++ JS.html " "
    ++ stockInfo
    ++ JS.html "
                </option>
            ".

Definition generateProductOptions (st : state) : JS.jsstring :=
  fold_left (fun options product => options ++ option_markup product)
            (allProducts st)
            (JS.html "<option value=''>-- Select Product --</option>").

(** [displayOrders(orders)]: the markup of the orders table.  The date
    column is [toLocaleString] of the order date, taken as [date_text]. *)
Record Order := {
  order_number : JS.jsstring;
  order_date : JS.jsstring;
  customer_name : JS.jsstring;
  items : JS.jsstring;
  total : Q
}.

Definition order_markup (date_text : JS.jsstring -> JS.jsstring) (order : Order)
    : JS.jsstring :=
  let date := date_text (order_date order) in
  let items := if JS.truthy (items order) then items order else JS.lit "N/A" in
  let total := formatCurrency (Double.of_Q (total order)) in
  JS.html "
                <tr>
                    <td>"
    ++ date
    ++ JS.html "</td>
                    <td><strong>"
    ++ order_number order
    ++ JS.html "</strong></td>
                    <td>"
    ++ JS.escapeHtml (customer_name order)
    ++ JS.html "</td>
                    <td><small>"
    ++ JS.escapeHtml items
    ++ JS.html "</small></td>
                    <td><strong>"
    ++ total
    ++ JS.html "</strong></td>
                </tr>
            ".

Definition displayOrders (date_text : JS.jsstring -> JS.jsstring)
    (orders : list Order) : JS.jsstring :=
  match orders with
  | [] => JS.html "
                <tr>
                    <td colspan='5' class='text-center text-muted'>
                        <i class='fas fa-inbox'></i> No orders found
                    </td>
                </tr>
            "
  | _ => fold_left (fun html order => html ++ order_markup date_text order) orders []
  end.

(** The option elements the browser builds from that markup, one per
    product in the order of the list, for names and units that the markup
    leaves intact (no quote, [<] or [&] in them). *)
Definition product_option (product : Product.t) : ProductOption :=
  {| value := Product.name product;
     data_price := Product.price product;
     data_stock := Product.stock product;
     data_unit := Product.unit product;
     disabled := (Product.stock product <=? 0)%Z |}.

Definition option_elements (st : state) : list ProductOption :=
  List.map product_option (allProducts st).

(** The row [addProductRow] appends: placeholder selected, empty
    quantity with no [max], subtotal [₹0.00]. *)
Definition new_row (rowIndex : nat) (os : list ProductOption) : Row :=
  {| data_index := rowIndex; options := os; selected := None;
     quantity_val := []; quantity_max := None; quantity_disabled := false;
     subtotal_text := 8377%N :: JS.lit "0.00" |}.

Definition addProductRow (st : state) : state :=
  match allProducts st with
  | [] => showToast (JS.lit "No products available. Please add products first.")
                    error st
  | _ :: _ =>
      let rowIndex := length (rows st) in
      let os := option_elements st in
      updateOrderTotal (set_rows (rows st ++ [new_row rowIndex os]) st)
  end.

Definition addFirstProductRow (st : state) : state :=
  if (length (rows st) =? 0)%nat then addProductRow st else st.

(** [removeProductRow(e)], when the fade-out of the row at position [i]
    has ended. *)
Definition removeProductRow (i : nat) (st : state) : state :=
  let st := updateOrderTotal (set_rows (delete i (rows st)) st) in
  if (length (rows st) =? 0)%nat then addProductRow st else st.

(** Position of the first option with the given value. *)
Fixpoint index_of_value (v : JS.jsstring) (os : list ProductOption) : option nat :=
  match os with
  | [] => None
  | o :: os' => if JS.eqb (value o) v then Some 0%nat
                else option_map S (index_of_value v os')
  end.

(** [updateProductSelects()]: every select gets the new options and is
    set back to the value it had. *)
Definition updateProductSelects (st : state) : state :=
  let os := option_elements st in
  let update (r : Row) :=
    let currentValue := select_val r in
    let r := set_options os r in
    if JS.truthy currentValue
    then set_selected (index_of_value currentValue os) r
    else set_selected None r in
  set_rows (List.map update (rows st)) st.

(** *** Event handlers *)

(** [handleProductChange(e)], after the user picked [choice] in the
    select of the row at position [i]. *)
Definition handleProductChange (i : nat) (choice : option nat) (st : state) : state :=
  match rows st !! i with
  | None => st
  | Some r =>
      let r := set_selected choice r in
      if JS.truthy (selectedOption_val r) then
        let maxStock := match selectedOption r with
                        | Some o => data_stock o
                        | None => 0%Z
                        end in
        let r := set_quantity_disabled false (set_quantity_max (Some maxStock) r) in
        if (maxStock =? 0)%Z then
          let r := set_quantity_disabled true (set_quantity_val [] r) in
          let st := set_rows (<[i := r]> (rows st)) st in
          let st := showToast (JS.lit "Selected product is out of stock") error st in
          calculateRowSubtotal i st
        else
          calculateRowSubtotal i (set_rows (<[i := r]> (rows st)) st)
      else
        let r := set_quantity_max None
                   (set_quantity_disabled true (set_quantity_val [] r)) in
        calculateRowSubtotal i (set_rows (<[i := r]> (rows st)) st)
  end.

(** [quantity > maxStock]; false when either side is [NaN]. *)
Definition exceeds (quantity maxStock : option Z) : bool :=
  match quantity, maxStock with
  | Some q, Some m => (m <? q)%Z
  | _, _ => false
  end.

(** [handleQuantityChange(e)], after the user typed [entered] into the
    quantity input of the row at position [i]. *)
Definition handleQuantityChange (i : nat) (entered : JS.jsstring) (st : state) : state :=
  match rows st !! i with
  | None => st
  | Some r =>
      let r := set_quantity_val entered r in
      let maxStock := quantity_max r in
      let quantity := JS.parseInt (quantity_val r) in
      if exceeds quantity maxStock then
        let m := match maxStock with Some m => m | None => 0%Z end in
        let r := set_quantity_val (JS.Z_text m) r in
        let st := set_rows (<[i := r]> (rows st)) st in
        let st := showToast (JS.lit "Maximum available quantity is " ++ JS.Z_text m)
                            info st in
        calculateRowSubtotal i st
      else
        calculateRowSubtotal i (set_rows (<[i := r]> (rows st)) st)
  end.

(** *** Requests *)

Definition fetchProducts_request (st : state) : state :=
  emit (Request GET (JS.lit "/api/manage-products") NoBody) st.

Definition fetchProducts_resume (r : Response (list Product.t)) (st : state) : state :=
  match r with
  | Ok ps => updateProductSelects (set_allProducts ps st)
  | _ => showToast (JS.lit "Failed to load products") error st
  end.

Definition fetchProducts (r : Response (list Product.t)) (st : state) : state :=
  fetchProducts_resume r (fetchProducts_request st).

(** [fetchOrders()] and [fetchStats()] fill the orders table and the
    counters, which are not part of [state]; what is kept of them is the
    request and the notification. *)
Definition fetchOrders {A} (r : Response A) (st : state) : state :=
  let st := emit (Request GET (JS.lit "/api/orders?per_page=10") NoBody) st in
  match r with
  | Ok _ => st
  | _ => showToast (JS.lit "Failed to load orders") error st
  end.

Definition fetchStats {A} (r : Response A) (st : state) : state :=
  emit (Request GET (JS.lit "/api/stats") NoBody) st.

(** The outcomes of the three requests of one refresh. *)
Record Refresh := {
  products_response : Response (list Product.t);
  orders_response : Response unit;
  stats_response : Response unit
}.

Definition loadInitialData (f : Refresh) (st : state) : state :=
  fetchStats (stats_response f)
    (fetchOrders (orders_response f)
       (fetchProducts (products_response f) st)).

Definition refreshData (f : Refresh) (st : state) : state :=
  let st := showToast (JS.lit "Refreshing data...") info st in
  let st := loadInitialData f st in
  showToast (JS.lit "Data refreshed successfully") success st.

(** [resetOrderForm()]; the reset of the form gives the customer field
    its default, which is empty. *)
Definition resetOrderForm (st : state) : state :=
  let st := set_customer_name [] st in
  let st := set_rows [] st in
  let st := addFirstProductRow st in
  set_orderTotal Double.zero st.

(** The loop of [handleOrderSubmit] over the rows: the items pushed so
    far and the [hasValidItems] flag. *)
Definition gt_0 (o : option Z) : bool :=
  match o with Some q => (0 <? q)%Z | None => false end.

Definition collect_row (acc : list OrderItem * bool) (r : Row) : list OrderItem * bool :=
  let '(items, hasValidItems) := acc in
  let productName := select_val r in
  let quantity := JS.parseInt (quantity_val r) in
  if JS.truthy productName && gt_0 quantity then
    (items ++ [{| product_name := productName;
                  quantity := match quantity with Some q => q | None => 0%Z end |}],
     true)
  else (items, hasValidItems).

Definition collect_items (rs : list Row) : list OrderItem * bool :=
  fold_left collect_row rs ([], false).

(** [handleOrderSubmit(e)].  [placed] is the outcome of the POST (the
    order number on success), [f] the outcomes of the refresh after it. *)
Definition handleOrderSubmit (placed : Response JS.jsstring) (f : Refresh)
    (st : state) : state :=
  let customerName := JS.trim (customer_name_val st) in
  if negb (JS.truthy customerName) then
    showToast (JS.lit "Please enter customer name") error st
  else
    let '(items, hasValidItems) := collect_items (rows st) in
    if negb hasValidItems then
      showToast (JS.lit "Please add at least one product to the order") error st
    else
      let st := showLoadingModal true st in
      let orderData := OrderData customerName items in
      let st := emit (Request POST (JS.lit "/api/orders") orderData) st in
      let st :=
        match placed with
        | Ok order_number =>
            let st := showToast (JS.lit "Order " ++ order_number
                                 ++ JS.lit " placed successfully!") success st in
            let st := resetOrderForm st in
            refreshData f st
        | _ => showToast (error_message (JS.lit "Failed to create order") placed)
                         error st
        end in
      showLoadingModal false st.

(** The page after the constructor has run: the three requests of
    [loadInitialData] are out and [addFirstProductRow] has been tried
    with the product list still empty. *)
Definition constructed : state :=
  let st := {| allProducts := []; orderTotal := Double.zero; rows := [];
               customer_name_val := []; loadingModal_shown := false;
               log := [] |} in
  let st := fetchProducts_request st in
  let st := emit (Request GET (JS.lit "/api/orders?per_page=10") NoBody) st in
  let st := emit (Request GET (JS.lit "/api/stats") NoBody) st in
  addFirstProductRow st.

End GroceryStore.

(** ** The statements of the specification, for the product page *)

Module CatalogSpec.

Import ProductManager.

(** The name class as the specification writes it: [A-Za-z0-9 _-]. *)
Definition written_name_unit (c : N) : bool :=
  JS.is_alpha c || JS.is_digit c || (c =? 32)%N || (c =? 95)%N || (c =? 45)%N.

(** The rule of each field, over a class of permitted name units. *)
Definition name_rule (permitted : N -> bool) (name : JS.jsstring) : Prop :=
  (2 <= length name)%nat /\ forall c, In c name -> permitted c = true.

Definition unit_rule (unit : option JS.jsstring) : Prop :=
  exists u, unit = Some u /\ u <> [].

Definition price_rule (price : JS.number) : Prop :=
  match price with
  | JS.NaN => False
  | JS.Fin q => (0 < q)%Q
  | JS.Inf negative => negative = false
  end.

Definition stock_rule (stock : option Z) : Prop :=
  exists z, stock = Some z /\ (0 <= z)%Z.

(** No field of the form violates its rule. *)
Definition form_rules (permitted : N -> bool) (d : Dom) : Prop :=
  name_rule permitted (JS.trim (name_val d))
  /\ unit_rule (uoms_val d)
  /\ price_rule (JS.parseFloat (price_val d))
  /\ stock_rule (JS.parseInt (stock_val d)).

(** The form filled in by the user. *)
Definition fill (n : JS.jsstring) (u : option JS.jsstring) (p s : JS.jsstring)
    (st : state) : state :=
  set_dom (set_form n u p s (dom st)) st.

(** The events a handler added to the log. *)
Definition no_request (before after : list Event) : Prop :=
  exists added, after = before ++ added /\ List.filter is_request added = [].

(** The four checks of the form as booleans. *)
Definition name_ok (permitted : N -> bool) (name : JS.jsstring) : bool :=
  (2 <=? length name)%nat && forallb permitted name.

(** A catalogue to run the handlers on. *)
Definition rice : Product.t :=
  Product.mk 1 (JS.lit "Rice") (JS.lit "kg") (50 # 1) 5.

Definition salt : Product.t :=
  Product.mk 0 (JS.lit "Salt") (JS.lit "kg") (20 # 1) 40.

Definition loaded (ps : list Product.t) : state :=
  fetchProducts_resume (Ok ps) constructed.

(** The form with the name [a<TAB>b]. *)
Definition tab_form : state :=
  fill [97; 9; 98]%N (Some (JS.lit "kg")) (JS.lit "1") (JS.lit "0") constructed.

(** The form as [resetForm] leaves it. *)
Definition blank_form : state := fill [] None [] [] constructed.

End CatalogSpec.

(** ** The statements of the specification, for the order composer *)

Module ComposerSpec.

Import GroceryStore.

(** The row operations of the user. *)
Inductive Op :=
| AddRow
| RemoveRow (i : nat)
| ChangeProduct (i : nat) (choice : option nat)
| ChangeQuantity (i : nat) (entered : JS.jsstring).

Definition step (st : state) (op : Op) : state :=
  match op with
  | AddRow => addProductRow st
  | RemoveRow i => removeProductRow i st
  | ChangeProduct i choice => handleProductChange i choice st
  | ChangeQuantity i entered => handleQuantityChange i entered st
  end.

Definition run (ops : list Op) (st : state) : state := fold_left step ops st.

(** The page once the first product list has arrived. *)
Definition loaded (ps : list Product.t) : state :=
  fetchProducts_resume (Ok ps) constructed.

(** The option a select shows as selected; none for the placeholder. *)
Definition shown_option (r : Row) : option ProductOption :=
  match selected r with
  | Some i => nth_error (options r) i
  | None => None
  end.

(** A number, with 0 in the place of one that is absent, zero or not a
    number. *)
Definition number_or_0 (x : option Double.t) : Double.t :=
  match x with
  | None | Some S754_nan | Some (S754_zero _) => S754_zero false
  | Some y => y
  end.

(** The unit price of a row: the price of the product its select shows. *)
Definition unit_price (r : Row) : Double.t :=
  number_or_0 (option_map (fun o => Double.of_Q (data_price o)) (shown_option r)).

(** The quantity entered in a row. *)
Definition entered_quantity (r : Row) : Double.t :=
  number_or_0 (option_map Double.of_Z (JS.parseInt (quantity_val r))).

(** Unit price times quantity, in binary64. *)
Definition amount (r : Row) : Double.t :=
  SFmul 53%Z 1024%Z (unit_price r) (entered_quantity r).

(** The sum of a list of numbers, added up in the order of the list. *)
Definition sum (xs : list Double.t) : Double.t :=
  fold_left (SFadd 53%Z 1024%Z) xs (S754_zero false).

(** The subtotal a row displays: its text read as a number. *)
Definition displayed_subtotal (r : Row) : Double.t :=
  read_subtotal (subtotal_text r).

(** An amount in rupees rounded to the paisa. *)
Definition to_paisa (amount : Q) : Q :=
  inject_Z (JS.round_half_expand (amount * (100 # 1))) / (100 # 1).

(** [paid] is [amount] rounded to a whole number of paise, a tie away
    from zero. *)
Definition rounds_to_paisa (amount paid : Q) : Prop :=
  (exists z : Z, paid == z # 100)%Q
  /\ (Qabs (paid - amount) <= 1 # 200)%Q
  /\ (Qabs (paid - amount) == 1 # 200 -> Qabs amount < Qabs paid)%Q.

(** The rational a finite number is. *)
Definition exact_value (x : Double.t) : Q :=
  match x with
  | S754_finite s m e =>
      let v := (inject_Z (Z.pos m) * Qpower (2 # 1) e)%Q in
      if s then (- v)%Q else v
  | _ => 0%Q
  end.

(** A decimal a number can be written as: one that denotes the number,
    or the value of the number. *)
Definition written_as (x : Double.t) (q : Q) : Prop :=
  Double.of_Q q = x \/ (q == exact_value x)%Q.

(** What a row displays for an amount: a finite amount, written as a
    decimal and rounded to the paisa; 0 for an amount that is zero,
    infinite or not a number. *)
Definition shows (amount displayed : Double.t) : Prop :=
  match amount with
  | S754_finite _ _ _ =>
      exists written paid,
        written_as amount written
        /\ rounds_to_paisa written paid
        /\ displayed = number_or_0 (Some (Double.of_Q paid))
  | _ => displayed = S754_zero false
  end.

(** The quantity of a row is above 0. *)
Definition quantity_above_0 (r : Row) : bool :=
  match JS.parseInt (quantity_val r) with
  | Some q => (0 <? q)%Z
  | None => false
  end.


(** A row has a quantity above 0 and a selected product that the select
    gives as its value: the option shown is not disabled. *)
Definition has_product_and_quantity (r : Row) : bool :=
  match shown_option r with
  | Some o => JS.truthy (value o) && negb (disabled o)
  | None => false
  end
  && quantity_above_0 r.

Definition item_of (r : Row) : OrderItem :=
  {| product_name := match shown_option r with
                     | Some o => value o
                     | None => []
                     end;
     quantity := match JS.parseInt (quantity_val r) with
                 | Some q => q
                 | None => 0%Z
                 end |}.

(** The quantity typed into a row does not exceed the stock of the
    product selected in it. *)
Definition quantity_within_stock (r : Row) : Prop :=
  forall o q,
    selectedOption r = Some o ->
    JS.parseInt (quantity_val r) = Some q ->
    (q <= data_stock o)%Z.

(** A catalogue to run the handlers on. *)
Definition rice : Product.t :=
  Product.mk 1 (JS.lit "Rice") (JS.lit "kg") (50 # 1) 5.

Definition oil : Product.t :=
  Product.mk 2 (JS.lit "Oil") (JS.lit "l") (12050 # 100) 3.

(** Priced at half a paisa the gram. *)
Definition tea : Product.t :=
  Product.mk 3 (JS.lit "Tea") (JS.lit "g") (1 # 200) 900.

(** A row was added, then the catalogue came back empty. *)
Definition stranded : state :=
  fetchProducts (Ok []) (addProductRow (loaded [rice])).

(** Five of the first product, then the second product is picked. *)
Definition switched : state :=
  run [AddRow; ChangeProduct 0 (Some 0%nat); ChangeQuantity 0 (JS.lit "5");
       ChangeProduct 0 (Some 1%nat)]
      (loaded [rice; oil]).

(** One row with the first product selected. *)
Definition picked : state :=
  run [AddRow; ChangeProduct 0 (Some 0%nat)] (loaded [rice; oil]).

(** Priced at 1.005. *)
Definition saffron : Product.t :=
  Product.mk 5 (JS.lit "Saffron") (JS.lit "g") (1005 # 1000) 10.

(** Sold at ten and at twenty paise. *)
Definition mint : Product.t :=
  Product.mk 6 (JS.lit "Mint") (JS.lit "bunch") (1 # 10) 10.

Definition lime : Product.t :=
  Product.mk 7 (JS.lit "Lime") (JS.lit "piece") (2 # 10) 10.





(** The total is the one [updateOrderTotal] would compute now. *)
Definition total_current (st : state) : Prop :=
  orderTotal st =
  fold_left (fun total r => Double.add total (read_subtotal (subtotal_text r)))
            (rows st) Double.zero.

(** The subtotal text of a row is the one [calculateRowSubtotal] would
    render now. *)
Definition rendered (r : Row) : Prop :=
  subtotal_text r = formatCurrency (Double.mul (row_price r) (row_quantity r)).

Definition consistent (st : state) : Prop :=
  total_current st /\ Forall rendered (rows st).

End ComposerSpec.

(** ** Text with markup in it, for the templates *)

Module MarkupSpec.

Definition marked : Product.t :=
  Product.mk 4 (JS.lit "Salt & Pepper") (JS.lit "<b>kg</b>") (20 # 1) 12.

Definition marked_order : GroceryStore.Order :=
  {| GroceryStore.order_number := JS.lit "ORD-7";
     GroceryStore.order_date := JS.lit "2024-01-05";
     GroceryStore.customer_name := JS.lit "A <i>B</i>";
     GroceryStore.items := JS.lit "Salt & Pepper x 2";
     GroceryStore.total := 40 # 1 |}.

End MarkupSpec.

(** ** The product modal: the handlers around the form *)

Module CatalogModal.

Import ProductManager.

(** [$("#uoms").val(v)]: the select takes the value when one of its
    options carries it, and is left with nothing selected otherwise.  The
    options of the select come from the page template and are a parameter
    here. *)
Definition select_value (uoms : list JS.jsstring) (v : JS.jsstring)
    : option JS.jsstring :=
  if existsb (JS.eqb v) uoms then Some v else None.

(** [populateForm(product)]; [product.stock || 0] is the stock itself.
    The hidden [#productId] control it also fills is read by no handler
    and is not part of the page here. *)
Definition populateForm (uoms : list JS.jsstring) (product : Product.t)
    (st : state) : state :=
  set_dom (set_form (Product.name product)
                    (select_value uoms (Product.unit product))
                    (JS.number_text (Product.price product))
                    (JS.Z_text (Product.stock product))
                    (dom st)) st.

(** [onModalShow()]: a blank form to add, the product's values to edit. *)
Definition onModalShow (uoms : list JS.jsstring) (st : state) : state :=
  if negb (isEditMode st) then resetForm st
  else match currentProduct st with
       | Some product => populateForm uoms product st
       | None => st
       end.

(** [$("#productModal").modal("show")], which fires [show.bs.modal]. *)
Definition show_productModal (uoms : list JS.jsstring) (st : state) : state :=
  onModalShow uoms (set_dom (set_productModal true (dom st)) st).

(** A click on the add button: the handler bound in [bindEvents] runs,
    then the modal opens. *)
Definition addProduct_click (uoms : list JS.jsstring) (st : state) : state :=
  show_productModal uoms (set_editing false None st).

(** A click on the edit button of a row: [editProduct(productId)] with
    the [show.bs.modal] handler it triggers once the modal opens. *)
Definition editProduct_click (uoms : list JS.jsstring) (productId : Z)
    (st : state) : state :=
  match find_product productId st with
  | Some _ => onModalShow uoms (editProduct productId st)
  | None => editProduct productId st
  end.

End CatalogModal.

(** ** Predicates for the product page *)

Module CatalogProps.

Import ProductManager CatalogSpec.

(** The inline error of the name field, if any. *)
Definition name_error (name : JS.jsstring) : list (Field * JS.jsstring) :=
  if negb (JS.truthy name) || (length name <? 2)%nat then
    [(name_field, JS.lit "Product name must be at least 2 characters long")]
  else if negb (JS.test name_regex name) then
    [(name_field, JS.lit "Product name contains invalid characters")]
  else [].

(** The inline errors of a form, field by field. *)
Definition form_errors (d : Dom) : list (Field * JS.jsstring) :=
  name_error (JS.trim (name_val d))
  ++ (if negb (option_truthy (uoms_val d))
      then [(uoms_field, JS.lit "Please select a unit")] else [])
  ++ (if negb (JS.number_truthy (JS.parseFloat (price_val d)))
         || JS.number_le_0 (JS.parseFloat (price_val d))
      then [(price_field, JS.lit "Price must be greater than 0")] else [])
  ++ (if isNaN (JS.parseInt (stock_val d)) || lt_0 (JS.parseInt (stock_val d))
      then [(stock_field, JS.lit "Stock must be 0 or greater")] else []).

(** Two pages hold the same form values. *)
Definition same_form (d d' : Dom) : Prop :=
  name_val d' = name_val d /\ uoms_val d' = uoms_val d
  /\ price_val d' = price_val d /\ stock_val d' = stock_val d.

(** The page with one more notification, and nothing else changed. *)
Definition notified (message : JS.jsstring) (type : ToastType) (st : state)
    : state :=
  {| products := products st; currentProduct := currentProduct st;
     isEditMode := isEditMode st; productToDelete := productToDelete st;
     dom := dom st; log := log st ++ [Toast message type] |}.

(** The product data of the form values [n], [u], [pr] and [s]. *)
Definition form_data (n : JS.jsstring) (u : option JS.jsstring)
    (pr s : JS.jsstring) : Body :=
  ProductData (JS.trim n) u (JS.parseFloat pr)
              (match JS.parseInt s with Some z => z | None => 0%Z end).

(** A request that creates or updates a product. *)
Definition is_save (e : Event) : bool :=
  match e with
  | Request POST _ _ | Request PUT _ _ => true
  | _ => false
  end.

(** What the save handler may add to the log: notifications, the list
    request, and product data that meets the rules of the form. *)
Definition save_event_ok (e : Event) : Prop :=
  match e with
  | Toast _ _ => True
  | Request GET _ NoBody => True
  | Request POST url (ProductData n u p s) =>
      url = manage_products_url
      /\ name_rule name_unit n /\ unit_rule u /\ price_rule p /\ (0 <= s)%Z
  | Request PUT _ (ProductData n u p s) =>
      name_rule name_unit n /\ unit_rule u /\ price_rule p /\ (0 <= s)%Z
  | _ => False
  end.

(** The request a valid form is saved with: a PUT to the product being
    edited, a POST otherwise; none when edit mode has lost its product. *)
Definition save_request (st : state) : option Event :=
  if isEditMode st then
    option_map (fun p => Request PUT (product_url (Product.id p)) (getFormData st))
               (currentProduct st)
  else Some (Request POST manage_products_url (getFormData st)).

Definition saved_message (st : state) : JS.jsstring :=
  if isEditMode st then JS.lit "Product updated successfully!"
  else JS.lit "Product added successfully!".

Definition save_fallback (st : state) : JS.jsstring :=
  if isEditMode st then JS.lit "Failed to update product"
  else JS.lit "Failed to add product".

(** The notification a failed list request leaves. *)
Definition list_toast (r : Response (list Product.t)) : list Event :=
  match r with
  | Ok _ => []
  | _ => [Toast (JS.lit "Failed to load products") error]
  end.

(** What follows the save request in the log. *)
Definition after_save (save : Response unit) (refetch : Response (list Product.t))
    (st : state) : list Event :=
  match save with
  | Ok _ => Toast (saved_message st) success
            :: Request GET manage_products_url NoBody :: list_toast refetch
  | _ => [Toast (error_message (save_fallback st) save) error]
  end.

(** The page on which a valid form is saved: the inline errors are gone
    and the save button is disabled. *)
Definition saving (st : state) : state :=
  showLoading true (set_dom (set_field_errors [] (dom st)) st).

(** The table [displayProducts] draws from a list. *)
Definition table_of (ps : list Product.t) : TableBody :=
  match ps with
  | [] => EmptyStateRow
  | _ => ProductRows (List.map render_row ps)
  end.

(** Every row of a table body shows its buttons. *)
Definition all_buttons (b : TableBody) : Prop :=
  match b with
  | ProductRows rows => Forall (fun r => row_actions r = Buttons) rows
  | _ => True
  end.

(** The list a fetch leaves in [this.products]. *)
Definition held_after (r : Response (list Product.t)) (st : state)
    : list Product.t :=
  match r with
  | Ok ps => ps
  | _ => products st
  end.

End CatalogProps.

(** ** Runs of the order composer *)

Module ComposerProps.

Import GroceryStore ComposerSpec.

(** What can happen on the dashboard: a row operation, a key in the
    customer field, the response to the product request of the
    constructor, a refresh, a submission. *)
Inductive Action :=
| OnRow (op : Op)
| TypeCustomerName (name : JS.jsstring)
| ProductsArrive (r : Response (list Product.t))
| RefreshData (f : Refresh)
| Submit (placed : Response JS.jsstring) (f : Refresh).

Definition perform (st : state) (a : Action) : state :=
  match a with
  | OnRow op => step st op
  | TypeCustomerName name => set_customer_name name st
  | ProductsArrive r => fetchProducts_resume r st
  | RefreshData f => refreshData f st
  | Submit placed f => handleOrderSubmit placed f st
  end.

(** The pages the handlers can produce from the constructed one. *)
Definition reachable (st : state) : Prop :=
  exists actions, st = fold_left perform actions constructed.

(** Every select shows the current product list. *)
Definition options_current (st : state) : Prop :=
  Forall (fun r => options r = option_elements st) (rows st).

(** The notification a failed product request leaves. *)
Definition products_toast (r : Response (list Product.t)) : list Event :=
  match r with
  | Ok _ => []
  | _ => [Toast (JS.lit "Failed to load products") error]
  end.

Definition orders_toast (r : Response unit) : list Event :=
  match r with
  | Ok _ => []
  | _ => [Toast (JS.lit "Failed to load orders") error]
  end.

(** What [loadInitialData] adds to the log, each notification after the
    request it answers. *)
Definition load_events (f : Refresh) : list Event :=
  (Request GET (JS.lit "/api/manage-products") NoBody
     :: products_toast (products_response f))
  ++ (Request GET (JS.lit "/api/orders?per_page=10") NoBody
        :: orders_toast (orders_response f))
  ++ [Request GET (JS.lit "/api/stats") NoBody].

(** The product list after a response. *)
Definition products_after (r : Response (list Product.t)) (st : state)
    : list Product.t :=
  match r with
  | Ok ps => ps
  | _ => allProducts st
  end.




(** A page on which the first product is selected with a quantity. *)
Definition ready : state :=
  fold_left perform
    [ProductsArrive (Ok [rice; oil]); OnRow AddRow;
     OnRow (ChangeProduct 0 (Some 0%nat)); OnRow (ChangeQuantity 0 (JS.lit "2"));
     TypeCustomerName (JS.lit "Asha")]
    constructed.

End ComposerProps.

(** * Facts about the platform functions *)

Section RegexFacts.

Lemma test_Void s : JS.test JS.Void s = false.
Proof. induction s; simpl; auto. Qed.

Lemma test_Eps s : JS.test JS.Eps s = true <-> s = [].
Proof.
  destruct s; simpl; [tauto|]. rewrite test_Void. split; discriminate.
Qed.

Lemma test_Alt a b s : JS.test (JS.Alt a b) s = JS.test a s || JS.test b s.
Proof. revert a b. induction s as [|c s IH]; intros; simpl; auto. Qed.

Lemma test_Cat_Void r s : JS.test (JS.Cat JS.Void r) s = false.
Proof. induction s; simpl; auto. Qed.

Lemma test_Cat_Eps r s : JS.test (JS.Cat JS.Eps r) s = JS.test r s.
Proof.
  destruct s as [|c s]; simpl; [reflexivity|].
  now rewrite test_Alt, test_Cat_Void.
Qed.

(** [/^[class]*$/] accepts exactly the strings made of the class. *)
Lemma test_Star_Class p s :
  JS.test (JS.Star (JS.Class p)) s = forallb p s.
Proof.
  induction s as [|c s IH]; simpl; [reflexivity|].
  destruct (p c); simpl.
  - now rewrite test_Cat_Eps.
  - apply test_Cat_Void.
Qed.

(** [/^[class]+$/] accepts the non-empty ones. *)
Lemma test_Plus_Class p s :
  JS.test (JS.Plus (JS.Class p)) s = JS.truthy s && forallb p s.
Proof.
  destruct s as [|c s]; simpl; [reflexivity|].
  destruct (p c); simpl.
  - rewrite test_Cat_Eps. apply test_Star_Class.
  - apply test_Cat_Void.
Qed.

(** Concatenation splits the string. *)
Lemma test_Cat a b s :
  JS.test (JS.Cat a b) s = true <->
  exists s1 s2, s = s1 ++ s2 /\ JS.test a s1 = true /\ JS.test b s2 = true.
Proof.
  revert a. induction s as [|c s IH]; intros a; simpl.
  - rewrite andb_true_iff. split.
    + intros [Ha Hb]. exists [], []. auto.
    + intros (s1 & s2 & E & H1 & H2).
      symmetry in E. apply app_eq_nil in E as [-> ->]. auto.
  - destruct (JS.nullable a) eqn:Na.
    + rewrite test_Alt, orb_true_iff, IH. split.
      * intros [(s1 & s2 & -> & H1 & H2) | H].
        -- exists (c :: s1), s2. auto.
        -- exists [], (c :: s). auto.
      * intros (s1 & s2 & E & H1 & H2). destruct s1 as [|c' s1].
        -- right. simpl in E. subst s2. exact H2.
        -- left. simpl in E. injection E as <- ->. exists s1, s2. auto.
    + rewrite IH. split.
      * intros (s1 & s2 & -> & H1 & H2). exists (c :: s1), s2. auto.
      * intros (s1 & s2 & E & H1 & H2). destruct s1 as [|c' s1].
        -- simpl in H1. congruence.
        -- simpl in E. injection E as <- ->. exists s1, s2. auto.
Qed.

End RegexFacts.

Section DecimalFacts.

Lemma is_digit_spec c : JS.is_digit c = true <-> (48 <= c <= 57)%N.
Proof.
  unfold JS.is_digit, JS.in_range.
  rewrite andb_true_iff, !N.leb_le. tauto.
Qed.

Lemma digit_not_space c : JS.is_digit c = true -> JS.is_space c = false.
Proof.
  rewrite is_digit_spec. intros H. unfold JS.is_space.
  assert (forall lo hi, (hi < 48 \/ 57 < lo)%N -> JS.in_range lo hi c = false) as Hr.
  { intros lo hi Hb. unfold JS.in_range. apply andb_false_iff.
    rewrite !N.leb_gt. lia. }
  assert (forall k, (k < 48 \/ 57 < k)%N -> (c =? k)%N = false) as He.
  { intros k Hk. apply N.eqb_neq. lia. }
  rewrite !Hr, !He by lia. reflexivity.
Qed.

Lemma uint_text_digits u : forallb JS.is_digit (JS.uint_text u) = true.
Proof. induction u; simpl; auto. Qed.

Lemma N_text_digits n : forallb JS.is_digit (JS.N_text n) = true.
Proof. apply uint_text_digits. Qed.

Lemma uint_text_nonempty u : u <> Decimal.Nil -> JS.uint_text u <> [].
Proof. destruct u; simpl; congruence. Qed.

Lemma N_text_nonempty n : JS.N_text n <> [].
Proof.
  unfold JS.N_text. destruct n as [|p]; simpl; [discriminate|].
  apply uint_text_nonempty, DecimalPos.Unsigned.to_uint_nonnil.
Qed.

Lemma take_while_all p s : forallb p s = true -> JS.take_while p s = s.
Proof.
  induction s as [|c s IH]; simpl; [reflexivity|].
  destruct (p c); simpl; [|discriminate]. intros H. now rewrite IH.
Qed.

Lemma drop_while_all p s : forallb p s = true -> JS.drop_while p s = [].
Proof.
  induction s as [|c s IH]; simpl; [reflexivity|].
  destruct (p c); simpl; [|discriminate]. exact IH.
Qed.

Lemma take_while_app p s c t :
  forallb p s = true -> p c = false -> JS.take_while p (s ++ c :: t) = s.
Proof.
  induction s as [|d s IH]; simpl; intros Hs Hc.
  - now rewrite Hc.
  - destruct (p d); simpl in *; [|discriminate]. now rewrite IH.
Qed.

Lemma drop_while_app p s c t :
  forallb p s = true -> p c = false -> JS.drop_while p (s ++ c :: t) = c :: t.
Proof.
  induction s as [|d s IH]; simpl; intros Hs Hc.
  - now rewrite Hc.
  - destruct (p d); simpl in *; [|discriminate]. now apply IH.
Qed.

Lemma fold_uint_text_acc u acc :
  fold_left (JS.digit_step 10) (JS.uint_text u) (N.pos acc) = N.pos (Pos.of_uint_acc u acc).
Proof.
  revert acc. induction u; intros acc; simpl; [reflexivity| ..];
    (etransitivity; [|apply IHu]); f_equal;
    unfold JS.digit_step; vm_compute JS.digit_value; lia.
Qed.

Lemma fold_uint_text u :
  fold_left (JS.digit_step 10) (JS.uint_text u) 0%N = N.of_uint u.
Proof.
  unfold N.of_uint.
  induction u; simpl; [reflexivity | exact IHu | ..];
    match goal with
    | |- fold_left _ _ ?a = _ =>
        let v := eval vm_compute in a in
        change a with v
    end; apply fold_uint_text_acc.
Qed.

(** Reading the decimal text of a natural number gives the number. *)
Lemma digits_value_N_text n : JS.digits_value 10 (JS.N_text n) = n.
Proof.
  unfold JS.digits_value, JS.N_text.
  rewrite fold_uint_text. apply DecimalN.Unsigned.of_to.
Qed.

Lemma split_radix_digits s :
  forallb JS.is_digit s = true -> JS.split_radix s = (10%N, s).
Proof.
  destruct s as [|z [|x r]]; simpl; try reflexivity.
  rewrite !andb_true_iff. intros (_ & Hx & _).
  apply is_digit_spec in Hx.
  destruct (N.eqb_spec x 120); [lia|]. destruct (N.eqb_spec x 88); [lia|].
  now rewrite andb_false_r.
Qed.

Lemma split_sign_digit c s :
  JS.is_digit c = true -> JS.split_sign (c :: s) = (false, c :: s).
Proof.
  rewrite is_digit_spec. intros H. simpl.
  destruct (N.eqb_spec c 45); [lia|]. destruct (N.eqb_spec c 43); [lia|].
  reflexivity.
Qed.

Lemma parseInt_N_text n : JS.parseInt (JS.N_text n) = Some (Z.of_N n).
Proof.
  pose proof (N_text_digits n) as Hd. pose proof (N_text_nonempty n) as Hne.
  pose proof (digits_value_N_text n) as Hv.
  unfold JS.parseInt. destruct (JS.N_text n) as [|c s]; [congruence|].
  assert (Hc : JS.is_digit c = true).
  { cbn [forallb] in Hd. now apply andb_true_iff in Hd. }
  cbn [JS.drop_while]. rewrite (digit_not_space _ Hc).
  rewrite (split_sign_digit _ _ Hc).
  rewrite split_radix_digits by exact Hd.
  rewrite take_while_all by exact Hd.
  now rewrite Hv.
Qed.

Lemma parseInt_minus_N_text n :
  JS.parseInt (45%N :: JS.N_text n) = Some (- Z.of_N n)%Z.
Proof.
  pose proof (N_text_digits n) as Hd. pose proof (N_text_nonempty n) as Hne.
  pose proof (digits_value_N_text n) as Hv.
  unfold JS.parseInt. cbn [JS.drop_while].
  change (JS.is_space 45) with false. cbv iota.
  unfold JS.split_sign. change (45 =? 45)%N with true. cbv iota beta.
  rewrite split_radix_digits by exact Hd.
  rewrite take_while_all by exact Hd.
  destruct (JS.N_text n); [congruence|]. now rewrite Hv.
Qed.

(** [parseInt(String(z))] is [z]. *)
Lemma parseInt_Z_text z : JS.parseInt (JS.Z_text z) = Some z.
Proof.
  unfold JS.Z_text. destruct (Z.ltb_spec z 0).
  - rewrite parseInt_minus_N_text. f_equal. lia.
  - rewrite parseInt_N_text. f_equal. lia.
Qed.

End DecimalFacts.

(** * The product page *)

Section CatalogFacts.

Import ProductManager CatalogSpec.

Lemma name_rule_ok permitted name :
  name_rule permitted name <-> name_ok permitted name = true.
Proof.
  unfold name_rule, name_ok.
  rewrite andb_true_iff, Nat.leb_le, forallb_forall. tauto.
Qed.

Lemma price_rule_ok price :
  price_rule price <->
  negb (JS.number_truthy price) || JS.number_le_0 price = false.
Proof.
  destruct price as [|q|[|]]; simpl; try (split; [tauto || discriminate|discriminate]);
    try tauto.
  - rewrite orb_false_iff, negb_false_iff.
    split.
    + intros H. split.
      * destruct (Qeq_bool q 0) eqn:E; [|reflexivity].
        apply Qeq_bool_eq in E. rewrite E in H. now apply Qlt_irrefl in H.
      * destruct (Qle_bool q 0) eqn:E; [|reflexivity].
        apply Qle_bool_imp_le in E. exfalso. eapply Qlt_not_le; eauto.
    + intros [H1 H2]. apply Qnot_le_lt. intros Hle.
      apply Qle_bool_iff in Hle. congruence.
Qed.

Lemma unit_rule_ok unit : unit_rule unit <-> option_truthy unit = true.
Proof.
  unfold unit_rule. destruct unit as [[|c u]|]; simpl.
  - split; [intros (u & [= <-] & H); congruence | discriminate].
  - split; [reflexivity | intros _; eexists; split; [reflexivity | discriminate]].
  - split; [intros (u & H & _); discriminate | discriminate].
Qed.

Lemma stock_rule_ok stock : stock_rule stock <-> isNaN stock || lt_0 stock = false.
Proof.
  unfold stock_rule. destruct stock as [z|]; simpl.
  - rewrite Z.ltb_ge. split; [intros (z' & [= <-] & H); exact H | eauto].
  - split; [intros (z & H & _); discriminate | discriminate].
Qed.

Lemma name_check name :
  negb (JS.truthy name) || (length name <? 2)%nat = false ->
  JS.test name_regex name = forallb name_unit name.
Proof.
  unfold name_regex. rewrite test_Plus_Class.
  destruct name; simpl; [discriminate | reflexivity].
Qed.

(** [validateForm] returns the conjunction of its four checks. *)
Lemma validateForm_checks st :
  fst (validateForm st) =
  name_ok name_unit (JS.trim (name_val (dom st)))
  && option_truthy (uoms_val (dom st))
  && negb (negb (JS.number_truthy (JS.parseFloat (price_val (dom st))))
           || JS.number_le_0 (JS.parseFloat (price_val (dom st))))
  && negb (isNaN (JS.parseInt (stock_val (dom st)))
           || lt_0 (JS.parseInt (stock_val (dom st)))).
Proof.
  unfold validateForm, name_ok. cbn [dom set_dom name_val set_field_errors].
  destruct (negb (JS.truthy (JS.trim (name_val (dom st))))
            || (length (JS.trim (name_val (dom st))) <? 2)%nat) eqn:E1.
  - assert ((2 <=? length (JS.trim (name_val (dom st))))%nat = false) as ->.
    { apply orb_true_iff in E1 as [E|E].
      - destruct (JS.trim (name_val (dom st))); [reflexivity | discriminate].
      - apply Nat.ltb_lt in E. apply Nat.leb_gt. exact E. }
    cbn. repeat match goal with |- context [if ?b then _ else _] => destruct b end;
      reflexivity.
  - rewrite (name_check _ E1).
    assert ((2 <=? length (JS.trim (name_val (dom st))))%nat = true) as ->.
    { apply orb_false_iff in E1 as [_ E]. apply Nat.ltb_ge in E.
      apply Nat.leb_le. exact E. }
    cbn.
    destruct (forallb name_unit (JS.trim (name_val (dom st)))); cbn;
    destruct (option_truthy (uoms_val (dom st))); cbn;
    destruct (negb (JS.number_truthy (JS.parseFloat (price_val (dom st))))
              || JS.number_le_0 (JS.parseFloat (price_val (dom st)))); cbn;
    destruct (isNaN (JS.parseInt (stock_val (dom st)))
              || lt_0 (JS.parseInt (stock_val (dom st)))); reflexivity.
Qed.

Lemma validateForm_iff st :
  fst (validateForm st) = true <-> form_rules name_unit (dom st).
Proof.
  rewrite validateForm_checks. unfold form_rules.
  rewrite name_rule_ok, unit_rule_ok, price_rule_ok, stock_rule_ok.
  rewrite !andb_true_iff, !negb_true_iff. tauto.
Qed.

Lemma handleSaveProduct_invalid save refetch st :
  fst (validateForm st) = false ->
  handleSaveProduct save refetch st = snd (validateForm st).
Proof.
  unfold handleSaveProduct. destruct (validateForm st) as [valid st'].
  simpl. now intros ->.
Qed.

Lemma validateForm_log st : log (snd (validateForm st)) = log st.
Proof.
  unfold validateForm.
  repeat match goal with |- context [if ?b then _ else _] => destruct b end;
    reflexivity.
Qed.

End CatalogFacts.

Section PatternFacts.

Import ProductManager.

Lemma test_Class p s :
  JS.test (JS.Class p) s = true <-> exists c, s = [c] /\ p c = true.
Proof.
  destruct s as [|c s]; simpl.
  - split; [discriminate | intros (c & H & _); discriminate].
  - destruct (p c) eqn:E.
    + rewrite test_Eps. split.
      * intros ->. eauto.
      * intros (c' & [= -> ->] & _). reflexivity.
    + rewrite test_Void. split; [discriminate|].
      intros (c' & [= -> _] & H). congruence.
Qed.

Lemma test_Opt_Class p s :
  JS.test (JS.Opt (JS.Class p)) s = true <->
  s = [] \/ exists c, s = [c] /\ p c = true.
Proof. unfold JS.Opt. now rewrite test_Alt, orb_true_iff, test_Eps, test_Class. Qed.

(** [/^\d*\.?\d{0,2}$/] accepts digits, then at most one point, then at
    most two digits. *)
Lemma price_input_regex_spec value :
  JS.test price_input_regex value = true <->
  exists ds point fs,
    value = ds ++ point ++ fs
    /\ forallb JS.is_digit ds = true
    /\ (point = [] \/ point = [46%N])
    /\ forallb JS.is_digit fs = true /\ (length fs <= 2)%nat.
Proof.
  unfold price_input_regex, JS.Upto2. rewrite test_Cat. split.
  - intros (ds & rest & -> & Hds & Hrest). rewrite test_Star_Class in Hds.
    apply test_Cat in Hrest as (point & fs & -> & Hp & Hfs).
    apply test_Opt_Class in Hp.
    apply test_Cat in Hfs as (f1 & f2 & -> & H1 & H2).
    apply test_Opt_Class in H1, H2.
    exists ds, point, (f1 ++ f2). split; [reflexivity|]. split; [exact Hds|].
    split.
    + destruct Hp as [-> | (c & -> & Hc)]; [now left | right].
      apply N.eqb_eq in Hc. now subst c.
    + destruct H1 as [-> | (c1 & -> & Hc1)], H2 as [-> | (c2 & -> & Hc2)];
        simpl; rewrite ?Hc1, ?Hc2; split; auto.
  - intros (ds & point & fs & -> & Hds & Hp & Hfs & Hlen).
    exists ds, (point ++ fs). split; [reflexivity|].
    split; [now rewrite test_Star_Class|].
    apply test_Cat. exists point, fs. split; [reflexivity|]. split.
    + apply test_Opt_Class. destruct Hp as [-> | ->]; [now left | right].
      exists 46%N. split; reflexivity.
    + apply test_Cat.
      destruct fs as [|a [|b [|c fs]]]; simpl in Hlen; try lia; simpl in Hfs.
      * exists [], []. split; [reflexivity|].
        split; apply test_Opt_Class; now left.
      * exists [a], []. rewrite andb_true_r in Hfs. split; [reflexivity|].
        split; apply test_Opt_Class; [right; eauto | now left].
      * apply andb_true_iff in Hfs as [Ha Hb]. rewrite andb_true_r in Hb.
        exists [a], [b]. split; [reflexivity|].
        split; apply test_Opt_Class; right; eauto.
Qed.

(** A value made of digits, then one character that is not a digit. *)
Lemma filter_digits_then_other value c :
  forallb JS.is_digit value = true -> JS.is_digit c = false ->
  JS.test stock_input_regex (value ++ [c]) = false
  /\ List.filter JS.is_digit (value ++ [c]) = value.
Proof.
  intros Hv Hc. unfold stock_input_regex. rewrite test_Star_Class, forallb_app.
  cbn [forallb]. rewrite Hc, andb_false_r. split; [reflexivity|].
  rewrite List.filter_app. cbn [List.filter]. rewrite Hc, app_nil_r.
  clear Hc. induction value as [|d ds IH]; [reflexivity|].
  cbn [forallb List.filter] in *. apply andb_true_iff in Hv as [Hd Hds].
  now rewrite Hd, IH.
Qed.

End PatternFacts.

Section CatalogClaims.

Import ProductManager CatalogSpec.

(** C5, as stated, fails: the name [a<TAB>b] holds a character outside
    [A-Za-z0-9 _-], and [validateForm] returns true on it. *)
Lemma validateForm_accepts_tab :
  fst (validateForm tab_form) = true
  /\ ~ form_rules written_name_unit (dom tab_form).
Proof.
  split; [reflexivity|].
  intros [[_ H] _]. specialize (H 9%N).
  assert (In 9%N (JS.trim (name_val (dom tab_form)))) as Hin
      by (vm_compute; tauto).
  apply H in Hin. discriminate.
Qed.

(** C5 (amended): [validateForm] returns true exactly when the trimmed
    name has at least 2 characters, all of them in [A-Za-z0-9_-] or
    white space ([\s]), a unit is selected, the price parses to a
    number greater than 0 and the stock parses to an integer not below
    0; it accepts name length 2, price 0.01 and stock 0; and when it
    returns false [handleSaveProduct] sends no request. *)
Theorem validateForm_rules (st : state) :
  (fst (validateForm st) = true <-> form_rules name_unit (dom st))
  /\ fst (validateForm
            (fill (JS.lit "ab") (Some (JS.lit "kg")) (JS.lit "0.01") (JS.lit "0") st))
     = true
  /\ (forall save refetch,
         fst (validateForm st) = false ->
         no_request (log st) (log (handleSaveProduct save refetch st))).
Proof.
  split; [apply validateForm_iff|]. split; [reflexivity|].
  intros save refetch H. exists [].
  rewrite handleSaveProduct_invalid, validateForm_log by exact H.
  now rewrite app_nil_r.
Qed.

(** On the other side of each boundary the form is rejected: a name of
    one character, a name with [!], no unit, price 0, a negative price,
    stock -1 and an empty stock. *)
Lemma validateForm_rejects :
  let valid n u p s := fst (validateForm (fill n u p s constructed)) in
  valid (JS.lit "a") (Some (JS.lit "kg")) (JS.lit "1") (JS.lit "0") = false
  /\ valid (JS.lit "Rice!") (Some (JS.lit "kg")) (JS.lit "1") (JS.lit "0") = false
  /\ valid (JS.lit "Rice") None (JS.lit "1") (JS.lit "0") = false
  /\ valid (JS.lit "Rice") (Some (JS.lit "kg")) (JS.lit "0") (JS.lit "0") = false
  /\ valid (JS.lit "Rice") (Some (JS.lit "kg")) (JS.lit "-5") (JS.lit "0") = false
  /\ valid (JS.lit "Rice") (Some (JS.lit "kg")) (JS.lit "1") (JS.lit "-1") = false
  /\ valid (JS.lit "Rice") (Some (JS.lit "kg")) (JS.lit "1") [] = false.
Proof. repeat split. Qed.

(** C5, on two forms: the name [a<TAB>b] meets the rules, and the blank
    form is rejected without a request. *)
Lemma validateForm_rules_witness :
  form_rules name_unit (dom tab_form)
  /\ no_request (log blank_form)
       (log (handleSaveProduct (Ok tt) (Ok []) blank_form)).
Proof.
  split.
  - apply (proj1 (validateForm_rules tab_form)). reflexivity.
  - apply (proj2 (proj2 (validateForm_rules blank_form))).
    reflexivity.
Defined.

(** C9, as stated, fails on the stock field: a letter typed between the
    digits of [12] gives [12] again, not [1a], and [1.5] becomes [15],
    not [1.]. *)
Lemma validateStockInput_not_last :
  JS.test stock_input_regex (JS.lit "1a2") = false
  /\ validateStockInput (JS.lit "1a2") = JS.lit "12"
  /\ validateStockInput (JS.lit "1a2") <> JS.slice_0_m1 (JS.lit "1a2")
  /\ JS.test stock_input_regex (JS.lit "1.5") = false
  /\ validateStockInput (JS.lit "1.5") = JS.lit "15"
  /\ validateStockInput (JS.lit "1.5") <> JS.slice_0_m1 (JS.lit "1.5").
Proof. repeat split; vm_compute; congruence. Qed.

Lemma failing_value_nonempty r value :
  JS.nullable r = true -> JS.test r value = false -> value <> [].
Proof. intros Hn Ht ->. simpl in Ht. congruence. Qed.

(** C9 (amended): when the value fails the pattern of its field, the
    name and the price sanitisers remove exactly its last character and
    the stock sanitiser removes every character that is not a digit,
    wherever it stands, which is the last character when that is the only
    one; a value that passes is left as it is. *)
Theorem live_sanitizers (value : JS.jsstring) :
  (JS.test name_input_regex value = false ->
     exists c, value = validateNameInput value ++ [c])
  /\ (JS.test price_input_regex value = false ->
        exists c, value = validatePriceInput value ++ [c])
  /\ (JS.test stock_input_regex value = false ->
        validateStockInput value = List.filter JS.is_digit value)
  /\ (forall c, forallb JS.is_digit value = true -> JS.is_digit c = false ->
        validateStockInput (value ++ [c]) = value)
  /\ (JS.test name_input_regex value = true -> validateNameInput value = value)
  /\ (JS.test price_input_regex value = true -> validatePriceInput value = value)
  /\ (JS.test stock_input_regex value = true -> validateStockInput value = value).
Proof.
  unfold validateNameInput, validatePriceInput, validateStockInput, JS.slice_0_m1.
  split; [|split; [|split; [|split]]].
  - intros H. rewrite H. exists (List.last value 0%N). apply app_removelast_last.
    eapply failing_value_nonempty; [|exact H]. reflexivity.
  - intros H. rewrite H. exists (List.last value 0%N). apply app_removelast_last.
    eapply failing_value_nonempty; [|exact H]. reflexivity.
  - intros H. now rewrite H.
  - intros c Hv Hc.
    destruct (filter_digits_then_other value c Hv Hc) as [Ht Hf]. now rewrite Ht.
  - repeat split; intros H; now rewrite H.
Qed.

(** C9, on four values: [Rice!] and [1.234] lose their last character,
    [1a2] loses the letter, [Rice] is kept. *)
Lemma live_sanitizers_witness :
  (exists c, JS.lit "Rice!" = validateNameInput (JS.lit "Rice!") ++ [c])
  /\ (exists c, JS.lit "1.234" = validatePriceInput (JS.lit "1.234") ++ [c])
  /\ validateStockInput (JS.lit "1a2") = List.filter JS.is_digit (JS.lit "1a2")
  /\ validateNameInput (JS.lit "Rice") = JS.lit "Rice".
Proof.
  pose proof (live_sanitizers (JS.lit "Rice!")) as (H1 & _).
  pose proof (live_sanitizers (JS.lit "1.234")) as (_ & H2 & _).
  pose proof (live_sanitizers (JS.lit "1a2")) as (_ & _ & H3 & _).
  pose proof (live_sanitizers (JS.lit "Rice")) as (_ & _ & _ & _ & H4 & _).
  exact (conj (H1 eq_refl) (conj (H2 eq_refl) (conj (H3 eq_refl) (H4 eq_refl)))).
Defined.

End CatalogClaims.

Section CatalogRequests.

Import ProductManager CatalogSpec.

(** The text of an integer determines it. *)
Lemma Z_text_inj a b : JS.Z_text a = JS.Z_text b -> a = b.
Proof.
  intros H. apply (f_equal JS.parseInt) in H.
  rewrite !parseInt_Z_text in H. congruence.
Qed.

Lemma product_url_inj a b : product_url a = product_url b -> a = b.
Proof.
  unfold product_url. intros H.
  apply app_inv_head in H. apply app_inv_head in H. now apply Z_text_inj.
Qed.

(** Whatever the response, [fetchProducts] ends with the table that
    [displayProducts] draws from [this.products]. *)
Lemma fetchProducts_tbody r st :
  tbody (dom (fetchProducts r st)) =
  match (match r with Ok ps => ps | _ => products st end) with
  | [] => EmptyStateRow
  | ps => ProductRows (List.map render_row ps)
  end.
Proof.
  destruct r as [ps| |]; unfold fetchProducts, fetchProducts_resume, displayProducts;
    cbn; [destruct ps | destruct (products st) | destruct (products st)]; reflexivity.
Qed.

(** The loading row is gone after every outcome. *)
Lemma fetchProducts_clears_loading r st :
  tbody (dom (fetchProducts r st)) <> LoadingRow.
Proof.
  rewrite fetchProducts_tbody.
  destruct (match r with Ok ps => ps | _ => products st end); discriminate.
Qed.

Lemma fetchProducts_log r st :
  exists toasts,
    log (fetchProducts r st) =
    log st ++ Request GET manage_products_url NoBody :: toasts
    /\ List.filter is_request toasts = [].
Proof.
  destruct r as [ps| |]; unfold fetchProducts, fetchProducts_resume, displayProducts;
    cbn; [destruct ps | destruct (products st) | destruct (products st)]; cbn;
    rewrite <- ?app_assoc; eexists; (split; [reflexivity|]); reflexivity.
Qed.

(** C6, on the code: with a product list in memory, a failed fetch
    notifies and then draws that list again, not the empty state. *)
Lemma fetchProducts_failure_redraws_held_list :
  let st := fetchProducts (HttpError None) (loaded [rice]) in
  tbody (dom st) = ProductRows [render_row rice]
  /\ tbody (dom st) <> EmptyStateRow
  /\ log st = log (loaded [rice])
              ++ [Request GET manage_products_url NoBody;
                  Toast (JS.lit "Failed to load products") error].
Proof. repeat split; discriminate. Qed.

(** [confirmDeleteProduct] only opens the dialog: it sends nothing. *)
Lemma confirmDeleteProduct_opens_dialog productId product st :
  find_product productId st = Some product ->
  confirmModal_shown (dom (confirmDeleteProduct productId st)) = true
  /\ productToDelete (confirmDeleteProduct productId st) = Some productId
  /\ log (confirmDeleteProduct productId st) = log st.
Proof. unfold confirmDeleteProduct. intros ->. repeat split. Qed.

Lemma showRowLoading_false productId st : showRowLoading productId false st = st.
Proof. reflexivity. Qed.

(** A failed delete leaves the table as [showRowLoading(productId, true)]
    made it: the rows of that id show the spinner. *)
Lemma deleteProductById_failure_tbody productId deleted refetch st :
  (forall u, deleted <> Ok u) ->
  tbody (dom (deleteProductById productId deleted refetch st))
  = tbody (dom (showRowLoading productId true st)).
Proof.
  intros H. unfold deleteProductById, deleteProductById_resume.
  destruct deleted as [u|e|m]; [now destruct (H u) | reflexivity | reflexivity].
Qed.

(** C7, on the code: after a failed delete the user is notified and the
    action cell of the row still shows the spinner. *)
Lemma failed_delete_leaves_row_loading :
  let st := confirmDeleteProduct 1 (loaded [rice]) in
  let st' := handleConfirmDelete (HttpError (Some (JS.lit "Product is in use")))
                                 (Ok [rice]) st in
  confirmModal_shown (dom st) = true
  /\ tbody (dom st) = ProductRows [render_row rice]
  /\ tbody (dom st')
     = ProductRows [{| data_product_id := 1; row_product := rice;
                       row_actions := Spinner |}]
  /\ log st' = log st
               ++ [Request DELETE (JS.lit "/api/manage-products/1") NoBody;
                   Toast (JS.lit "Product is in use") error].
Proof. repeat split. Qed.

Lemma handleConfirmDelete_falsy deleted refetch st :
  id_truthy (productToDelete st) = false ->
  handleConfirmDelete deleted refetch st = st.
Proof. unfold handleConfirmDelete. now intros ->. Qed.

Lemma showRowLoading_log productId show st :
  log (showRowLoading productId show st) = log st.
Proof.
  unfold showRowLoading. destruct show; [|reflexivity].
  destruct (tbody (dom st)); reflexivity.
Qed.

Lemma log_emit e st : log (emit e st) = log st ++ [e].
Proof. reflexivity. Qed.

Lemma log_showToast m t st : log (showToast m t st) = log st ++ [Toast m t].
Proof. reflexivity. Qed.

Lemma log_set_dom d st : log (set_dom d st) = log st.
Proof. reflexivity. Qed.

Lemma log_set_productToDelete o st : log (set_productToDelete o st) = log st.
Proof. reflexivity. Qed.

Create Rewrite HintDb catalog_log.
#[local] Hint Rewrite log_emit log_showToast log_set_dom log_set_productToDelete
     showRowLoading_log : catalog_log.

Lemma handleConfirmDelete_log deleted refetch st :
  log (handleConfirmDelete deleted refetch st) = log st
  \/ exists productId rest,
       productToDelete st = Some productId /\ productId <> 0%Z
       /\ log (handleConfirmDelete deleted refetch st)
          = log st ++ Request DELETE (product_url productId) NoBody :: rest
       /\ forall url body, In (Request DELETE url body) rest -> False.
Proof.
  unfold handleConfirmDelete.
  destruct (productToDelete st) as [productId|] eqn:E; [|now left].
  unfold id_truthy. destruct (Z.eqb_spec productId 0); [now left|].
  right. exists productId. cbn [negb]. cbv beta iota zeta.
  unfold deleteProductById_resume, deleteProductById_request.
  destruct deleted as [[]|e|m].
  - match goal with
    | |- context [fetchProducts refetch ?s] =>
        destruct (fetchProducts_log refetch s) as (toasts & Hlog & Hno);
        rewrite Hlog
    end.
    autorewrite with catalog_log. rewrite <- !app_assoc. cbn [app].
    eexists. split; [reflexivity|]. split; [exact n|]. split; [reflexivity|].
    intros url body [H|[H|H]]; try discriminate.
    assert (In (Request DELETE url body) (List.filter is_request toasts)) as Hin
        by (apply filter_In; split; [exact H | reflexivity]).
    rewrite Hno in Hin. exact Hin.
  - autorewrite with catalog_log. rewrite <- !app_assoc. cbn [app].
    eexists. split; [reflexivity|]. split; [exact n|]. split; [reflexivity|].
    intros url body [H|H]; [discriminate | exact H].
  - autorewrite with catalog_log. rewrite <- !app_assoc. cbn [app].
    eexists. split; [reflexivity|]. split; [exact n|]. split; [reflexivity|].
    intros url body [H|H]; [discriminate | exact H].
Qed.

(** C10: for a listed product whose id is 0 the dialog opens and the id
    is stored, but confirming changes nothing and sends nothing; and no
    run of [handleConfirmDelete] ever adds a DELETE request for id 0. *)
Theorem falsy_id_is_never_deleted (st : state) (product : Product.t)
    (deleted : Response unit) (refetch : Response (list Product.t)) :
  find_product 0 st = Some product ->
  let st1 := confirmDeleteProduct 0 st in
  confirmModal_shown (dom st1) = true
  /\ productToDelete st1 = Some 0%Z
  /\ handleConfirmDelete deleted refetch st1 = st1
  /\ forall st2 : state,
       In (Request DELETE (product_url 0) NoBody)
          (log (handleConfirmDelete deleted refetch st2)) ->
       In (Request DELETE (product_url 0) NoBody) (log st2).
Proof.
  intros Hfind st1.
  destruct (confirmDeleteProduct_opens_dialog 0 product st Hfind) as (H1 & H2 & _).
  split; [exact H1|]. split; [exact H2|]. split.
  - apply handleConfirmDelete_falsy. subst st1. now rewrite H2.
  - intros st2 Hin.
    destruct (handleConfirmDelete_log deleted refetch st2)
      as [E | (productId & rest & _ & Hne & E & Hrest)]; rewrite E in Hin;
      [exact Hin|].
    apply in_app_or in Hin as [Hin | [Hin | Hin]]; [exact Hin | | ].
    + apply (f_equal (fun e => match e with
                                | Request _ url _ => url
                                | Toast _ _ => []
                                end)) in Hin.
      apply product_url_inj in Hin. congruence.
    + destruct (Hrest _ _ Hin).
Qed.

(** C10, on a catalogue that lists a product with id 0. *)
Lemma falsy_id_is_never_deleted_witness :
  let st1 := confirmDeleteProduct 0 (loaded [rice; salt]) in
  confirmModal_shown (dom st1) = true
  /\ handleConfirmDelete (Ok tt) (Ok [rice]) st1 = st1.
Proof.
  pose proof (falsy_id_is_never_deleted (loaded [rice; salt]) salt
                (Ok tt) (Ok [rice]) eq_refl) as (H1 & _ & H3 & _).
  exact (conj H1 H3).
Defined.

End CatalogRequests.

(** * The order composer *)

Section ComposerRows.

Import GroceryStore ComposerSpec.

Lemma rows_updateOrderTotal st : rows (updateOrderTotal st) = rows st.
Proof. reflexivity. Qed.

Lemma log_updateOrderTotal st : log (updateOrderTotal st) = log st.
Proof. reflexivity. Qed.

Lemma allProducts_updateOrderTotal st :
  allProducts (updateOrderTotal st) = allProducts st.
Proof. reflexivity. Qed.

Lemma length_0_nil {A} (l : list A) : (length l =? 0)%nat = true <-> l = [].
Proof. destruct l; simpl; split; congruence. Qed.

(** C1, as stated, fails: with one row on the page and an empty
    product list, removing the row leaves no row. *)
Lemma removeProductRow_can_leave_no_row :
  length (rows stranded) = 1%nat
  /\ allProducts stranded = []
  /\ rows (removeProductRow 0 stranded) = [].
Proof. repeat split. Qed.

(** C1 (amended): while the product list is non-empty, the row list is
    non-empty after [removeProductRow], and a removal that empties it is
    followed by exactly one fresh empty row; the other rows are kept as
    they are.  With an empty product list [addProductRow] refuses with a
    notification and the list stays empty. *)
Theorem removeProductRow_keeps_a_row (st : state) (i : nat) :
  (allProducts st <> [] -> rows (removeProductRow i st) <> [])
  /\ (allProducts st <> [] -> delete i (rows st) = [] ->
        rows (removeProductRow i st) = [new_row 0 (option_elements st)])
  /\ (delete i (rows st) <> [] ->
        rows (removeProductRow i st) = delete i (rows st))
  /\ (allProducts st = [] -> delete i (rows st) = [] ->
        rows (removeProductRow i st) = []
        /\ log (removeProductRow i st)
           = log st ++ [Toast (JS.lit "No products available. Please add products first.")
                              error]).
Proof.
  unfold removeProductRow. cbv zeta. rewrite rows_updateOrderTotal.
  cbn [rows set_rows].
  destruct (delete i (rows st)) as [|r rs] eqn:E; cbn [length Nat.eqb].
  - unfold addProductRow. rewrite allProducts_updateOrderTotal.
    cbn [allProducts set_rows].
    destruct (allProducts st) as [|p ps] eqn:Eps.
    + repeat split; congruence.
    + unfold option_elements. rewrite Eps.
      cbn [rows updateOrderTotal set_orderTotal set_rows allProducts length app].
      rewrite Eps. repeat split; try congruence; try discriminate.
  - cbn [rows updateOrderTotal set_orderTotal set_rows].
    repeat split; try congruence; try discriminate.
Qed.

(** C1, on two pages: with rice in the catalogue the removed row is
    replaced, with an empty catalogue it is not. *)
Lemma removeProductRow_keeps_a_row_witness :
  rows (removeProductRow 0 (addProductRow (loaded [rice])))
  = [new_row 0 (option_elements (addProductRow (loaded [rice])))]
  /\ rows (removeProductRow 0 stranded) = [].
Proof.
  pose proof (removeProductRow_keeps_a_row (addProductRow (loaded [rice])) 0)
    as (_ & H2 & _).
  pose proof (removeProductRow_keeps_a_row stranded 0) as (_ & _ & _ & H4).
  split.
  - apply H2; [discriminate | reflexivity].
  - apply H4; reflexivity.
Defined.

End ComposerRows.

Section ComposerSubmit.

Import GroceryStore ComposerSpec.

Lemma nth_error_lookup {A} (l : list A) (i : nat) : nth_error l i = l !! i.
Proof. revert i. induction l as [|a l IH]; intros [|i]; cbn; auto. Qed.

(** The option the specification speaks of is the one the code finds. *)
Lemma shown_option_selectedOption r : shown_option r = selectedOption r.
Proof.
  unfold shown_option, selectedOption.
  destruct (selected r); [apply nth_error_lookup | reflexivity].
Qed.

Lemma collect_row_spec items flag r :
  collect_row (items, flag) r =
  if has_product_and_quantity r
  then (items ++ [item_of r], true)
  else (items, flag).
Proof.
  unfold collect_row, has_product_and_quantity, item_of, quantity_above_0, gt_0,
    select_val.
  rewrite shown_option_selectedOption.
  destruct (selectedOption r) as [o|]; [|reflexivity].
  destruct (disabled o), (value o) as [|c v], (JS.parseInt (quantity_val r)) as [q|];
    reflexivity.
Qed.

(** The loop collects the rows with a product and a quantity, in
    order, and raises the flag when there is one. *)
Lemma fold_collect_row rs items flag :
  fold_left collect_row rs (items, flag) =
  (items ++ List.map item_of (List.filter has_product_and_quantity rs),
   flag || existsb has_product_and_quantity rs).
Proof.
  revert items flag. induction rs as [|r rs IH]; intros items flag;
    cbn [fold_left List.filter List.map existsb].
  - now rewrite app_nil_r, orb_false_r.
  - rewrite collect_row_spec.
    destruct (has_product_and_quantity r); rewrite IH;
      cbn [List.map orb].
    + now rewrite <- app_assoc, orb_true_r.
    + reflexivity.
Qed.

Lemma existsb_filter {A} (p : A -> bool) l :
  existsb p l = false <-> List.filter p l = [].
Proof.
  induction l as [|a l IH]; simpl; [tauto|].
  destruct (p a); simpl; [split; discriminate | exact IH].
Qed.

Lemma collect_items_spec rs :
  collect_items rs =
  (List.map item_of (List.filter has_product_and_quantity rs),
   existsb has_product_and_quantity rs).
Proof. unfold collect_items. now rewrite fold_collect_row. Qed.











End ComposerSubmit.

Section ComposerQuantity.

Import GroceryStore ComposerSpec.

Lemma rows_calculateRowSubtotal i st :
  rows (calculateRowSubtotal i st) = alter render_subtotal i (rows st).
Proof. reflexivity. Qed.

Lemma log_calculateRowSubtotal i st : log (calculateRowSubtotal i st) = log st.
Proof. reflexivity. Qed.

(** The row a handler writes at position [i], after its subtotal has
    been rendered. *)
Lemma lookup_rendered (rs : list Row) i r r1 :
  rs !! i = Some r ->
  alter render_subtotal i (<[i := r1]> rs) !! i = Some (render_subtotal r1).
Proof.
  intros H. apply lookup_lt_Some in H.
  rewrite list_lookup_alter_eq, list_lookup_insert_eq by exact H. reflexivity.
Qed.

Lemma length_rendered (rs : list Row) i r1 :
  length (alter render_subtotal i (<[i := r1]> rs)) = length rs.
Proof. now rewrite length_alter, length_insert. Qed.

(** C3, as stated, fails: five units are entered for a product with
    five in stock, then a product with three in stock is picked; the
    quantity stays at five. *)
Lemma quantity_can_exceed_stock :
  exists r o,
    rows switched !! 0%nat = Some r
    /\ selectedOption r = Some o
    /\ data_stock o = 3%Z
    /\ JS.parseInt (quantity_val r) = Some 5%Z
    /\ ~ quantity_within_stock r.
Proof.
  eexists. eexists. split; [reflexivity|]. split; [reflexivity|].
  split; [reflexivity|]. split; [reflexivity|].
  intros H. specialize (H _ 5%Z eq_refl eq_refl). vm_compute in H. congruence.
Qed.

(** C3 (amended): when the entered quantity exceeds the bound of the
    row (its [max]), [handleQuantityChange] writes the bound into the
    input and notifies with it; the row is kept, so right after the
    handler a quantity that parses is at most the bound.
    [handleProductChange] sets the bound to the stock of the product it
    is given, and for a stock of exactly 0 clears and disables the
    input and notifies; for another stock it leaves the quantity as it
    was. *)
Theorem quantity_is_clamped_on_input (st : state) (i : nat) (r : Row) :
  rows st !! i = Some r ->
  (forall entered,
      let st' := handleQuantityChange i entered st in
      exists r',
        rows st' !! i = Some r'
        /\ length (rows st') = length (rows st)
        /\ quantity_max r' = quantity_max r
        /\ (forall m q, quantity_max r = Some m -> JS.parseInt entered = Some q ->
              (m < q)%Z ->
              quantity_val r' = JS.Z_text m
              /\ log st' = log st
                           ++ [Toast (JS.lit "Maximum available quantity is "
                                      ++ JS.Z_text m) info])
        /\ (exceeds (JS.parseInt entered) (quantity_max r) = false ->
              quantity_val r' = entered /\ log st' = log st)
        /\ (forall m q', quantity_max r' = Some m ->
              JS.parseInt (quantity_val r') = Some q' -> (q' <= m)%Z))
  /\ (forall k o,
         options r !! k = Some o -> value o <> [] ->
         let st' := handleProductChange i (Some k) st in
         exists r',
           rows st' !! i = Some r'
           /\ selected r' = Some k
           /\ quantity_max r' = Some (data_stock o)
           /\ (data_stock o = 0%Z ->
                 quantity_val r' = [] /\ quantity_disabled r' = true
                 /\ log st' = log st
                              ++ [Toast (JS.lit "Selected product is out of stock")
                                        error])
           /\ (data_stock o <> 0%Z ->
                 quantity_val r' = quantity_val r /\ quantity_disabled r' = false
                 /\ log st' = log st)).
Proof.
  intros Hr. split.
  - intros entered st'. subst st'. unfold handleQuantityChange. rewrite Hr.
    cbn [quantity_max quantity_val set_quantity_val].
    destruct (exceeds (JS.parseInt entered) (quantity_max r)) eqn:Ex.
    + destruct (JS.parseInt entered) as [q|] eqn:Eq; [|discriminate].
      destruct (quantity_max r) as [m|] eqn:Em; [|discriminate].
      cbn [exceeds] in Ex. apply Z.ltb_lt in Ex.
      eexists. rewrite rows_calculateRowSubtotal. cbn [rows set_rows showToast emit].
      split; [eapply lookup_rendered; exact Hr|].
      split; [apply length_rendered|].
      cbn [render_subtotal quantity_max quantity_val set_subtotal_text set_quantity_val].
      split; [exact Em|]. split; [|split].
      * intros m' q' Hm Hq _. simplify_eq. split; reflexivity.
      * discriminate.
      * intros m' q' Hm. rewrite parseInt_Z_text. intros Hq. simplify_eq. lia.
    + eexists. rewrite rows_calculateRowSubtotal. cbn [rows set_rows].
      split; [eapply lookup_rendered; exact Hr|].
      split; [apply length_rendered|].
      cbn [render_subtotal quantity_max quantity_val set_subtotal_text set_quantity_val].
      split; [reflexivity|]. split; [|split].
      * intros m q Hm Hq Hlt. rewrite Hm, Hq in Ex. cbn [exceeds] in Ex.
        apply Z.ltb_ge in Ex. lia.
      * intros _. split; reflexivity.
      * intros m q' Hm Hq. rewrite Hm, Hq in Ex. cbn [exceeds] in Ex.
        apply Z.ltb_ge in Ex. exact Ex.
  - intros k o Ho Hv st'. subst st'. unfold handleProductChange. rewrite Hr.
    unfold selectedOption_val, selectedOption.
    cbn [selected options set_selected]. rewrite Ho.
    destruct (value o) as [|c v] eqn:Ev; [congruence|]. cbn [JS.truthy].
    destruct (Z.eqb_spec (data_stock o) 0) as [E0|E0].
    + eexists. rewrite rows_calculateRowSubtotal.
      cbn [rows set_rows showToast emit].
      split; [eapply lookup_rendered; exact Hr|].
      cbn. repeat split; congruence.
    + eexists. rewrite rows_calculateRowSubtotal. cbn [rows set_rows].
      split; [eapply lookup_rendered; exact Hr|].
      cbn. repeat split; congruence.
Qed.

(** C3, on a page: nine units entered for rice, five in stock, become
    five. *)
Lemma quantity_is_clamped_on_input_witness :
  exists r',
    rows (handleQuantityChange 0 (JS.lit "9") picked) !! 0%nat = Some r'
    /\ quantity_val r' = JS.lit "5".
Proof.
  destruct (proj1 (quantity_is_clamped_on_input picked 0 _ eq_refl) (JS.lit "9"))
    as (r' & H1 & _ & _ & H4 & _).
  exists r'. split; [exact H1|].
  apply (H4 5%Z 9%Z); reflexivity.
Defined.

End ComposerQuantity.

Section NumberFacts.

Import GroceryStore ComposerSpec.

(** The number a rational denotes does not depend on how the rational
    is written. *)
Lemma of_Q_proper (q q' : Q) : (q == q')%Q -> Double.of_Q q = Double.of_Q q'.
Proof. intros E. unfold Double.of_Q. now rewrite (Qred_complete q q' E). Qed.

Lemma or_zero_number_or_0 (x : Double.t) :
  Double.or_zero x = number_or_0 (Some x).
Proof. destruct x; reflexivity. Qed.

(** A product with a zero factor is a zero or not a number. *)
Lemma mul_zero_l (y : Double.t) :
  match Double.mul Double.zero y with
  | S754_zero _ | S754_nan => True
  | _ => False
  end.
Proof. destruct y; exact I. Qed.

Lemma mul_zero_r (x : Double.t) :
  match Double.mul x Double.zero with
  | S754_zero _ | S754_nan => True
  | _ => False
  end.
Proof. destruct x; exact I. Qed.

Lemma double_eqb_eq (x y : Double.t) : Double.eqb x y = true -> x = y.
Proof.
  destruct x as [s|s| |s m e], y as [s'|s'| |s' m' e']; cbn; try discriminate.
  - intros H. apply eqb_prop in H. now subst.
  - intros H. apply eqb_prop in H. now subst.
  - reflexivity.
  - intros H. apply andb_true_iff in H as [H He]. apply andb_true_iff in H as [Hs Hm].
    apply eqb_prop in Hs. apply Pos.eqb_eq in Hm. apply Z.eqb_eq in He. now subst.
Qed.

Lemma binary_round_aux_opp (m e : Z) (l : location) :
  binary_round_aux Double.prec Double.emax true m e l
  = SFopp (binary_round_aux Double.prec Double.emax false m e l).
Proof.
  unfold binary_round_aux.
  destruct (shr_fexp Double.prec Double.emax m e l) as [mrs' e'].
  destruct (shr_fexp _ _ _ e' loc_Exact) as [mrs'' e''].
  destruct (shr_m mrs'') as [|p|p]; [reflexivity| |reflexivity].
  destruct (Z.leb e'' (Double.emax - Double.prec)); reflexivity.
Qed.

Lemma SFopp_involutive (x : Double.t) : SFopp (SFopp x) = x.
Proof. destruct x as [[|]|[|]| |[|] m e]; reflexivity. Qed.

(** The number a negated rational denotes, when the rational is not 0. *)
Lemma of_Q_opp (q : Q) :
  Qnum (Qred q) <> 0%Z -> Double.of_Q (- q) = SFopp (Double.of_Q q).
Proof.
  intros Hn. unfold Double.of_Q. cbv zeta. rewrite Qred_opp.
  destruct (Qred q) as [[|n|n] d]; [contradiction| |]; cbn [Qopp Qnum Qden].
  - change (- Z.pos n)%Z with (Z.neg n). cbv iota beta. unfold SFdiv.
    destruct (SFdiv_core_binary Double.prec Double.emax (Z.pos n) 0 (Z.pos d) 0)
      as [[mz ez] lz].
    cbn [xorb]. apply binary_round_aux_opp.
  - change (- Z.neg n)%Z with (Z.pos n). cbv iota beta. unfold SFdiv.
    destruct (SFdiv_core_binary Double.prec Double.emax (Z.pos n) 0 (Z.pos d) 0)
      as [[mz ez] lz].
    cbn [xorb]. rewrite binary_round_aux_opp. now rewrite SFopp_involutive.
Qed.

Lemma shortest_from_cases fuel x v n k :
  Double.of_Q (Double.shortest_from fuel x v n k) = x
  \/ Double.shortest_from fuel x v n k = v.
Proof.
  revert k. induction fuel as [|fuel IH]; intros k; [now right|].
  cbn [Double.shortest_from].
  destruct (Double.around v n k) as [a b].
  destruct (Double.eqb (Double.of_Q a) x) eqn:Ea;
    [left; now apply double_eqb_eq|].
  destruct (Double.eqb (Double.of_Q b) x) eqn:Eb;
    [left; now apply double_eqb_eq|].
  apply IH.
Qed.

(** The decimal of a finite number denotes the number, or is its value. *)
Lemma decimal_denotes (s : bool) (m : positive) (e : Z) :
  written_as (S754_finite s m e) (Double.decimal (S754_finite s m e)).
Proof.
  unfold written_as, Double.decimal, exact_value.
  change (inject_Z (Z.pos m) * Qpower (2 # 1) e)%Q
    with (Double.magnitude (S754_finite s m e)).
  set (v := Qred (Double.magnitude (S754_finite s m e))).
  destruct (shortest_from_cases 17 (S754_finite false m e) v (Double.order v) 1)
    as [Hd | Hd].
  - left. set (d := Double.shortest_from _ _ _ _ _) in *.
    rewrite (of_Q_proper _ _ (Qred_correct _)).
    destruct s; [|exact Hd].
    rewrite of_Q_opp, Hd; [reflexivity|].
    intros Hz. unfold Double.of_Q in Hd. cbv zeta in Hd. rewrite Hz in Hd.
    discriminate.
  - right. rewrite Hd, Qred_correct. subst v.
    destruct s; now rewrite Qred_correct.
Qed.

(** Known values of binary64: 0.1 and 1/3 as they are stored, the tie
    at 2^53 + 1 resolved to the even mantissa, the overflow at the tie
    below 2^1024, the underflow at the tie below the least number, and
    the digits of 0.1 + 0.2 and of 1.005 * 3. *)
Lemma binary64_examples :
  Double.of_Q (1 # 10) = S754_finite false 7205759403792794 (-56)
  /\ Double.of_Q (1 # 3) = S754_finite false 6004799503160661 (-54)
  /\ Double.of_Z 9007199254740993 = S754_finite false 4503599627370496 1
  /\ Double.of_Z (2 ^ 1024 - 2 ^ 970) = S754_infinity false
  /\ Double.of_Z (2 ^ 1024 - 2 ^ 970 - 1) = S754_finite false 9007199254740991 971
  /\ Double.of_Q (1 # 2 ^ 1075) = S754_zero false
  /\ Double.of_Q (-3 # 2 ^ 1075) = S754_finite true 2 (-1074)
  /\ (Double.decimal (Double.add (Double.of_Q (1 # 10)) (Double.of_Q (2 # 10)))
      == 30000000000000004 # 100000000000000000)%Q
  /\ (Double.decimal (Double.mul (Double.of_Q (1005 # 1000)) (Double.of_Z 3))
      == 30149999999999997 # 10000000000000000)%Q
  /\ (Double.decimal (Double.of_Q (1005 # 1000)) == 1005 # 1000)%Q.
Proof. repeat (split; [vm_compute; reflexivity|]). vm_compute. reflexivity. Qed.

(** The loop of [updateOrderTotal] computes the sum. *)
Lemma fold_left_add_sum (f : Row -> Double.t) rs a :
  fold_left (fun t r => Double.add t (f r)) rs a
  = fold_left (SFadd 53 1024) (List.map f rs) a.
Proof.
  revert a. induction rs as [|r rs IH]; intros a; [reflexivity|].
  cbn [fold_left List.map]. apply IH.
Qed.

End NumberFacts.

Section ComposerTotal.

Import GroceryStore ComposerSpec.

Lemma total_current_updateOrderTotal st : total_current (updateOrderTotal st).
Proof. reflexivity. Qed.

Lemma rendered_render_subtotal r : rendered (render_subtotal r).
Proof. reflexivity. Qed.

Lemma rendered_new_row k os : rendered (new_row k os).
Proof. reflexivity. Qed.

Lemma Forall_rendered_write rs i r1 :
  Forall rendered rs ->
  Forall rendered (alter render_subtotal i (<[i := r1]> rs)).
Proof.
  intros H. apply Forall_lookup_2. intros j x Hj.
  destruct (decide (i = j)) as [<-|Hne].
  - rewrite list_lookup_alter_eq in Hj.
    destruct (<[i := r1]> rs !! i); simpl in Hj; [|discriminate].
    injection Hj as <-. apply rendered_render_subtotal.
  - rewrite list_lookup_alter_ne, list_lookup_insert_ne in Hj by exact Hne.
    eapply Forall_lookup_1; eauto.
Qed.

Lemma consistent_addProductRow st : consistent st -> consistent (addProductRow st).
Proof.
  intros [Ht Hr]. unfold addProductRow.
  destruct (allProducts st); [split; assumption|].
  split; [apply total_current_updateOrderTotal|].
  cbn [rows updateOrderTotal set_orderTotal set_rows].
  apply Forall_app. split; [exact Hr|].
  constructor; [apply rendered_new_row | constructor].
Qed.

Lemma consistent_removeProductRow i st :
  consistent st -> consistent (removeProductRow i st).
Proof.
  intros [Ht Hr]. unfold removeProductRow. cbv zeta.
  assert (consistent (updateOrderTotal (set_rows (delete i (rows st)) st))) as Hc.
  { split; [apply total_current_updateOrderTotal|]. now apply Forall_delete. }
  destruct (length _ =? 0)%nat; [now apply consistent_addProductRow | exact Hc].
Qed.

Lemma consistent_calculateRowSubtotal i r1 st st1 :
  Forall rendered (rows st) ->
  rows st1 = <[i := r1]> (rows st) ->
  consistent (calculateRowSubtotal i st1).
Proof.
  intros Hr E. split; [apply total_current_updateOrderTotal|].
  rewrite rows_calculateRowSubtotal, E. now apply Forall_rendered_write.
Qed.

Lemma consistent_handleProductChange i choice st :
  consistent st -> consistent (handleProductChange i choice st).
Proof.
  intros Hc. pose proof Hc as [Ht Hr]. unfold handleProductChange.
  destruct (rows st !! i) as [r|]; [|exact Hc].
  repeat match goal with
         | |- context [if ?b then _ else _] => destruct b
         end;
    eapply consistent_calculateRowSubtotal; try exact Hr; reflexivity.
Qed.

Lemma consistent_handleQuantityChange i entered st :
  consistent st -> consistent (handleQuantityChange i entered st).
Proof.
  intros Hc. pose proof Hc as [Ht Hr]. unfold handleQuantityChange.
  destruct (rows st !! i) as [r|]; [|exact Hc].
  destruct (exceeds _ _);
    eapply consistent_calculateRowSubtotal; try exact Hr; reflexivity.
Qed.

Lemma consistent_step st op : consistent st -> consistent (step st op).
Proof.
  destruct op; simpl.
  - apply consistent_addProductRow.
  - apply consistent_removeProductRow.
  - apply consistent_handleProductChange.
  - apply consistent_handleQuantityChange.
Qed.

Lemma consistent_run ops st : consistent st -> consistent (run ops st).
Proof.
  unfold run. revert st. induction ops as [|op ops IH]; intros st H; simpl.
  - exact H.
  - apply IH, consistent_step, H.
Qed.

Lemma consistent_loaded ps : consistent (loaded ps).
Proof. split; [reflexivity | constructor]. Qed.

End ComposerTotal.

Section SubtotalText.

Import GroceryStore ComposerSpec.

Lemma kept_digit c : JS.is_digit c = true -> kept c = true.
Proof.
  rewrite is_digit_spec. intros H. unfold kept.
  destruct (N.eqb_spec c 8377); [lia|]. destruct (N.eqb_spec c 44); [lia|].
  reflexivity.
Qed.

Lemma filter_kept_digits ds :
  forallb JS.is_digit ds = true -> List.filter kept ds = ds.
Proof.
  induction ds as [|d ds IH]; simpl; [reflexivity|].
  rewrite andb_true_iff. intros [Hd Hds]. now rewrite (kept_digit _ Hd), IH.
Qed.

Lemma filter_kept_group_pairs n t :
  (length t <= n)%nat -> forallb JS.is_digit t = true ->
  List.filter kept (JS.group_pairs t) = t.
Proof.
  revert t. induction n as [|n IH]; intros t Hlen Hd.
  - destruct t; [reflexivity | simpl in Hlen; lia].
  - destruct t as [|a [|b [|c t]]]; try (now apply filter_kept_digits).
    cbn [forallb] in Hd. apply andb_true_iff in Hd as [Ha Hd].
    apply andb_true_iff in Hd as [Hb Hd].
    change (JS.group_pairs (a :: b :: c :: t))
      with (a :: b :: 44%N :: JS.group_pairs (c :: t)).
    cbn [List.filter].
    rewrite (kept_digit _ Ha), (kept_digit _ Hb).
    change (kept 44) with false. cbv iota.
    rewrite IH; [reflexivity | simpl in *; lia | exact Hd].
Qed.

Lemma filter_rev' {A} (p : A -> bool) l :
  List.filter p (rev l) = rev (List.filter p l).
Proof.
  induction l as [|a l IH]; simpl; [reflexivity|].
  rewrite List.filter_app, IH. simpl. destruct (p a); simpl;
    [reflexivity | now rewrite app_nil_r].
Qed.

Lemma forallb_rev {A} (p : A -> bool) l : forallb p (rev l) = forallb p l.
Proof.
  induction l as [|a l IH]; simpl; [reflexivity|].
  rewrite forallb_app, IH. simpl. rewrite andb_true_r. apply andb_comm.
Qed.

(** Removing the separators of the [en-IN] grouping gives the digits
    back. *)
Lemma filter_kept_group ds :
  forallb JS.is_digit ds = true -> List.filter kept (JS.group_en_IN ds) = ds.
Proof.
  intros Hd. unfold JS.group_en_IN. rewrite filter_rev'.
  rewrite <- (rev_involutive ds) at 2. f_equal.
  rewrite <- forallb_rev in Hd.
  destruct (rev ds) as [|a [|b [|c [|d t]]]]; try (now apply filter_kept_digits).
  cbn [forallb] in Hd.
  apply andb_true_iff in Hd as [Ha Hd]. apply andb_true_iff in Hd as [Hb Hd].
  apply andb_true_iff in Hd as [Hc Hd].
  cbn [List.filter]. rewrite (kept_digit _ Ha), (kept_digit _ Hb), (kept_digit _ Hc).
  change (kept 44) with false. cbv iota.
  now rewrite (filter_kept_group_pairs (length (d :: t))).
Qed.

Lemma two_digits_digits k :
  (k < 100)%N -> forallb JS.is_digit (JS.two_digits k) = true.
Proof.
  intros Hk. unfold JS.two_digits. cbn [forallb].
  rewrite !andb_true_iff. repeat split; apply is_digit_spec.
  - assert (k / 10 < 10)%N as H by (apply N.Div0.div_lt_upper_bound; lia).
    revert H. generalize (k / 10)%N. lia.
  - assert (k mod 10 < 10)%N as H by (apply N.mod_lt; lia).
    revert H. generalize (k mod 10)%N. lia.
Qed.

Lemma digit_value_48 x : (x <= 9)%N -> JS.digit_value (48 + x) = x.
Proof.
  intros H. unfold JS.digit_value.
  assert (JS.is_digit (48 + x) = true) as -> by (apply is_digit_spec; lia). lia.
Qed.

Lemma digits_value_app ds es :
  JS.digits_value 10 (ds ++ es)
  = fold_left (JS.digit_step 10) es (JS.digits_value 10 ds).
Proof. unfold JS.digits_value. apply fold_left_app. Qed.

(** The digits of the rendered amount read back as the number of
    hundredths. *)
Lemma digits_value_amount h :
  JS.digits_value 10 (JS.N_text (h / 100) ++ JS.two_digits (h mod 100)) = h.
Proof.
  rewrite digits_value_app, digits_value_N_text. unfold JS.two_digits.
  cbn [fold_left]. unfold JS.digit_step.
  assert (h mod 100 < 100)%N by (apply N.mod_lt; lia).
  assert (h mod 100 / 10 < 10)%N by (apply N.Div0.div_lt_upper_bound; lia).
  assert (h mod 100 mod 10 < 10)%N by (apply N.mod_lt; lia).
  rewrite !digit_value_48 by (apply N.lt_succ_r; assumption).
  pose proof (N.div_mod h 100 ltac:(discriminate)) as E1.
  pose proof (N.div_mod (h mod 100) 10 ltac:(discriminate)) as E2.
  revert E1 E2.
  generalize (h mod 100 / 10)%N (h mod 100 mod 10)%N.
  generalize (h mod 100)%N (h / 100)%N. lia.
Qed.

Lemma drop_while_head p c s : p c = false -> JS.drop_while p (c :: s) = c :: s.
Proof. intros H. simpl. now rewrite H. Qed.

Lemma starts_with_Infinity_digit c s :
  JS.is_digit c = true -> JS.starts_with (JS.lit "Infinity") (c :: s) = false.
Proof.
  rewrite is_digit_spec. intros H.
  change (JS.lit "Infinity") with (73%N :: JS.lit "nfinity").
  cbn [JS.starts_with].
  destruct (N.eqb_spec 73 c); [lia | reflexivity].
Qed.

(** [parseFloat] on digits, a point and two digits, with or without a
    minus sign. *)
Lemma parseFloat_amount (negative : bool) ds fs :
  ds <> [] -> forallb JS.is_digit ds = true -> forallb JS.is_digit fs = true ->
  JS.parseFloat ((if negative then [45%N] else []) ++ ds ++ 46%N :: fs)
  = let v := (inject_Z (Z.of_N (JS.digits_value 10 (ds ++ fs)))
              * Qpower (10 # 1) (0 - Z.of_nat (length fs)))%Q in
    JS.Fin (if negative then - v else v)%Q.
Proof.
  intros Hne Hds Hfs.
  assert (exists d ds', ds = d :: ds' /\ JS.is_digit d = true) as (d & ds' & -> & Hd).
  { destruct ds as [|d ds']; [congruence|]. exists d, ds'. split; [reflexivity|].
    cbn [forallb] in Hds. now apply andb_true_iff in Hds. }
  assert (JS.split_sign (JS.drop_while JS.is_space
            ((if negative then [45%N] else []) ++ (d :: ds') ++ 46%N :: fs))
          = (negative, (d :: ds') ++ 46%N :: fs)) as Hsign.
  { destruct negative; cbn [app].
    - rewrite drop_while_head by reflexivity. reflexivity.
    - rewrite drop_while_head by (now apply digit_not_space).
      now apply split_sign_digit. }
  unfold JS.parseFloat. rewrite Hsign.
  change ((d :: ds') ++ 46%N :: fs) with (d :: (ds' ++ 46%N :: fs)) at 1.
  rewrite starts_with_Infinity_digit by exact Hd.
  rewrite take_while_app, drop_while_app by (exact Hds || reflexivity).
  change (46 =? 46)%N with true. cbv iota.
  rewrite take_while_all, drop_while_all by exact Hfs.
  cbn [JS.exponent_part]. cbn [app]. reflexivity.
Qed.

End SubtotalText.

Section SubtotalRoundTrip.

Import GroceryStore ComposerSpec.

Lemma Qfloor_nonneg (x : Q) : (0 <= x)%Q -> (0 <= Qfloor x)%Z.
Proof. intros H. change 0%Z with (Qfloor 0). now apply Qfloor_resp_le. Qed.

(** The rounded amount has the sign the text shows. *)
Lemma round_half_expand_sign q :
  Z.of_N (Z.abs_N (JS.round_half_expand (q * (100 # 1))))
  = if Qle_bool 0 q
    then JS.round_half_expand (q * (100 # 1))
    else (- JS.round_half_expand (q * (100 # 1)))%Z.
Proof.
  rewrite N2Z.inj_abs_N. unfold JS.round_half_expand.
  destruct (Qle_bool 0 q) eqn:E.
  - apply Qle_bool_iff in E.
    assert (Qle_bool 0 (q * (100 # 1)) = true) as ->
        by (apply Qle_bool_iff; lra).
    apply Z.abs_eq, Qfloor_nonneg. lra.
  - assert (~ (0 <= q)%Q) as Hq by (rewrite <- Qle_bool_iff; congruence).
    assert (Qle_bool 0 (q * (100 # 1)) = false) as ->.
    { destruct (Qle_bool 0 (q * (100 # 1))) eqn:E'; [|reflexivity].
      apply Qle_bool_iff in E'. exfalso. apply Hq. lra. }
    rewrite Z.abs_neq, Z.opp_involutive; [reflexivity|].
    apply Z.opp_nonpos_nonneg, Qfloor_nonneg. lra.
Qed.

(** The text of a decimal amount, without the rupee sign and the
    separators, parses to the amount rounded to the paisa. *)
Lemma parseFloat_formatCurrency q :
  exists q',
    JS.parseFloat (List.filter kept (JS.formatCurrency q)) = JS.Fin q'
    /\ (q' == to_paisa q)%Q.
Proof.
  unfold JS.formatCurrency.
  set (h := Z.abs_N (JS.round_half_expand (q * (100 # 1)))).
  assert (h mod 100 < 100)%N as Hk by (apply N.mod_lt; discriminate).
  rewrite List.filter_app. cbn [List.filter].
  change (kept 8377) with false. cbv iota.
  rewrite List.filter_app, filter_kept_group by apply N_text_digits.
  cbn [List.filter]. change (kept 46) with true. cbv iota.
  rewrite (filter_kept_digits (JS.two_digits (h mod 100)))
    by now apply two_digits_digits.
  replace (List.filter kept (if Qle_bool 0 q then [] else [45%N]))
    with (if negb (Qle_bool 0 q) then [45%N] else [])
    by (destruct (Qle_bool 0 q); reflexivity).
  rewrite parseFloat_amount;
    [| apply N_text_nonempty | apply N_text_digits | now apply two_digits_digits].
  cbv zeta. eexists. split; [reflexivity|].
  rewrite digits_value_amount. subst h. rewrite round_half_expand_sign.
  unfold to_paisa. cbn [JS.two_digits length].
  change (Qpower (10 # 1) (0 - Z.of_nat 2)) with (/ ((10 # 1) * (10 # 1)))%Q.
  destruct (Qle_bool 0 q); cbn [negb].
  - field.
  - rewrite inject_Z_opp. field.
Qed.

(** Reading the text of a decimal amount gives the number nearest to
    the amount rounded to the paisa. *)
Lemma read_subtotal_formatCurrency q :
  read_subtotal (JS.formatCurrency q)
  = number_or_0 (Some (Double.of_Q (to_paisa q))).
Proof.
  unfold read_subtotal.
  destruct (parseFloat_formatCurrency q) as (q' & -> & E).
  cbn [Double.of_number]. rewrite (of_Q_proper _ _ E).
  apply or_zero_number_or_0.
Qed.

(** [round_half_expand] gives a nearest integer, and at a tie the one
    away from zero. *)
Lemma round_half_expand_near (x : Q) :
  (Qabs (inject_Z (JS.round_half_expand x) - x) <= 1 # 2)%Q
  /\ ((Qabs (inject_Z (JS.round_half_expand x) - x) == 1 # 2)%Q ->
      (Qabs x < Qabs (inject_Z (JS.round_half_expand x)))%Q).
Proof.
  unfold JS.round_half_expand.
  destruct (Qle_bool 0 x) eqn:E.
  - apply Qle_bool_iff in E.
    pose proof (Qfloor_le (x + (1 # 2))) as Hlo.
    pose proof (Qlt_floor (x + (1 # 2))) as Hhi.
    rewrite inject_Z_plus in Hhi. change (inject_Z 1) with 1%Q in Hhi.
    set (z := inject_Z (Qfloor (x + (1 # 2)))) in *.
    split.
    + apply Qabs_Qle_condition. split; lra.
    + intros Htie. rewrite (Qabs_pos x E).
      destruct (Qlt_le_dec (z - x) 0) as [Hneg | Hpos].
      * rewrite (Qabs_neg _ (Qlt_le_weak _ _ Hneg)) in Htie. lra.
      * rewrite (Qabs_pos _ Hpos) in Htie. rewrite Qabs_pos by lra. lra.
  - assert (x < 0)%Q as Hx.
    { apply Qnot_le_lt. rewrite <- Qle_bool_iff. congruence. }
    pose proof (Qfloor_le (- x + (1 # 2))) as Hlo.
    pose proof (Qlt_floor (- x + (1 # 2))) as Hhi.
    rewrite inject_Z_plus in Hhi. change (inject_Z 1) with 1%Q in Hhi.
    rewrite inject_Z_opp.
    set (w := inject_Z (Qfloor (- x + (1 # 2)))) in *.
    split.
    + apply Qabs_Qle_condition. split; lra.
    + intros Htie. rewrite (Qabs_neg x (Qlt_le_weak _ _ Hx)).
      destruct (Qlt_le_dec (- w - x) 0) as [Hneg | Hpos].
      * rewrite (Qabs_neg _ (Qlt_le_weak _ _ Hneg)) in Htie.
        rewrite Qabs_neg by lra. lra.
      * rewrite (Qabs_pos _ Hpos) in Htie. lra.
Qed.

Lemma Qabs_div_100 (x : Q) : (Qabs (x / (100 # 1)) == Qabs x * (1 # 100))%Q.
Proof.
  unfold Qdiv. rewrite Qabs_Qmult. reflexivity.
Qed.

(** [to_paisa] rounds to the nearest paisa, a tie away from zero. *)
Lemma to_paisa_rounds (q : Q) : rounds_to_paisa q (to_paisa q).
Proof.
  unfold rounds_to_paisa, to_paisa.
  destruct (round_half_expand_near (q * (100 # 1))) as [Hnear Htie].
  set (z := JS.round_half_expand (q * (100 # 1))) in *.
  assert (inject_Z z / (100 # 1) - q == (inject_Z z - q * (100 # 1)) / (100 # 1))%Q
    as Ed by field.
  assert (q == q * (100 # 1) / (100 # 1))%Q as Eq by field.
  split; [|split].
  - exists z. rewrite (Qmake_Qdiv z 100). reflexivity.
  - rewrite Ed, Qabs_div_100. lra.
  - rewrite Ed, Qabs_div_100. intros H.
    rewrite Eq at 1. rewrite !Qabs_div_100.
    assert (Qabs (q * (100 # 1)) < Qabs (inject_Z z))%Q by (apply Htie; lra).
    lra.
Qed.

End SubtotalRoundTrip.

Section ComposerTotalClaim.

Import GroceryStore ComposerSpec.

(** The price and the quantity the code multiplies are the ones of the
    specification. *)
Lemma row_price_unit_price r : row_price r = unit_price r.
Proof.
  unfold row_price, unit_price. rewrite shown_option_selectedOption.
  destruct (selectedOption r) as [o|]; [|reflexivity].
  apply or_zero_number_or_0.
Qed.

Lemma row_quantity_entered r : row_quantity r = entered_quantity r.
Proof.
  unfold row_quantity, entered_quantity.
  destruct (JS.parseInt (quantity_val r)) as [z|]; [|reflexivity].
  apply or_zero_number_or_0.
Qed.

Lemma rendered_amount r : rendered r -> subtotal_text r = formatCurrency (amount r).
Proof.
  unfold rendered, amount. now rewrite row_price_unit_price, row_quantity_entered.
Qed.

(** What the text of an amount reads as. *)
Lemma read_subtotal_amount (x : Double.t) : shows x (read_subtotal (formatCurrency x)).
Proof.
  destruct x as [[|]|[|]| |s m e];
    [vm_compute; reflexivity | vm_compute; reflexivity | vm_compute; reflexivity
    |vm_compute; reflexivity | vm_compute; reflexivity |].
  cbn [shows formatCurrency].
  exists (Double.decimal (S754_finite s m e)),
         (to_paisa (Double.decimal (S754_finite s m e))).
  split; [apply decimal_denotes|].
  split; [apply to_paisa_rounds | apply read_subtotal_formatCurrency].
Qed.

Lemma shows_not_finite x d :
  match x with S754_zero _ | S754_nan => True | _ => False end ->
  shows x d -> d = S754_zero false.
Proof. destruct x; cbn; tauto. Qed.

Lemma displayed_rendered r :
  rendered r ->
  subtotal_text r = formatCurrency (amount r)
  /\ shows (amount r) (displayed_subtotal r)
  /\ (shown_option r = None \/ JS.parseInt (quantity_val r) = None ->
        displayed_subtotal r = S754_zero false).
Proof.
  intros H. apply rendered_amount in H. split; [exact H|].
  assert (shows (amount r) (displayed_subtotal r)) as Hs.
  { unfold displayed_subtotal. rewrite H. apply read_subtotal_amount. }
  split; [exact Hs|].
  intros Hz. apply (shows_not_finite (amount r)); [|exact Hs].
  unfold amount, unit_price, entered_quantity.
  destruct Hz as [-> | ->]; cbn [option_map number_or_0].
  - apply mul_zero_l.
  - apply mul_zero_r.
Qed.

(** C2, as stated, fails: one gram of tea at half a paisa has the amount
    0.005, and the row displays, and the total counts, one paisa. *)
Lemma subtotal_is_rounded_to_the_paisa :
  let st := run [AddRow; ChangeProduct 0 (Some 0%nat); ChangeQuantity 0 (JS.lit "1")]
                (loaded [tea]) in
  exists r,
    rows st = [r]
    /\ unit_price r = Double.of_Q (1 # 200)
    /\ entered_quantity r = Double.of_Q 1
    /\ amount r = Double.of_Q (1 # 200)
    /\ subtotal_text r = 8377%N :: JS.lit "0.01"
    /\ displayed_subtotal r = Double.of_Q (1 # 100)
    /\ displayed_subtotal r <> amount r
    /\ orderTotal st = Double.of_Q (1 # 100).
Proof.
  eexists. repeat (split; [vm_compute; reflexivity|]).
  split; [vm_compute; discriminate | vm_compute; reflexivity].
Qed.

(** The amount and the total are binary64 numbers: three grams at 1.005
    come to 3.0149999999999997 and are displayed as 3.01, and the total of
    0.10 and 0.20 is 0.30000000000000004. *)
Lemma subtotal_and_total_are_binary64 :
  let spice := run [AddRow; ChangeProduct 0 (Some 0%nat); ChangeQuantity 0 (JS.lit "3")]
                   (loaded [saffron]) in
  let herbs := run [AddRow; ChangeProduct 0 (Some 0%nat); ChangeQuantity 0 (JS.lit "1");
                    AddRow; ChangeProduct 1 (Some 1%nat); ChangeQuantity 1 (JS.lit "1")]
                   (loaded [mint; lime]) in
  (exists r,
      rows spice = [r]
      /\ (Double.decimal (amount r) == 30149999999999997 # 10000000000000000)%Q
      /\ subtotal_text r = 8377%N :: JS.lit "3.01")
  /\ List.map subtotal_text (rows herbs)
     = [8377%N :: JS.lit "0.10"; 8377%N :: JS.lit "0.20"]
  /\ (Double.decimal (orderTotal herbs) == 30000000000000004 # 100000000000000000)%Q.
Proof.
  split; [|split].
  - eexists. repeat (split; [vm_compute; reflexivity|]). vm_compute. reflexivity.
  - vm_compute. reflexivity.
  - vm_compute. reflexivity.
Qed.

(** A refresh of the product list leaves texts and total as they are. *)
Lemma total_current_fetchProducts r st :
  total_current st -> total_current (fetchProducts r st).
Proof.
  unfold total_current. intros H.
  destruct r as [ps|e|m]; cbn; [|exact H|exact H].
  rewrite H. clear H. generalize Double.zero.
  induction (rows st) as [|x rs IH]; intros a; [reflexivity|]. cbn.
  rewrite IH. destruct (JS.truthy (select_val x)); reflexivity.
Qed.

(** C2 (amended): after every sequence of add, remove and edit operations
    on the rows, [orderTotal] is the sum, added up in binary64 in the
    order of the rows, of the subtotals the rows display; the text of
    each row is the rendering of unit price times quantity, so that the
    displayed subtotal is that product, written as a decimal and rounded
    to the paisa (0 for a product that is zero, infinite or not a
    number), and not the product itself; it is 0 when no product is
    selected or the quantity does not parse.  The total is computed from
    the rows alone: [updateOrderTotal] gives the sum whatever total was
    stored before. *)
Theorem orderTotal_is_sum_of_subtotals (ps : list Product.t) (ops : list Op) :
  let st := run ops (loaded ps) in
  orderTotal st = sum (List.map displayed_subtotal (rows st))
  /\ Forall (fun r =>
               subtotal_text r = formatCurrency (amount r)
               /\ shows (amount r) (displayed_subtotal r)
               /\ (shown_option r = None \/ JS.parseInt (quantity_val r) = None ->
                     displayed_subtotal r = S754_zero false))
            (rows st)
  /\ (forall any : state,
        orderTotal (updateOrderTotal any)
        = sum (List.map displayed_subtotal (rows any))).
Proof.
  intros st.
  destruct (consistent_run ops (loaded ps) (consistent_loaded ps)) as [Ht Hr].
  fold st in Ht, Hr. split; [|split].
  - rewrite Ht. apply fold_left_add_sum.
  - eapply Forall_impl; [exact Hr|]. intros r H. now apply displayed_rendered.
  - intros any. cbn [orderTotal updateOrderTotal set_orderTotal].
    apply fold_left_add_sum.
Qed.

End ComposerTotalClaim.


(** * Markup *)

Section Markup.

Import MarkupSpec.

Lemma escape_unit_plain c :
  In 60%N (JS.escape_unit c) \/ In 62%N (JS.escape_unit c) -> False.
Proof.
  unfold JS.escape_unit.
  destruct (N.eqb_spec c 38); [vm_compute; intuition discriminate|].
  destruct (N.eqb_spec c 60); [vm_compute; intuition discriminate|].
  destruct (N.eqb_spec c 62); [vm_compute; intuition discriminate|].
  destruct (N.eqb_spec c 160); [vm_compute; intuition discriminate|].
  simpl. intros [[H|[]]|[H|[]]]; congruence.
Qed.

(** Escaped text holds neither [<] nor [>]. *)
Lemma escapeHtml_no_angle text :
  ~ In 60%N (JS.escapeHtml text) /\ ~ In 62%N (JS.escapeHtml text).
Proof.
  unfold JS.escapeHtml. split; intros H; apply in_flat_map in H as (c & _ & H);
    apply (escape_unit_plain c); auto.
Qed.

(** C8, on the code: the name is escaped where it is shown, but the unit
    goes into the table cell, the [data-unit] attribute and the option
    label as it is, and the name into the [value] attribute as it is. *)
Lemma unit_and_value_are_interpolated_raw :
  JS.escapeHtml (Product.name marked) = JS.lit "Salt &amp; Pepper"
  /\ JS.escapeHtml (Product.unit marked) = JS.lit "&lt;b&gt;kg&lt;/b&gt;"
  /\ JS.includes (JS.html "<strong>Salt &amp; Pepper</strong>")
                 (ProductManager.row_markup marked) = true
  /\ JS.includes (JS.html "<span class='label label-default'><b>kg</b></span>")
                 (ProductManager.row_markup marked) = true
  /\ JS.includes (JS.html "<option value='Salt & Pepper'")
                 (GroceryStore.option_markup marked) = true
  /\ JS.includes (JS.html "data-unit='<b>kg</b>'")
                 (GroceryStore.option_markup marked) = true
  /\ JS.includes (JS.html "Salt &amp; Pepper - ")
                 (GroceryStore.option_markup marked) = true
  /\ JS.includes (JS.html "/<b>kg</b> (Stock: 12)")
                 (GroceryStore.option_markup marked) = true
  /\ JS.includes (JS.html "<td>A &lt;i&gt;B&lt;/i&gt;</td>")
                 (GroceryStore.displayOrders (fun d => d) [marked_order]) = true
  /\ JS.includes (JS.html "<td><small>Salt &amp; Pepper x 2</small></td>")
                 (GroceryStore.displayOrders (fun d => d) [marked_order]) = true.
Proof. repeat split; vm_compute; reflexivity. Qed.

End Markup.

(** * Further properties of the product page and the order composer *)

Section CatalogFormProps.

Import ProductManager CatalogSpec CatalogProps.

(** [validateForm] keeps the page but for the inline errors, which it
    replaces by those of the form values. *)
Lemma validateForm_state st :
  snd (validateForm st) = set_dom (set_field_errors (form_errors (dom st)) (dom st)) st.
Proof.
  unfold validateForm, form_errors, name_error.
  cbn [dom set_dom name_val set_field_errors].
  destruct (negb (JS.truthy (JS.trim (name_val (dom st))))
            || (length (JS.trim (name_val (dom st))) <? 2)%nat);
    [|destruct (negb (JS.test name_regex (JS.trim (name_val (dom st)))))];
    cbn;
    destruct (negb (option_truthy (uoms_val (dom st)))); cbn;
    destruct (negb (JS.number_truthy (JS.parseFloat (price_val (dom st))))
              || JS.number_le_0 (JS.parseFloat (price_val (dom st)))); cbn;
    destruct (isNaN (JS.parseInt (stock_val (dom st)))
              || lt_0 (JS.parseInt (stock_val (dom st)))); reflexivity.
Qed.

Lemma validateForm_flag st :
  fst (validateForm st) = true <-> form_errors (dom st) = [].
Proof.
  unfold validateForm, form_errors, name_error.
  cbn [dom set_dom name_val set_field_errors].
  destruct (negb (JS.truthy (JS.trim (name_val (dom st))))
            || (length (JS.trim (name_val (dom st))) <? 2)%nat);
    [|destruct (negb (JS.test name_regex (JS.trim (name_val (dom st)))))];
    cbn;
    destruct (negb (option_truthy (uoms_val (dom st)))); cbn;
    destruct (negb (JS.number_truthy (JS.parseFloat (price_val (dom st))))
              || JS.number_le_0 (JS.parseFloat (price_val (dom st)))); cbn;
    destruct (isNaN (JS.parseInt (stock_val (dom st)))
              || lt_0 (JS.parseInt (stock_val (dom st)))); cbn;
    split; congruence.
Qed.

Lemma form_errors_same d d' : same_form d d' -> form_errors d' = form_errors d.
Proof. intros (H1 & H2 & H3 & H4). unfold form_errors. now rewrite H1, H2, H3, H4. Qed.

Lemma form_errors_NoDup d : NoDup (List.map fst (form_errors d)).
Proof.
  unfold form_errors, name_error.
  repeat match goal with |- context [if ?b then _ else _] => destruct b end;
    cbn [app List.map fst];
    repeat (apply NoDup_cons; split; [rewrite ?elem_of_cons, ?elem_of_nil; intuition discriminate|]);
    apply NoDup_nil_2.
Qed.

Lemma validateForm_same st st' :
  same_form (dom st) (dom st') -> fst (validateForm st') = fst (validateForm st).
Proof.
  intros H. apply form_errors_same in H.
  destruct (fst (validateForm st)) eqn:E.
  - apply validateForm_flag. rewrite H. now apply validateForm_flag.
  - destruct (fst (validateForm st')) eqn:E'; [|reflexivity].
    apply validateForm_flag in E'. rewrite H in E'. apply validateForm_flag in E'.
    congruence.
Qed.

(** X1: [validateForm] changes nothing but the inline errors.  It
    returns true exactly when it leaves no inline error, it leaves at
    most one error for a field, it keeps the form values, a second run
    gives the same result, and its errors depend on the form values
    only, not on errors shown before. *)
Theorem validateForm_inline_errors (st : state) :
  let st' := snd (validateForm st) in
  (fst (validateForm st) = true <-> field_errors (dom st') = [])
  /\ NoDup (List.map fst (field_errors (dom st')))
  /\ same_form (dom st) (dom st')
  /\ validateForm st' = validateForm st
  /\ (forall other : state,
        same_form (dom st) (dom other) ->
        field_errors (dom (snd (validateForm other))) = field_errors (dom st')).
Proof.
  intros st'. subst st'. rewrite validateForm_state.
  cbn [dom set_dom field_errors set_field_errors].
  split; [apply validateForm_flag|]. split; [apply form_errors_NoDup|].
  split; [now repeat split|]. split.
  - apply injective_projections.
    + apply validateForm_same. now repeat split.
    + rewrite !validateForm_state. cbn. reflexivity.
  - intros other H. rewrite validateForm_state. cbn.
    now apply form_errors_same.
Qed.

End CatalogFormProps.

Section CatalogSaveProps.

Import ProductManager CatalogSpec CatalogProps.

Lemma displayProducts_frame st :
  products (displayProducts st) = products st
  /\ log (displayProducts st) = log st
  /\ currentProduct (displayProducts st) = currentProduct st
  /\ isEditMode (displayProducts st) = isEditMode st
  /\ productToDelete (displayProducts st) = productToDelete st
  /\ same_form (dom st) (dom (displayProducts st))
  /\ field_errors (dom (displayProducts st)) = field_errors (dom st)
  /\ productModal_shown (dom (displayProducts st)) = productModal_shown (dom st)
  /\ confirmModal_shown (dom (displayProducts st)) = confirmModal_shown (dom st)
  /\ saveProduct_disabled (dom (displayProducts st)) = saveProduct_disabled (dom st).
Proof. unfold displayProducts. destruct (products st) eqn:E; cbn; rewrite ?E; repeat split. Qed.

Lemma fetchProducts_log_exact r st :
  log (fetchProducts r st)
  = log st ++ Request GET manage_products_url NoBody :: list_toast r.
Proof.
  unfold fetchProducts, fetchProducts_resume. cbn [showTableLoading].
  destruct r as [ps|e|m];
    rewrite (proj1 (proj2 (displayProducts_frame _))); cbn -[JS.lit manage_products_url];
    rewrite <- ?app_assoc; reflexivity.
Qed.

Lemma fetchProducts_products r st :
  products (fetchProducts r st) = held_after r st.
Proof.
  unfold fetchProducts, fetchProducts_resume. cbn [showTableLoading].
  destruct r as [ps|e|m]; rewrite (proj1 (displayProducts_frame _)); reflexivity.
Qed.

(** A fetch touches the list and the table only. *)
Lemma fetchProducts_frame r st :
  currentProduct (fetchProducts r st) = currentProduct st
  /\ isEditMode (fetchProducts r st) = isEditMode st
  /\ productToDelete (fetchProducts r st) = productToDelete st
  /\ same_form (dom st) (dom (fetchProducts r st))
  /\ field_errors (dom (fetchProducts r st)) = field_errors (dom st)
  /\ productModal_shown (dom (fetchProducts r st)) = productModal_shown (dom st)
  /\ confirmModal_shown (dom (fetchProducts r st)) = confirmModal_shown (dom st)
  /\ saveProduct_disabled (dom (fetchProducts r st)) = saveProduct_disabled (dom st).
Proof.
  unfold fetchProducts, fetchProducts_resume. cbn [showTableLoading].
  destruct r as [ps|e|m];
    match goal with
    | |- context [displayProducts ?s] =>
        destruct (displayProducts_frame s) as (_ & _ & H1 & H2 & H3 & H4 & H5 & H6 & H7 & H8)
    end;
    rewrite H1, H2, H3, H5, H6, H7, H8; repeat split; apply H4.
Qed.

(** [handleSaveProduct] on a valid form, step by step. *)
Lemma handleSaveProduct_valid save refetch st req :
  fst (validateForm st) = true ->
  save_request st = Some req ->
  handleSaveProduct save refetch st
  = showLoading false
      match save with
      | Ok _ =>
          let st1 := showToast (saved_message st) success (emit req (saving st)) in
          fetchProducts refetch (set_dom (set_productModal false (dom st1)) st1)
      | _ => showToast (error_message (save_fallback st) save) error
                       (emit req (saving st))
      end.
Proof.
  intros Hv Hreq.
  pose proof (validateForm_state st) as Hs.
  pose proof (proj1 (validateForm_flag st) Hv) as He.
  unfold handleSaveProduct. destruct (validateForm st) as [valid st1].
  cbn [fst snd] in Hv, Hs. subst valid st1. rewrite He. cbn [negb].
  unfold save_request, saved_message, save_fallback in *.
  cbn [isEditMode currentProduct showLoading set_dom].
  destruct (isEditMode st).
  - destruct (currentProduct st) as [p|]; [|discriminate].
    cbn [option_map] in Hreq. injection Hreq as <-.
    destruct save as [u|e|m]; reflexivity.
  - injection Hreq as <-. destruct save as [u|e|m]; reflexivity.
Qed.

Lemma handleSaveProduct_valid_log save refetch st req :
  fst (validateForm st) = true ->
  save_request st = Some req ->
  log (handleSaveProduct save refetch st)
  = log st ++ req :: after_save save refetch st.
Proof.
  intros Hv Hreq. rewrite (handleSaveProduct_valid _ _ _ _ Hv Hreq).
  unfold after_save. destruct save as [u|e|m]; cbn [log showLoading set_dom].
  - cbv zeta. rewrite fetchProducts_log_exact. cbn. rewrite <- !app_assoc. reflexivity.
  - cbn. rewrite <- !app_assoc. reflexivity.
  - cbn. rewrite <- !app_assoc. reflexivity.
Qed.

Lemma handleSaveProduct_lost_product save refetch st :
  fst (validateForm st) = true ->
  save_request st = None ->
  log (handleSaveProduct save refetch st)
  = log st ++ [Toast (JS.lit "Cannot read properties of null (reading 'id')") error].
Proof.
  intros Hv Hreq.
  pose proof (validateForm_state st) as Hs.
  pose proof (proj1 (validateForm_flag st) Hv) as He.
  unfold handleSaveProduct. destruct (validateForm st) as [valid st1].
  cbn [fst snd] in Hv, Hs. subst valid st1. rewrite He. cbn [negb].
  unfold save_request in Hreq.
  cbn [isEditMode currentProduct showLoading set_dom].
  destruct (isEditMode st); [|discriminate].
  destruct (currentProduct st); [discriminate|]. reflexivity.
Qed.

(** The data of a valid form meets the rules. *)
Lemma getFormData_rules st :
  fst (validateForm st) = true ->
  exists n u p s,
    getFormData st = ProductData n u p s
    /\ n = JS.trim (name_val (dom st))
    /\ name_rule name_unit n /\ unit_rule u /\ price_rule p /\ (0 <= s)%Z.
Proof.
  intros Hv. apply validateForm_iff in Hv as (Hn & Hu & Hp & z & Hz & Hz0).
  unfold getFormData. rewrite Hz. do 4 eexists. split; [reflexivity|].
  split; [reflexivity|]. split; [exact Hn|]. split; [exact Hu|].
  split; [exact Hp | exact Hz0].
Qed.

Lemma list_toast_ok r : Forall save_event_ok (list_toast r).
Proof. destruct r; cbn; repeat constructor. Qed.

Lemma list_toast_no_save r : List.filter is_save (list_toast r) = [].
Proof. destruct r; reflexivity. Qed.

Lemma save_request_ok st req :
  fst (validateForm st) = true -> save_request st = Some req ->
  save_event_ok req /\ is_save req = true.
Proof.
  intros Hv Hreq.
  destruct (getFormData_rules st Hv) as (n & u & p & s & E & _ & Hn & Hu & Hp & Hs).
  unfold save_request in Hreq. rewrite E in Hreq.
  destruct (isEditMode st).
  - destruct (currentProduct st); [|discriminate]. injection Hreq as <-.
    split; [exact (conj Hn (conj Hu (conj Hp Hs))) | reflexivity].
  - injection Hreq as <-.
    split; [exact (conj eq_refl (conj Hn (conj Hu (conj Hp Hs)))) | reflexivity].
Qed.

(** X2: whatever the form holds and however the server answers,
    [handleSaveProduct] adds to the log only notifications, the list
    request and at most one request that saves, and the data of that
    request meets the rules of the form: a name of two or more permitted
    characters, a unit, a price above 0 and a stock not below 0.  A form
    that does not validate adds nothing, not even a notification; a form
    that validates is saved with the one request of its mode. *)
Theorem saved_product_data_is_valid (save : Response unit)
    (refetch : Response (list Product.t)) (st : state) :
  exists added,
    log (handleSaveProduct save refetch st) = log st ++ added
    /\ Forall save_event_ok added
    /\ (length (List.filter is_save added) <= 1)%nat
    /\ (fst (validateForm st) = false -> added = [])
    /\ (forall req,
          fst (validateForm st) = true -> save_request st = Some req ->
          List.filter is_save added = [req]).
Proof.
  assert (forall req, fst (validateForm st) = true -> save_request st = Some req ->
            List.filter is_save (req :: after_save save refetch st) = [req]) as Hone.
  { intros req Hv Hreq. destruct (save_request_ok st req Hv Hreq) as [_ Hsave].
    cbn [List.filter]. rewrite Hsave. unfold after_save.
    destruct save as [u|e|m]; cbn; rewrite ?list_toast_no_save; reflexivity. }
  destruct (fst (validateForm st)) eqn:Hv.
  - destruct (save_request st) as [req|] eqn:Hreq.
    + exists (req :: after_save save refetch st).
      split; [now apply handleSaveProduct_valid_log|].
      destruct (save_request_ok st req Hv Hreq) as [Hok Hsave].
      split; [|split; [|split]].
      * constructor; [exact Hok|]. unfold after_save.
        destruct save as [u|e|m]; repeat constructor. apply list_toast_ok.
      * rewrite (Hone req eq_refl eq_refl). cbn. lia.
      * discriminate.
      * intros req' _ [= <-]. now apply Hone.
    + eexists. split; [now apply handleSaveProduct_lost_product|].
      split; [repeat constructor|]. split; [cbn; lia|].
      split; [discriminate | intros req' _ H; discriminate].
  - exists []. rewrite handleSaveProduct_invalid, validateForm_log by exact Hv.
    rewrite app_nil_r. split; [reflexivity|]. split; [constructor|].
    split; [cbn; lia|]. split; [reflexivity | intros req' H; discriminate].
Qed.

(** X2, on a form: a valid form for rice is saved with one POST. *)
Lemma saved_product_data_is_valid_witness :
  exists added,
    log (handleSaveProduct (Ok tt) (Ok [])
           (fill (JS.lit "Rice") (Some (JS.lit "kg")) (JS.lit "50") (JS.lit "5")
                 constructed))
    = log constructed ++ added
    /\ List.filter is_save added
       = [Request POST (JS.lit "/api/manage-products")
            (ProductData (JS.lit "Rice") (Some (JS.lit "kg")) (JS.Fin (50 # 1)) 5)].
Proof.
  destruct (saved_product_data_is_valid (Ok tt) (Ok [])
              (fill (JS.lit "Rice") (Some (JS.lit "kg")) (JS.lit "50") (JS.lit "5")
                    constructed))
    as (added & Hlog & _ & _ & _ & Hone).
  exists added. split; [exact Hlog|]. apply Hone; reflexivity.
Defined.

End CatalogSaveProps.

Section CatalogOutcomeProps.

Import ProductManager CatalogSpec CatalogProps CatalogModal.

Lemma fetchProducts_table r st :
  tbody (dom (fetchProducts r st)) = table_of (held_after r st).
Proof.
  rewrite fetchProducts_tbody. unfold table_of, held_after.
  destruct r as [ps|e|m]; cbn;
    [destruct ps | destruct (products st) | destruct (products st)]; reflexivity.
Qed.

Lemma table_of_buttons ps : all_buttons (table_of ps).
Proof.
  destruct ps as [|p ps]; [exact I|]. unfold table_of, all_buttons.
  apply List.Forall_forall. intros r Hr. apply in_map_iff in Hr as (q & <- & _).
  reflexivity.
Qed.

Lemma same_form_trans a b c : same_form a b -> same_form b c -> same_form a c.
Proof.
  intros (H1 & H2 & H3 & H4) (K1 & K2 & K3 & K4).
  repeat split; congruence.
Qed.

(** A successful save, part by part. *)
Lemma handleSaveProduct_saved refetch st req u :
  fst (validateForm st) = true ->
  save_request st = Some req ->
  let st' := handleSaveProduct (Ok u) refetch st in
  saveProduct_disabled (dom st') = false
  /\ same_form (dom st) (dom st')
  /\ isEditMode st' = isEditMode st /\ currentProduct st' = currentProduct st
  /\ productModal_shown (dom st') = false
  /\ products st' = held_after refetch st
  /\ tbody (dom st') = table_of (held_after refetch st).
Proof.
  intros Hv Hreq st'. subst st'.
  rewrite (handleSaveProduct_valid _ _ _ _ Hv Hreq). cbv zeta.
  set (s1 := set_dom _ _).
  destruct (fetchProducts_frame refetch s1) as (H1 & H2 & _ & H4 & _ & H6 & _).
  pose proof (fetchProducts_products refetch s1) as Hp.
  pose proof (fetchProducts_table refetch s1) as Ht.
  split; [reflexivity|]. split.
  { eapply same_form_trans; [|eapply same_form_trans; [exact H4|]];
      now repeat split. }
  split; [exact H2|]. split; [exact H1|]. split; [exact H6|].
  split; [exact Hp | exact Ht].
Qed.

(** X3: a valid form is saved with one request, and whatever the
    answer the save button is enabled again.  When the save fails, the
    message of the server (or the fallback of the mode) is shown and the
    form values, the mode, the product being edited, the modal, the list
    and the table stay as they are; when it succeeds, the modal is
    closed, the list is requested again and the table is drawn from the
    list the page then holds. *)
Theorem handleSaveProduct_outcomes (save : Response unit)
    (refetch : Response (list Product.t)) (st : state) (req : Event) :
  fst (validateForm st) = true ->
  save_request st = Some req ->
  let st' := handleSaveProduct save refetch st in
  saveProduct_disabled (dom st') = false
  /\ log st' = log st ++ req :: after_save save refetch st
  /\ ((forall u, save <> Ok u) ->
        same_form (dom st) (dom st')
        /\ isEditMode st' = isEditMode st /\ currentProduct st' = currentProduct st
        /\ productModal_shown (dom st') = productModal_shown (dom st)
        /\ products st' = products st
        /\ tbody (dom st') = tbody (dom st))
  /\ ((exists u, save = Ok u) ->
        productModal_shown (dom st') = false
        /\ products st' = held_after refetch st
        /\ tbody (dom st') = table_of (held_after refetch st)).
Proof.
  intros Hv Hreq st'. subst st'.
  pose proof (handleSaveProduct_valid_log save refetch st req Hv Hreq) as Hlog.
  destruct save as [u|e|m].
  - destruct (handleSaveProduct_saved refetch st req u Hv Hreq)
      as (H1 & H2 & H3 & H4 & H5 & H6 & H7).
    split; [exact H1|]. split; [exact Hlog|]. split.
    + intros Hfail. now destruct (Hfail u).
    + intros _. repeat split; assumption.
  - rewrite (handleSaveProduct_valid _ _ _ _ Hv Hreq) in *.
    split; [reflexivity|]. split; [exact Hlog|]. split.
    + intros _. repeat split.
    + intros [u Hu]. discriminate.
  - rewrite (handleSaveProduct_valid _ _ _ _ Hv Hreq) in *.
    split; [reflexivity|]. split; [exact Hlog|]. split.
    + intros _. repeat split.
    + intros [u Hu]. discriminate.
Qed.

(** X3, on a form: a valid form for rice is posted, and the message of
    the server is shown when the request fails. *)
Lemma handleSaveProduct_outcomes_witness :
  let st := fill (JS.lit "Rice") (Some (JS.lit "kg")) (JS.lit "50") (JS.lit "5")
                 constructed in
  log (handleSaveProduct (HttpError (Some (JS.lit "Duplicate name"))) (Ok []) st)
  = log st
    ++ [Request POST (JS.lit "/api/manage-products")
          (ProductData (JS.lit "Rice") (Some (JS.lit "kg")) (JS.Fin (50 # 1)) 5);
        Toast (JS.lit "Duplicate name") error].
Proof.
  intros st.
  destruct (handleSaveProduct_outcomes
              (HttpError (Some (JS.lit "Duplicate name"))) (Ok []) st
              (Request POST (JS.lit "/api/manage-products")
                 (ProductData (JS.lit "Rice") (Some (JS.lit "kg")) (JS.Fin (50 # 1)) 5))
              eq_refl eq_refl)
    as (_ & H & _).
  exact H.
Defined.

End CatalogOutcomeProps.

Section CatalogModeProps.

Import ProductManager CatalogSpec CatalogProps CatalogModal.

Lemma find_product_some productId st p :
  find_product productId st = Some p ->
  In p (products st) /\ Product.id p = productId.
Proof.
  unfold find_product. intros H. apply List.find_some in H as [Hin Hid].
  split; [exact Hin|]. now apply Z.eqb_eq.
Qed.

Lemma find_product_none productId st :
  find_product productId st = None <->
  forall p, In p (products st) -> Product.id p <> productId.
Proof.
  unfold find_product. split.
  - intros H p Hin. apply (List.find_none _ _ H) in Hin. now apply Z.eqb_neq.
  - intros H. destruct (List.find _ _) as [p|] eqn:E; [|reflexivity].
    apply List.find_some in E as [Hin Hid]. apply Z.eqb_eq in Hid.
    now destruct (H p Hin).
Qed.

(** X5: for an id that no product of the list has, [editProduct], the
    click on an edit button and [confirmDeleteProduct] show
    [Product not found] and change nothing else: no modal opens, no
    product is marked for deletion, nothing is sent; a confirmation after
    it acts on what was pending before. *)
Theorem unknown_id_only_notifies (st : state) (uoms : list JS.jsstring)
    (productId : Z) :
  (forall p, In p (products st) -> Product.id p <> productId) ->
  editProduct productId st = notified (JS.lit "Product not found") error st
  /\ editProduct_click uoms productId st
     = notified (JS.lit "Product not found") error st
  /\ confirmDeleteProduct productId st
     = notified (JS.lit "Product not found") error st
  /\ forall deleted refetch,
       handleConfirmDelete deleted refetch (confirmDeleteProduct productId st)
       = handleConfirmDelete deleted refetch
           (notified (JS.lit "Product not found") error st).
Proof.
  intros H. apply find_product_none in H.
  unfold editProduct_click, editProduct, confirmDeleteProduct. rewrite H.
  repeat split.
Qed.

(** X5, on a list: no product has the id 9. *)
Lemma unknown_id_only_notifies_witness :
  editProduct 9 (loaded [rice; salt])
  = notified (JS.lit "Product not found") error (loaded [rice; salt]).
Proof.
  apply (unknown_id_only_notifies (loaded [rice; salt]) [] 9).
  intros p [<- | [<- | []]]; discriminate.
Defined.

Lemma editProduct_click_state uoms productId st p :
  find_product productId st = Some p ->
  editProduct_click uoms productId st
  = populateForm uoms p
      (set_dom (set_productModal true (dom st)) (set_editing true (Some p) st)).
Proof.
  intros H. unfold editProduct_click, editProduct. rewrite H. reflexivity.
Qed.

(** X4: the modal opened from the row of a listed product edits that
    product: the form shows its name and its stock, and a valid form is
    saved with a PUT to the URL of that product.  Opened from the add
    button, or after the modal has been hidden, a valid form is saved
    with a POST to the collection.  The body is the trimmed name, the
    unit, the parsed price and the parsed stock of the form.  The form of
    a fresh add modal and the form left by a hidden modal are blank and
    do not validate. *)
Theorem save_method_follows_mode (uoms : list JS.jsstring) (st : state) :
  (forall productId p,
      find_product productId st = Some p ->
      let opened := editProduct_click uoms productId st in
      Product.id p = productId /\ In p (products st)
      /\ productModal_shown (dom opened) = true
      /\ name_val (dom opened) = Product.name p
      /\ JS.parseInt (stock_val (dom opened)) = Some (Product.stock p)
      /\ log opened = log st
      /\ forall n u pr s save refetch,
           let st2 := fill n u pr s opened in
           fst (validateForm st2) = true ->
           log (handleSaveProduct save refetch st2)
           = log st ++ Request PUT (product_url productId) (form_data n u pr s)
                       :: after_save save refetch st2)
  /\ (forall n u pr s save refetch,
         let st2 := fill n u pr s (addProduct_click uoms st) in
         fst (validateForm st2) = true ->
         log (handleSaveProduct save refetch st2)
         = log st ++ Request POST manage_products_url (form_data n u pr s)
                     :: after_save save refetch st2)
  /\ (forall n u pr s save refetch,
         let st2 := fill n u pr s (onModalHidden st) in
         fst (validateForm st2) = true ->
         log (handleSaveProduct save refetch st2)
         = log st ++ Request POST manage_products_url (form_data n u pr s)
                     :: after_save save refetch st2)
  /\ fst (validateForm (addProduct_click uoms st)) = false
  /\ fst (validateForm (onModalHidden st)) = false.
Proof.
  split; [|split; [|split; [|split]]].
  - intros productId p Hfind opened. subst opened.
    destruct (find_product_some _ _ _ Hfind) as [Hin Hid].
    rewrite (editProduct_click_state _ _ _ _ Hfind).
    split; [exact Hid|]. split; [exact Hin|]. split; [reflexivity|].
    split; [reflexivity|]. split; [apply parseInt_Z_text|]. split; [reflexivity|].
    intros n u pr s save refetch st2 Hv.
    rewrite (handleSaveProduct_valid_log save refetch st2
               (Request PUT (product_url productId) (getFormData st2)) Hv);
      [reflexivity|].
    unfold save_request. subst st2. cbn [isEditMode currentProduct fill set_dom
      populateForm set_editing option_map]. now rewrite Hid.
  - intros n u pr s save refetch st2 Hv.
    rewrite (handleSaveProduct_valid_log save refetch st2
               (Request POST manage_products_url (getFormData st2)) Hv);
      reflexivity.
  - intros n u pr s save refetch st2 Hv.
    rewrite (handleSaveProduct_valid_log save refetch st2
               (Request POST manage_products_url (getFormData st2)) Hv);
      reflexivity.
  - reflexivity.
  - reflexivity.
Qed.

(** X4, on a list: rice, edited from its row, is saved with a PUT to
    its URL. *)
Lemma save_method_follows_mode_witness :
  let st2 := fill (JS.lit "Basmati") (Some (JS.lit "kg")) (JS.lit "60") (JS.lit "8")
                  (editProduct_click [JS.lit "kg"] 1 (loaded [rice; salt])) in
  log (handleSaveProduct (HttpError None) (Ok []) st2)
  = log (loaded [rice; salt])
    ++ [Request PUT (JS.lit "/api/manage-products/1")
          (ProductData (JS.lit "Basmati") (Some (JS.lit "kg")) (JS.Fin (60 # 1)) 8);
        Toast (JS.lit "Failed to update product") error].
Proof.
  pose proof (proj1 (save_method_follows_mode [JS.lit "kg"] (loaded [rice; salt]))
                1%Z rice eq_refl) as (_ & _ & _ & _ & _ & _ & H).
  apply (H (JS.lit "Basmati") (Some (JS.lit "kg")) (JS.lit "60") (JS.lit "8")).
  reflexivity.
Defined.

End CatalogModeProps.

Section CatalogDeleteProps.

Import ProductManager CatalogSpec CatalogProps CatalogModal.

Lemma showRowLoading_frame productId show st :
  productToDelete (showRowLoading productId show st) = productToDelete st
  /\ products (showRowLoading productId show st) = products st
  /\ confirmModal_shown (dom (showRowLoading productId show st))
     = confirmModal_shown (dom st).
Proof.
  unfold showRowLoading. destruct show; [|repeat split].
  destruct (tbody (dom st)); repeat split.
Qed.

(** The page on which a confirmed delete resumes: the request is out, the
    dialog is hidden and the stored id is cleared. *)
Lemma handleConfirmDelete_truthy deleted refetch st productId :
  productToDelete st = Some productId -> productId <> 0%Z ->
  handleConfirmDelete deleted refetch st
  = deleteProductById_resume productId deleted refetch
      (set_productToDelete None
         (set_dom (set_confirmModal false
                     (confirmModal_text (dom (deleteProductById_request productId st)))
                     (dom (deleteProductById_request productId st)))
                  (deleteProductById_request productId st))).
Proof.
  intros H Hne. unfold handleConfirmDelete. rewrite H. cbn [id_truthy].
  destruct (Z.eqb_spec productId 0); [contradiction|]. reflexivity.
Qed.

Lemma deleteProductById_resume_frame productId deleted refetch st :
  productToDelete (deleteProductById_resume productId deleted refetch st)
  = productToDelete st
  /\ confirmModal_shown (dom (deleteProductById_resume productId deleted refetch st))
     = confirmModal_shown (dom st).
Proof.
  unfold deleteProductById_resume. destruct deleted as [u|e|m].
  - match goal with
    | |- context [fetchProducts refetch ?s] =>
        destruct (fetchProducts_frame refetch s) as (_ & _ & H3 & _ & _ & _ & H7 & _)
    end.
    rewrite H3, H7. split; reflexivity.
  - split; reflexivity.
  - split; reflexivity.
Qed.

(** X6: a confirmation is consumed.  After [handleConfirmDelete] has
    run on a pending id, the id is cleared and the dialog is closed, so
    that a second confirmation does nothing; with no pending id, or the
    id 0, the handler does nothing at all. *)
Theorem confirm_twice_deletes_once (deleted deleted' : Response unit)
    (refetch refetch' : Response (list Product.t)) (st : state) :
  let st' := handleConfirmDelete deleted refetch st in
  handleConfirmDelete deleted' refetch' st' = st'
  /\ (id_truthy (productToDelete st) = true ->
        productToDelete st' = None /\ confirmModal_shown (dom st') = false)
  /\ (id_truthy (productToDelete st) = false -> st' = st).
Proof.
  intros st'. subst st'.
  destruct (id_truthy (productToDelete st)) eqn:Ht.
  - destruct (productToDelete st) as [productId|] eqn:E; [|discriminate].
    assert (productId <> 0%Z) as Hne.
    { cbn in Ht. intros ->. discriminate. }
    rewrite (handleConfirmDelete_truthy _ _ _ _ E Hne).
    match goal with
    | |- context [deleteProductById_resume productId deleted refetch ?s] =>
        destruct (deleteProductById_resume_frame productId deleted refetch s)
          as [H1 H2]
    end.
    cbn [productToDelete set_productToDelete] in H1.
    split; [|split].
    + apply handleConfirmDelete_falsy. now rewrite H1.
    + intros _. split; [exact H1 | exact H2].
    + discriminate.
  - rewrite (handleConfirmDelete_falsy _ _ _ Ht).
    split; [now apply handleConfirmDelete_falsy|]. split; [discriminate | reflexivity].
Qed.

(** X7: a confirmed deletion that succeeds sends one DELETE to the URL
    of the pending product, notifies, requests the list again and draws
    the table from the list the page then holds, every row with its
    buttons. *)
Theorem confirmed_delete_redraws_table (u : unit)
    (refetch : Response (list Product.t)) (st : state) (productId : Z) :
  productToDelete st = Some productId -> productId <> 0%Z ->
  let st' := handleConfirmDelete (Ok u) refetch st in
  products st' = held_after refetch st
  /\ tbody (dom st') = table_of (held_after refetch st)
  /\ all_buttons (tbody (dom st'))
  /\ log st' = log st
               ++ Request DELETE (product_url productId) NoBody
               :: Toast (JS.lit "Product deleted successfully!") success
               :: Request GET manage_products_url NoBody
               :: list_toast refetch.
Proof.
  intros E Hne st'. subst st'.
  rewrite (handleConfirmDelete_truthy _ _ _ _ E Hne).
  unfold deleteProductById_resume. cbv zeta.
  match goal with
  | |- context [fetchProducts refetch ?s] =>
      pose proof (fetchProducts_products refetch s) as Hp;
      pose proof (fetchProducts_table refetch s) as Ht;
      pose proof (fetchProducts_log_exact refetch s) as Hl
  end.
  assert (forall s, held_after refetch
            (showToast (JS.lit "Product deleted successfully!") success
               (set_productToDelete None
                  (set_dom (set_confirmModal false
                              (confirmModal_text (dom (deleteProductById_request productId s)))
                              (dom (deleteProductById_request productId s)))
                           (deleteProductById_request productId s))))
          = held_after refetch s) as Hh.
  { intros s. unfold held_after. destruct refetch as [ps|e|m]; [reflexivity | |];
      cbn [products showToast emit set_productToDelete set_dom deleteProductById_request];
      apply (proj1 (proj2 (showRowLoading_frame productId true s))). }
  rewrite Hh in Hp, Ht.
  split; [exact Hp|]. split; [exact Ht|]. split.
  - rewrite Ht. apply table_of_buttons.
  - rewrite Hl.
    cbn [log showToast emit set_productToDelete set_dom deleteProductById_request].
    rewrite showRowLoading_log, <- !app_assoc. reflexivity.
Qed.

(** X7, on a list: rice is deleted and the table shows the salt that
    is left. *)
Lemma confirmed_delete_redraws_table_witness :
  tbody (dom (handleConfirmDelete (Ok tt) (Ok [salt])
                (confirmDeleteProduct 1 (loaded [rice; salt]))))
  = table_of [salt].
Proof.
  apply (confirmed_delete_redraws_table tt (Ok [salt])
           (confirmDeleteProduct 1 (loaded [rice; salt])) 1);
    [reflexivity | discriminate].
Defined.

End CatalogDeleteProps.

Section MarkupProps.

Import ProductManager.

Lemma starts_with_app n b : JS.starts_with n (n ++ b) = true.
Proof. induction n as [|c n IH]; [reflexivity|]. cbn. now rewrite N.eqb_refl. Qed.

Lemma includes_starts n h : JS.starts_with n h = true -> JS.includes n h = true.
Proof. intros H. destruct h; cbn; now rewrite H. Qed.

Lemma includes_app_r n a b : JS.includes n b = true -> JS.includes n (a ++ b) = true.
Proof.
  intros H. induction a as [|c a IH]; [exact H|].
  cbn [app JS.includes]. rewrite IH. apply orb_true_r.
Qed.

(** Text that ends one piece of a template, an interpolated value, and
    text that starts the next piece are found in the whole. *)
Lemma includes_across a a' n1 x c c' n2 d :
  a = a' ++ n1 -> c = n2 ++ c' ->
  JS.includes (n1 ++ x ++ n2) (a ++ x ++ c ++ d) = true.
Proof.
  intros -> ->. rewrite <- !app_assoc. apply includes_app_r.
  rewrite !app_assoc. rewrite <- (app_assoc _ c' d).
  apply includes_starts. rewrite <- !app_assoc.
  replace (n1 ++ x ++ n2 ++ c' ++ d) with ((n1 ++ x ++ n2) ++ c' ++ d)
    by now rewrite <- !app_assoc.
  apply starts_with_app.
Qed.

Lemma stock_cell (product : Product.t) (cls icon : JS.jsstring) :
  (if (Product.stock product <=? 10)%Z then JS.lit "text-danger"
   else if (Product.stock product <=? 20)%Z then JS.lit "text-warning"
   else JS.lit "text-success") = cls ->
  (if (Product.stock product <=? 10)%Z then JS.lit "fas fa-exclamation-triangle"
   else if (Product.stock product <=? 20)%Z then JS.lit "fas fa-exclamation-circle"
   else JS.lit "fas fa-check-circle") = icon ->
  JS.includes (JS.html "<td class='" ++ cls ++ JS.html "'>") (row_markup product) = true
  /\ JS.includes (JS.html "<i class='" ++ icon ++ JS.html "'></i>")
                 (row_markup product) = true.
Proof.
  intros Hc Hi. unfold row_markup. cbv zeta. rewrite Hc, Hi. split.
  - do 8 apply includes_app_r.
    match goal with
    | |- JS.includes _ (?a ++ cls ++ ?c ++ ?d) = true =>
        apply (includes_across a (firstn (length a - 11) a) _ cls c (skipn 2 c))
    end; vm_compute; reflexivity.
  - do 10 apply includes_app_r.
    match goal with
    | |- JS.includes _ (?a ++ icon ++ ?c ++ ?d) = true =>
        apply (includes_across a (firstn (length a - 10) a) _ icon c (skipn 6 c))
    end; vm_compute; reflexivity.
Qed.

(** X8: the stock cell of a table row is styled by the stock: up to 10
    in the danger colour with the warning triangle, from 11 to 20 in the
    warning colour with the exclamation circle, above 20 in the success
    colour with the check mark. *)
Theorem stock_severity_styling (product : Product.t) :
  let stock := Product.stock product in
  let shows text := JS.includes text (row_markup product) = true in
  ((stock <= 10)%Z ->
     shows (JS.html "<td class='text-danger'>")
     /\ shows (JS.html "<i class='fas fa-exclamation-triangle'></i>"))
  /\ ((10 < stock <= 20)%Z ->
        shows (JS.html "<td class='text-warning'>")
        /\ shows (JS.html "<i class='fas fa-exclamation-circle'></i>"))
  /\ ((20 < stock)%Z ->
        shows (JS.html "<td class='text-success'>")
        /\ shows (JS.html "<i class='fas fa-check-circle'></i>")).
Proof.
  intros stock shows. subst stock shows. cbv beta.
  split; [|split]; intros H.
  - apply (stock_cell product (JS.lit "text-danger")
                      (JS.lit "fas fa-exclamation-triangle"));
      destruct (Z.leb_spec (Product.stock product) 10); (reflexivity || lia).
  - apply (stock_cell product (JS.lit "text-warning")
                      (JS.lit "fas fa-exclamation-circle"));
      destruct (Z.leb_spec (Product.stock product) 10); try lia;
      destruct (Z.leb_spec (Product.stock product) 20); (reflexivity || lia).
  - apply (stock_cell product (JS.lit "text-success") (JS.lit "fas fa-check-circle"));
      destruct (Z.leb_spec (Product.stock product) 10); try lia;
      destruct (Z.leb_spec (Product.stock product) 20); (reflexivity || lia).
Qed.

(** X8, on two products: a stock of 5 is a danger, a stock of 40 is
    fine. *)
Lemma stock_severity_styling_witness :
  JS.includes (JS.html "<td class='text-danger'>")
              (row_markup CatalogSpec.rice) = true
  /\ JS.includes (JS.html "<td class='text-success'>")
                 (row_markup CatalogSpec.salt) = true.
Proof.
  split.
  - apply (proj1 (stock_severity_styling CatalogSpec.rice)). vm_compute. discriminate.
  - apply (proj2 (proj2 (stock_severity_styling CatalogSpec.salt))). reflexivity.
Defined.

End MarkupProps.

Section SanitizerProps.

Import ProductManager.

Lemma forallb_filter_same {A} (p : A -> bool) l : forallb p (List.filter p l) = true.
Proof.
  induction l as [|a l IH]; [reflexivity|]. cbn.
  destruct (p a) eqn:E; cbn; now rewrite ?E.
Qed.

Lemma slice_after_typing (re : JS.regex) (value : JS.jsstring) (c : N) :
  JS.test re value = true ->
  let typed := value ++ [c] in
  let kept := if negb (JS.test re typed) then JS.slice_0_m1 typed else typed in
  JS.test re kept = true /\ (kept = typed \/ kept = value).
Proof.
  intros H typed kept. subst typed kept.
  destruct (JS.test re (value ++ [c])) eqn:E; cbn [negb].
  - split; [exact E | now left].
  - unfold JS.slice_0_m1. rewrite removelast_last. split; [exact H | now right].
Qed.

(** X9: a character typed at the end of a name or a price that passed
    the pattern of its field leaves a value that passes it: the new value
    when it passes, the old one otherwise.  The stock sanitiser gives a
    value that passes its pattern whatever it is given, and changes
    nothing when run again. *)
Theorem typing_at_the_end_stays_valid (value : JS.jsstring) (c : N) :
  (JS.test name_input_regex value = true ->
     JS.test name_input_regex (validateNameInput (value ++ [c])) = true
     /\ (validateNameInput (value ++ [c]) = value ++ [c]
         \/ validateNameInput (value ++ [c]) = value))
  /\ (JS.test price_input_regex value = true ->
        JS.test price_input_regex (validatePriceInput (value ++ [c])) = true
        /\ (validatePriceInput (value ++ [c]) = value ++ [c]
            \/ validatePriceInput (value ++ [c]) = value))
  /\ JS.test stock_input_regex (validateStockInput value) = true
  /\ validateStockInput (validateStockInput value) = validateStockInput value.
Proof.
  split; [|split; [|split]].
  - apply slice_after_typing.
  - apply slice_after_typing.
  - unfold validateStockInput.
    destruct (JS.test stock_input_regex value) eqn:E; cbn [negb]; [exact E|].
    unfold stock_input_regex. rewrite test_Star_Class. apply forallb_filter_same.
  - assert (JS.test stock_input_regex (validateStockInput value) = true) as H.
    { unfold validateStockInput.
      destruct (JS.test stock_input_regex value) eqn:E; cbn [negb]; [exact E|].
      unfold stock_input_regex. rewrite test_Star_Class. apply forallb_filter_same. }
    unfold validateStockInput at 1. now rewrite H.
Qed.

(** X9, on a name: an exclamation mark typed after [Rice] is taken
    back. *)
Lemma typing_at_the_end_stays_valid_witness :
  validateNameInput (JS.lit "Rice" ++ [33%N]) = JS.lit "Rice"
  \/ validateNameInput (JS.lit "Rice" ++ [33%N]) = JS.lit "Rice" ++ [33%N].
Proof.
  destruct (proj1 (typing_at_the_end_stays_valid (JS.lit "Rice") 33) eq_refl)
    as [_ [H | H]]; [now right | now left].
Defined.

Lemma removelast_shorter {A} (l : list A) : l <> [] -> removelast l <> l.
Proof.
  intros Hne E. pose proof (app_removelast_last (A:=A)) as H.
  destruct l as [|a l]; [congruence|].
  specialize (H (a :: l) a Hne). rewrite E in H.
  apply (f_equal (@length A)) in H. rewrite length_app in H. cbn in H. lia.
Qed.

(** X10: the price sanitiser leaves a value as it is exactly when the
    value is a run of digits, then at most one point, then at most two
    digits. *)
Theorem price_field_keeps_two_decimals (value : JS.jsstring) :
  validatePriceInput value = value <->
  exists ds point fs,
    value = ds ++ point ++ fs
    /\ forallb JS.is_digit ds = true
    /\ (point = [] \/ point = [46%N])
    /\ forallb JS.is_digit fs = true /\ (length fs <= 2)%nat.
Proof.
  rewrite <- price_input_regex_spec. unfold validatePriceInput.
  destruct (JS.test price_input_regex value) eqn:E; cbn [negb].
  - split; reflexivity.
  - split; [|discriminate]. intros H. exfalso.
    apply (removelast_shorter value); [|exact H].
    eapply failing_value_nonempty; [|exact E]. reflexivity.
Qed.

End SanitizerProps.

Section EscapeProps.

Lemma escape_unit_length c : (1 <= length (JS.escape_unit c))%nat.
Proof.
  unfold JS.escape_unit.
  repeat match goal with |- context [if ?b then _ else _] => destruct b end;
    cbn; lia.
Qed.

Lemma escape_unit_nbsp c : ~ In 160%N (JS.escape_unit c).
Proof.
  unfold JS.escape_unit.
  destruct (N.eqb_spec c 38); [vm_compute; intuition discriminate|].
  destruct (N.eqb_spec c 60); [vm_compute; intuition discriminate|].
  destruct (N.eqb_spec c 62); [vm_compute; intuition discriminate|].
  destruct (N.eqb_spec c 160); [vm_compute; intuition discriminate|].
  intros [H|[]]. congruence.
Qed.

Lemma escape_unit_plain_unit c :
  c <> 38%N -> c <> 60%N -> c <> 62%N -> c <> 160%N -> JS.escape_unit c = [c].
Proof.
  intros H1 H2 H3 H4. unfold JS.escape_unit.
  destruct (N.eqb_spec c 38); [contradiction|].
  destruct (N.eqb_spec c 60); [contradiction|].
  destruct (N.eqb_spec c 62); [contradiction|].
  destruct (N.eqb_spec c 160); [contradiction|]. reflexivity.
Qed.

(** X11: the text [escapeHtml] returns holds no [<], no [>] and no
    U+00A0; it is not shorter than its input, it is the concatenation of
    the escaped parts of the input, it is the input itself when that
    holds none of [&], [<], [>] and U+00A0, and a double quote of the
    input is still in it. *)
Theorem escapeHtml_text_safe (text : JS.jsstring) :
  ~ In 60%N (JS.escapeHtml text)
  /\ ~ In 62%N (JS.escapeHtml text)
  /\ ~ In 160%N (JS.escapeHtml text)
  /\ (length text <= length (JS.escapeHtml text))%nat
  /\ (forall more, JS.escapeHtml (text ++ more)
                   = JS.escapeHtml text ++ JS.escapeHtml more)
  /\ ((forall c, In c text -> c <> 38%N /\ c <> 60%N /\ c <> 62%N /\ c <> 160%N) ->
        JS.escapeHtml text = text)
  /\ (In 34%N text -> In 34%N (JS.escapeHtml text)).
Proof.
  unfold JS.escapeHtml.
  split; [|split; [|split; [|split; [|split; [|split]]]]].
  - intros H. apply in_flat_map in H as (c & _ & H).
    apply (escape_unit_plain c). now left.
  - intros H. apply in_flat_map in H as (c & _ & H).
    apply (escape_unit_plain c). now right.
  - intros H. apply in_flat_map in H as (c & _ & H).
    now apply (escape_unit_nbsp c).
  - induction text as [|c text IH]; [reflexivity|].
    cbn [flat_map length]. rewrite length_app.
    pose proof (escape_unit_length c). lia.
  - intros more. apply flat_map_app.
  - induction text as [|c text IH]; intros H; [reflexivity|].
    cbn [flat_map].
    destruct (H c (or_introl eq_refl)) as (H1 & H2 & H3 & H4).
    rewrite (escape_unit_plain_unit c H1 H2 H3 H4), IH; [reflexivity|].
    intros d Hd. apply H. now right.
  - intros H. apply in_flat_map. exists 34%N. split; [exact H|]. now left.
Qed.

(** X11, on a text without markup. *)
Lemma escapeHtml_text_safe_witness :
  JS.escapeHtml (JS.lit "Rice 5kg") = JS.lit "Rice 5kg".
Proof.
  apply (escapeHtml_text_safe (JS.lit "Rice 5kg")).
  intros c Hc. vm_compute in Hc.
  repeat destruct Hc as [<- | Hc]; try (repeat split; discriminate).
  destruct Hc.
Defined.

End EscapeProps.

Section ComposerInvariants.

Import GroceryStore ComposerSpec ComposerProps.

Lemma total_current_same st st' :
  orderTotal st' = orderTotal st -> rows st' = rows st ->
  total_current st -> total_current st'.
Proof. unfold total_current. now intros -> ->. Qed.

Lemma total_current_addProductRow st :
  total_current st -> total_current (addProductRow st).
Proof.
  intros H. unfold addProductRow. destruct (allProducts st); [exact H|].
  apply total_current_updateOrderTotal.
Qed.

Lemma total_current_step st op : total_current st -> total_current (step st op).
Proof.
  intros H. destruct op as [|i|i choice|i entered]; cbn [step].
  - now apply total_current_addProductRow.
  - unfold removeProductRow. cbv zeta.
    destruct (length _ =? 0)%nat;
      [apply total_current_addProductRow|]; apply total_current_updateOrderTotal.
  - unfold handleProductChange. destruct (rows st !! i) as [r|]; [|exact H].
    repeat match goal with
           | |- context [if ?b then _ else _] => destruct b
           end; apply total_current_updateOrderTotal.
  - unfold handleQuantityChange. destruct (rows st !! i) as [r|]; [|exact H].
    destruct (exceeds _ _); apply total_current_updateOrderTotal.
Qed.

Lemma options_current_same st st' :
  allProducts st' = allProducts st -> rows st' = rows st ->
  options_current st -> options_current st'.
Proof. unfold options_current, option_elements. now intros -> ->. Qed.

Lemma options_current_addProductRow st :
  options_current st -> options_current (addProductRow st).
Proof.
  intros H. unfold addProductRow.
  destruct (allProducts st) as [|p ps] eqn:E; [exact H|].
  unfold options_current, option_elements in *.
  cbn [allProducts rows updateOrderTotal set_orderTotal set_rows].
  rewrite E in *.
  apply Forall_app. split; [exact H|]. constructor; [reflexivity|constructor].
Qed.

Lemma options_current_write i r r1 st st1 :
  rows st1 = <[i := r1]> (rows st) -> allProducts st1 = allProducts st ->
  rows st !! i = Some r -> options r1 = options r -> options_current st ->
  options_current (calculateRowSubtotal i st1).
Proof.
  unfold options_current, option_elements. intros E Ha Hr Ho H.
  cbn [calculateRowSubtotal allProducts rows updateOrderTotal set_orderTotal set_rows].
  rewrite Ha, E.
  apply Forall_alter; [|intros x _ Hx; exact Hx].
  apply Forall_insert; [exact H|]. rewrite Ho.
  eapply Forall_lookup_1 in H; [exact H | exact Hr].
Qed.

Lemma options_current_step st op : options_current st -> options_current (step st op).
Proof.
  intros H. destruct op as [|i|i choice|i entered]; cbn [step].
  - now apply options_current_addProductRow.
  - unfold removeProductRow. cbv zeta.
    assert (options_current (updateOrderTotal (set_rows (delete i (rows st)) st)))
      as Hd by (now apply Forall_delete).
    destruct (length _ =? 0)%nat; [now apply options_current_addProductRow | exact Hd].
  - unfold handleProductChange. destruct (rows st !! i) as [r|] eqn:Hr; [|exact H].
    repeat match goal with
           | |- context [if ?b then _ else _] => destruct b
           end;
      (eapply options_current_write;
       [reflexivity | reflexivity | exact Hr | reflexivity | exact H]).
  - unfold handleQuantityChange. destruct (rows st !! i) as [r|] eqn:Hr; [|exact H].
    destruct (exceeds _ _);
      (eapply options_current_write;
       [reflexivity | reflexivity | exact Hr | reflexivity | exact H]).
Qed.

Lemma fold_subtotals_map (f : Row -> Row) rs a :
  (forall r, subtotal_text (f r) = subtotal_text r) ->
  fold_left (fun total r => Double.add total (read_subtotal (subtotal_text r)))
            (List.map f rs) a
  = fold_left (fun total r => Double.add total (read_subtotal (subtotal_text r))) rs a.
Proof.
  intros Hf. revert a. induction rs as [|r rs IH]; intros a; [reflexivity|].
  cbn [List.map fold_left]. now rewrite IH, Hf.
Qed.

Lemma page_fetchProducts_resume r st :
  options_current st /\ total_current st ->
  options_current (fetchProducts_resume r st)
  /\ total_current (fetchProducts_resume r st).
Proof.
  intros [Ho Ht]. destruct r as [ps|e|m]; [|split; assumption|split; assumption].
  split.
  - unfold options_current, option_elements.
    cbn [fetchProducts_resume updateProductSelects allProducts rows set_rows
         set_allProducts].
    apply List.Forall_forall. intros x Hx. apply in_map_iff in Hx as (r & <- & _).
    unfold option_elements. cbn [allProducts set_allProducts].
    destruct (JS.truthy (select_val r)); reflexivity.
  - unfold total_current in *.
    cbn [fetchProducts_resume updateProductSelects orderTotal rows set_rows
         set_allProducts].
    rewrite fold_subtotals_map; [exact Ht|].
    intros x. destruct (JS.truthy (select_val x)); reflexivity.
Qed.

Lemma page_refreshData f st :
  options_current st /\ total_current st ->
  options_current (refreshData f st) /\ total_current (refreshData f st).
Proof.
  intros H. unfold refreshData, loadInitialData, fetchStats, fetchOrders, fetchProducts.
  cbv zeta.
  pose proof (page_fetchProducts_resume (products_response f)
                (fetchProducts_request (showToast (JS.lit "Refreshing data...") info st)) H)
    as [Ho Ht].
  destruct (orders_response f) as [o|e|m]; split;
    first [ eapply options_current_same; [| |exact Ho]; reflexivity
          | eapply total_current_same; [| |exact Ht]; reflexivity ].
Qed.

Lemma page_resetOrderForm st :
  options_current (resetOrderForm st) /\ total_current (resetOrderForm st).
Proof.
  unfold resetOrderForm, addFirstProductRow, addProductRow. cbv zeta.
  cbn [rows set_rows set_customer_name length Nat.eqb allProducts].
  destruct (allProducts st) as [|p ps] eqn:E.
  - split; [constructor | reflexivity].
  - split.
    + unfold options_current, option_elements.
      cbn [allProducts rows updateOrderTotal set_orderTotal set_rows set_customer_name
           app length].
      constructor; [reflexivity | constructor].
    + reflexivity.
Qed.

Lemma page_handleOrderSubmit placed f st :
  options_current st /\ total_current st ->
  options_current (handleOrderSubmit placed f st)
  /\ total_current (handleOrderSubmit placed f st).
Proof.
  intros H. unfold handleOrderSubmit. cbv zeta.
  destruct (negb (JS.truthy (JS.trim (customer_name_val st)))); [exact H|].
  destruct (collect_items (rows st)) as [items flag].
  destruct (negb flag); [exact H|].
  destruct placed as [n|e|m]; [|exact H|exact H].
  match goal with
  | |- context [refreshData f ?s] =>
      destruct (page_refreshData f s) as [Ho Ht]
  end.
  - apply page_resetOrderForm.
  - split; [exact Ho | exact Ht].
Qed.

Lemma page_perform st a :
  options_current st /\ total_current st ->
  options_current (perform st a) /\ total_current (perform st a).
Proof.
  intros H. destruct a as [op|name|r|f|placed f]; cbn [perform].
  - split; [apply options_current_step | apply total_current_step]; apply H.
  - exact H.
  - now apply page_fetchProducts_resume.
  - now apply page_refreshData.
  - now apply page_handleOrderSubmit.
Qed.

Lemma page_run actions st :
  options_current st /\ total_current st ->
  options_current (fold_left perform actions st)
  /\ total_current (fold_left perform actions st).
Proof.
  revert st. induction actions as [|a actions IH]; intros st H; [exact H|].
  cbn [fold_left]. apply IH, page_perform, H.
Qed.

(** X12: on every page the handlers produce from the constructed one
    when they run one after the other, whatever row operations,
    refreshes, product lists and submissions led to it, every select
    offers exactly the products of [allProducts], in their order, and
    [orderTotal] is the sum of the subtotals the rows display; a row has
    options whenever the list has products. *)
Theorem reachable_page_is_current (st : state) :
  reachable st ->
  Forall (fun r => options r = List.map product_option (allProducts st)) (rows st)
  /\ orderTotal st = sum (List.map displayed_subtotal (rows st))
  /\ (allProducts st = [] \/ forall r, In r (rows st) -> options r <> []).
Proof.
  intros [actions ->].
  destruct (page_run actions constructed) as [Ho Ht].
  { split; [constructor | reflexivity]. }
  split; [exact Ho|]. split.
  - rewrite Ht. apply fold_left_add_sum.
  - destruct (allProducts (fold_left perform actions constructed)) as [|p ps] eqn:E;
      [now left | right].
    intros r Hr. unfold options_current, option_elements in Ho.
    rewrite List.Forall_forall in Ho. rewrite (Ho r Hr), E. discriminate.
Qed.

(** X12, on a page with one row of rice. *)
Lemma reachable_page_is_current_witness :
  orderTotal ready = sum (List.map displayed_subtotal (rows ready)).
Proof.
  apply (reachable_page_is_current ready).
  exists [ProductsArrive (Ok [rice; oil]); OnRow AddRow;
          OnRow (ChangeProduct 0 (Some 0%nat)); OnRow (ChangeQuantity 0 (JS.lit "2"));
          TypeCustomerName (JS.lit "Asha")].
  reflexivity.
Defined.

End ComposerInvariants.

Section ComposerOrderProps.

Import GroceryStore ComposerSpec ComposerProps.

Lemma log_fetchProducts r st :
  log (fetchProducts r st)
  = log st ++ Request GET (JS.lit "/api/manage-products") NoBody :: products_toast r.
Proof.
  destruct r as [ps|e|m];
    cbn [fetchProducts fetchProducts_resume fetchProducts_request showToast emit log
         updateProductSelects set_rows set_allProducts products_toast];
    now rewrite <- ?app_assoc.
Qed.

Lemma log_loadInitialData f st :
  log (loadInitialData f st) = log st ++ load_events f.
Proof.
  unfold loadInitialData, fetchStats, fetchOrders, load_events. cbv zeta.
  destruct (orders_response f) as [o|e|m];
    cbn [log emit showToast orders_toast];
    rewrite log_fetchProducts, <- ?app_assoc; reflexivity.
Qed.

Lemma log_refreshData f st :
  log (refreshData f st)
  = log st ++ Toast (JS.lit "Refreshing data...") info
             :: load_events f ++ [Toast (JS.lit "Data refreshed successfully") success].
Proof.
  unfold refreshData. cbv zeta. cbn [log showToast emit].
  rewrite log_loadInitialData. cbn [log showToast emit].
  now rewrite <- !app_assoc.
Qed.


Lemma load_events_requests f :
  List.filter is_request (load_events f)
  = [Request GET (JS.lit "/api/manage-products") NoBody;
     Request GET (JS.lit "/api/orders?per_page=10") NoBody;
     Request GET (JS.lit "/api/stats") NoBody].
Proof.
  unfold load_events.
  destruct (products_response f) as [ps|e|m], (orders_response f) as [o|e'|m'];
    reflexivity.
Qed.



Lemma log_resetOrderForm st :
  log (resetOrderForm st)
  = log st ++ match allProducts st with
              | [] => [Toast (JS.lit "No products available. Please add products first.")
                             error]
              | _ :: _ => []
              end.
Proof.
  unfold resetOrderForm, addFirstProductRow, addProductRow. cbv zeta.
  cbn [rows set_rows set_customer_name length Nat.eqb allProducts].
  destruct (allProducts st); cbn [log set_orderTotal showToast emit updateOrderTotal
                                   set_rows set_customer_name];
    now rewrite ?app_nil_r.
Qed.

(** The product behind an item of the order. *)
Lemma item_in_stock st r :
  options_current st -> In r (rows st) -> has_product_and_quantity r = true ->
  (0 < quantity (item_of r))%Z
  /\ exists p, In p (allProducts st)
               /\ Product.name p = product_name (item_of r)
               /\ (0 < Product.stock p)%Z.
Proof.
  intros Ho Hr H. unfold has_product_and_quantity in H.
  apply andb_true_iff in H as [Hv Hq]. split.
  - unfold item_of, quantity_above_0 in *. cbn [quantity].
    destruct (JS.parseInt (quantity_val r)) as [q|]; [|discriminate].
    now apply Z.ltb_lt.
  - unfold options_current in Ho. rewrite List.Forall_forall in Ho.
    specialize (Ho r Hr). unfold item_of. cbn [product_name].
    rewrite shown_option_selectedOption in *. unfold selectedOption in *.
    destruct (selected r) as [k|]; [|discriminate].
    destruct (options r !! k) as [o|] eqn:Ek; [|discriminate].
    apply andb_true_iff in Hv as [_ Hd]. apply negb_true_iff in Hd.
    rewrite Ho in Ek. unfold option_elements in Ek.
    rewrite list_lookup_fmap in Ek.
    destruct (allProducts st !! k) as [p|] eqn:Ep; [|discriminate].
    cbn in Ek. injection Ek as <-. exists p.
    split; [eapply list_elem_of_In, list_elem_of_lookup_2; exact Ep|].
    split; [reflexivity|]. cbn [disabled product_option] in Hd.
    apply Z.leb_gt in Hd. exact Hd.
Qed.


End ComposerOrderProps.

Section ComposerSubmitProps.

Import GroceryStore ComposerSpec ComposerProps.


Lemma refreshData_frame f st :
  allProducts (refreshData f st) = products_after (products_response f) st
  /\ customer_name_val (refreshData f st) = customer_name_val st
  /\ orderTotal (refreshData f st) = orderTotal st
  /\ loadingModal_shown (refreshData f st) = loadingModal_shown st
  /\ rows (refreshData f st)
     = rows (fetchProducts_resume (products_response f) st).
Proof.
  unfold refreshData, loadInitialData, fetchStats, fetchOrders, fetchProducts. cbv zeta.
  destruct (products_response f) as [ps|e|m], (orders_response f) as [o|e'|m'];
    repeat split.
Qed.

(** X14: unless the order is placed, that is when the order request
    fails, the customer name is blank or no row can be submitted, the
    rows, the customer name, the total and the product list are as
    before the submission.  A submission that is refused shows one
    notification and leaves the loading modal alone; one whose request
    fails shows the message of the failure and hides the loading modal,
    and no refresh is run. *)
Theorem failed_submit_keeps_the_form (placed : Response JS.jsstring) (f : Refresh)
    (st : state) :
  let customerName := JS.trim (customer_name_val st) in
  let chosen := List.filter has_product_and_quantity (rows st) in
  let st' := handleOrderSubmit placed f st in
  (forall n, placed <> Ok n) \/ customerName = [] \/ chosen = [] ->
  rows st' = rows st
  /\ customer_name_val st' = customer_name_val st
  /\ orderTotal st' = orderTotal st
  /\ allProducts st' = allProducts st
  /\ (customerName = [] \/ chosen = [] ->
        loadingModal_shown st' = loadingModal_shown st
        /\ exists message, log st' = log st ++ [Toast message error])
  /\ (customerName <> [] -> chosen <> [] ->
        loadingModal_shown st' = false
        /\ log st' = log st
                     ++ [Request POST (JS.lit "/api/orders")
                           (OrderData customerName (List.map item_of chosen));
                         Toast (error_message (JS.lit "Failed to create order") placed)
                               error]).
Proof.
  intros customerName chosen st' H. subst st'. unfold handleOrderSubmit. cbv zeta.
  fold customerName. rewrite collect_items_spec. fold chosen.
  destruct customerName as [|c name] eqn:En.
  { cbn [JS.truthy negb]. do 4 (split; [reflexivity|]).
    split; [|congruence]. intros _. split; [reflexivity|]. eexists. reflexivity. }
  cbn [JS.truthy negb].
  destruct (existsb has_product_and_quantity (rows st)) eqn:Ex; cbn [negb].
  2:{ apply existsb_filter in Ex. fold chosen in Ex.
      do 4 (split; [reflexivity|]).
      split; [|congruence]. intros _. split; [reflexivity|]. eexists. reflexivity. }
  assert (chosen <> []) as Hc.
  { intros Hnil. apply existsb_filter in Hnil. congruence. }
  destruct H as [H | [H | H]]; [|discriminate|contradiction].
  destruct placed as [n|e|m]; [now destruct (H n)| |].
  - do 4 (split; [reflexivity|]).
    split; [intros [Hx|Hx]; congruence|]. intros _ _. split; [reflexivity|].
    cbn [log showToast emit showLoadingModal]. now rewrite <- app_assoc.
  - do 4 (split; [reflexivity|]).
    split; [intros [Hx|Hx]; congruence|]. intros _ _. split; [reflexivity|].
    cbn [log showToast emit showLoadingModal]. now rewrite <- app_assoc.
Qed.

(** X14, on a page with one row of rice: the order is sent, the
    server refuses it, and the row is still there. *)
Lemma failed_submit_keeps_the_form_witness :
  rows (handleOrderSubmit (HttpError (Some (JS.lit "Insufficient stock")))
          (Build_Refresh (Ok []) (Ok tt) (Ok tt)) ready)
  = rows ready
  /\ log (handleOrderSubmit (HttpError (Some (JS.lit "Insufficient stock")))
            (Build_Refresh (Ok []) (Ok tt) (Ok tt)) ready)
     = log ready
       ++ [Request POST (JS.lit "/api/orders")
             (OrderData (JS.lit "Asha")
                [{| product_name := JS.lit "Rice"; quantity := 2 |}]);
           Toast (JS.lit "Insufficient stock") error].
Proof.
  destruct (failed_submit_keeps_the_form
              (HttpError (Some (JS.lit "Insufficient stock")))
              (Build_Refresh (Ok []) (Ok tt) (Ok tt)) ready)
    as (H1 & _ & _ & _ & _ & H6).
  - left. discriminate.
  - split; [exact H1|]. apply H6; discriminate.
Defined.

Lemma chosen_needs_products st :
  options_current st ->
  List.filter has_product_and_quantity (rows st) <> [] -> allProducts st <> [].
Proof.
  intros Ho Hc.
  destruct (List.filter has_product_and_quantity (rows st)) as [|r rs] eqn:E;
    [congruence|].
  assert (In r (List.filter has_product_and_quantity (rows st))) as Hin
      by (rewrite E; now left).
  apply filter_In in Hin as [Hr Hh].
  destruct (item_in_stock st r Ho Hr Hh) as (_ & p & Hp & _).
  intros Hnil. rewrite Hnil in Hp. destruct Hp.
Qed.

Lemma resetOrderForm_frame st :
  customer_name_val (resetOrderForm st) = []
  /\ orderTotal (resetOrderForm st) = Double.zero
  /\ allProducts (resetOrderForm st) = allProducts st
  /\ loadingModal_shown (resetOrderForm st) = loadingModal_shown st
  /\ rows (resetOrderForm st)
     = match allProducts st with
       | [] => []
       | _ :: _ => [new_row 0 (List.map product_option (allProducts st))]
       end.
Proof.
  unfold resetOrderForm, addFirstProductRow, addProductRow. cbv zeta.
  cbn [rows set_rows set_customer_name length Nat.eqb allProducts].
  destruct (allProducts st) as [|p ps] eqn:E;
    unfold option_elements;
    cbn [customer_name_val orderTotal allProducts loadingModal_shown rows
         set_orderTotal updateOrderTotal set_rows set_customer_name showToast emit
         length app];
    rewrite ?E; repeat split.
Qed.

(** X15: on a page the handlers can produce, an order that is placed
    clears the customer name, sets the total to 0, leaves one fresh row
    that offers the products of the refreshed list, and hides the loading
    modal; the log holds the order, the notification with the order
    number, then the refresh between its two notifications, with the
    three list requests in their order. *)
Theorem placed_order_resets_the_form (order_number : JS.jsstring) (f : Refresh)
    (st : state) :
  let customerName := JS.trim (customer_name_val st) in
  let chosen := List.filter has_product_and_quantity (rows st) in
  let st' := handleOrderSubmit (Ok order_number) f st in
  reachable st -> customerName <> [] -> chosen <> [] ->
  customer_name_val st' = []
  /\ orderTotal st' = Double.zero
  /\ loadingModal_shown st' = false
  /\ allProducts st' = products_after (products_response f) st
  /\ rows st' = [new_row 0 (List.map product_option (allProducts st'))]
  /\ exists between,
       log st' = log st
                 ++ [Request POST (JS.lit "/api/orders")
                       (OrderData customerName (List.map item_of chosen));
                     Toast (JS.lit "Order " ++ order_number
                            ++ JS.lit " placed successfully!") success;
                     Toast (JS.lit "Refreshing data...") info]
                 ++ between
                 ++ [Toast (JS.lit "Data refreshed successfully") success]
       /\ List.filter is_request between
          = [Request GET (JS.lit "/api/manage-products") NoBody;
             Request GET (JS.lit "/api/orders?per_page=10") NoBody;
             Request GET (JS.lit "/api/stats") NoBody].
Proof.
  intros customerName chosen st' Hreach Hn Hc.
  assert (options_current st) as Ho.
  { destruct Hreach as [actions ->].
    apply (page_run actions constructed). split; [constructor | reflexivity]. }
  pose proof (chosen_needs_products st Ho Hc) as Hps.
  subst st'. unfold handleOrderSubmit. cbv zeta.
  fold customerName. rewrite collect_items_spec. fold chosen.
  destruct customerName as [|c name] eqn:En; [congruence|].
  cbn [JS.truthy negb].
  destruct (existsb has_product_and_quantity (rows st)) eqn:Ex; cbn [negb].
  2:{ apply existsb_filter in Ex. fold chosen in Ex. congruence. }
  match goal with
  | |- context [refreshData f ?s] =>
      destruct (refreshData_frame f s) as (Ha & Hcn & Ht & Hl & Hrows);
      pose proof (log_refreshData f s) as Hlog
  end.
  match goal with
  | |- context [resetOrderForm ?s] =>
      destruct (resetOrderForm_frame s) as (Rn & Rt & Ra & Rl & Rr)
  end.
  cbn [allProducts showToast emit showLoadingModal] in Ra, Rr.
  cbn [customer_name_val orderTotal loadingModal_shown allProducts rows log
       showLoadingModal].
  rewrite Ha, Hcn, Ht, Hrows, Rn, Rt.
  split; [reflexivity|]. split; [reflexivity|]. split; [reflexivity|].
  split.
  { destruct (products_response f) as [ps|e|m]; cbn [products_after]; [reflexivity| |];
      exact Ra. }
  split.
  { destruct (allProducts st) as [|p0 ps0] eqn:E0; [congruence|].
    destruct (products_response f) as [ps|e|m];
      cbn [fetchProducts_resume products_after updateProductSelects rows set_rows
           set_allProducts showToast emit allProducts];
      rewrite ?Rr, ?Ra; reflexivity. }
  exists (load_events f). split; [|apply load_events_requests].
  rewrite Hlog, log_resetOrderForm.
  cbn [log showToast emit showLoadingModal allProducts].
  destruct (allProducts st) as [|p0 ps0]; [congruence|].
  rewrite app_nil_r, <- !app_assoc. reflexivity.
Qed.

(** X15, on a page with one row of rice: after the order, one fresh
    row offers the oil of the refreshed list. *)
Lemma placed_order_resets_the_form_witness :
  rows (handleOrderSubmit (Ok (JS.lit "ORD-1"))
          (Build_Refresh (Ok [oil]) (Ok tt) (Ok tt)) ready)
  = [new_row 0 [product_option oil]].
Proof.
  destruct (placed_order_resets_the_form (JS.lit "ORD-1")
              (Build_Refresh (Ok [oil]) (Ok tt) (Ok tt)) ready)
    as (_ & _ & _ & Ha & Hr & _).
  - exists [ProductsArrive (Ok [rice; oil]); OnRow AddRow;
            OnRow (ChangeProduct 0 (Some 0%nat)); OnRow (ChangeQuantity 0 (JS.lit "2"));
            TypeCustomerName (JS.lit "Asha")].
    reflexivity.
  - discriminate.
  - discriminate.
  - rewrite Hr, Ha. reflexivity.
Defined.

End ComposerSubmitProps.

Section ComposerRefreshProps.

Import GroceryStore ComposerSpec ComposerProps.

Lemma updateProductSelects_texts st :
  List.map subtotal_text (rows (updateProductSelects st)) = List.map subtotal_text (rows st)
  /\ List.map quantity_val (rows (updateProductSelects st))
     = List.map quantity_val (rows st).
Proof.
  unfold updateProductSelects. cbv zeta. cbn [rows set_rows].
  rewrite !List.map_map. split; apply List.map_ext; intros r;
    destruct (JS.truthy (select_val r)); reflexivity.
Qed.

Lemma fetchProducts_resume_texts r st :
  List.map subtotal_text (rows (fetchProducts_resume r st))
  = List.map subtotal_text (rows st)
  /\ List.map quantity_val (rows (fetchProducts_resume r st))
     = List.map quantity_val (rows st).
Proof.
  destruct r as [ps|e|m]; [|split; reflexivity|split; reflexivity].
  apply (updateProductSelects_texts (set_allProducts ps st)).
Qed.

(** X16: [refreshData] announces the refresh, sends the three list
    requests in their order, and announces success whether or not they
    failed; a failed product or order request is notified.  The product
    list is replaced only by a list that arrived; the customer name, the
    total, the subtotal texts and the quantities are left as they are. *)
Theorem refreshData_reports (f : Refresh) (st : state) :
  let st' := refreshData f st in
  (exists between,
      log st' = log st
                ++ Toast (JS.lit "Refreshing data...") info
                   :: between
                   ++ [Toast (JS.lit "Data refreshed successfully") success]
      /\ List.filter is_request between
         = [Request GET (JS.lit "/api/manage-products") NoBody;
            Request GET (JS.lit "/api/orders?per_page=10") NoBody;
            Request GET (JS.lit "/api/stats") NoBody]
      /\ (In (Toast (JS.lit "Failed to load products") error) between
          <-> forall ps, products_response f <> Ok ps)
      /\ (In (Toast (JS.lit "Failed to load orders") error) between
          <-> forall o, orders_response f <> Ok o))
  /\ allProducts st' = products_after (products_response f) st
  /\ customer_name_val st' = customer_name_val st
  /\ orderTotal st' = orderTotal st
  /\ List.map subtotal_text (rows st') = List.map subtotal_text (rows st)
  /\ List.map quantity_val (rows st') = List.map quantity_val (rows st).
Proof.
  intros st'. subst st'.
  destruct (refreshData_frame f st) as (Ha & Hn & Ht & _ & Hr).
  rewrite Ha, Hn, Ht, Hr.
  split; [|split; [reflexivity|split; [reflexivity|split; [reflexivity|]]];
          apply fetchProducts_resume_texts].
  exists (load_events f). split; [apply log_refreshData|].
  split; [apply load_events_requests|].
  unfold load_events.
  destruct (products_response f) as [ps|e|m], (orders_response f) as [o|e'|m'];
    cbn [products_toast orders_toast app In];
    (split;
     (split;
      [ intros H;
        repeat (destruct H as [H|H]; [try discriminate H|]); try destruct H;
        try (vm_compute in H; discriminate H); intros x; discriminate
      | intros H; first [ now destruct (H _ eq_refl) | auto 6 ] ])).
Qed.

End ComposerRefreshProps.

Section ComposerRowProps.

Import GroceryStore ComposerSpec ComposerProps.




End ComposerRowProps.

Section ComposerSelectProps.

Import GroceryStore ComposerSpec ComposerProps.

Lemma eqb_eq s t : JS.eqb s t = true <-> s = t.
Proof. unfold JS.eqb. apply bool_decide_eq_true. Qed.





End ComposerSelectProps.
